(** * OpenAI Model Fetcher: the API client and the profile store

  A shallow embedding of the two variants of the program,
  [app.py] (customtkinter) and [main.py] (PySide6 / qfluentwidgets):
  the URL validator, the model-listing request with its error messages,
  the configuration files, and the handlers that run a fetch and save
  the inputs afterwards.

  Conventions.
  - A Python [str] is a list of Unicode code points ([N]); the literals of
    the source are written as Rocq strings and decoded from UTF-8 by [py].
  - A call that may raise returns an [outcome]; [try_except] dispatches on
    the class of the exception, first matching clause first, as Python does.
  - What the program gets from outside is passed in: the reply of the
    network to [requests.get], the files of the configuration directory,
    the clock.
  - The window handles one event at a time. A fetch is two of them, the
    click that starts the thread and the handler of what the thread hands
    back; other events can come in between. *)

From Stdlib Require Import String Ascii ZArith NArith List Lia DecimalString.
From stdpp Require Import base option list gmap.

Set Default Proof Using "Type".
Set Warnings "-register-all".

(* ===================================================================== *)
(** ** Python strings *)
(* ===================================================================== *)

Module PyStr.

(** A character is its code point. *)
Abbreviation str := (list N).

(** UTF-8 decoding of a well-formed byte sequence. *)
Fixpoint utf8 (bs : list N) : str :=
  match bs with
  | [] => []
  | b :: r0 =>
    if (b <? 128)%N then b :: utf8 r0 else
    match r0 with
    | [] => [b]
    | b1 :: r1 =>
      if (b <? 224)%N then ((b - 192) * 64 + (b1 - 128))%N :: utf8 r1 else
      match r1 with
      | [] => [b]
      | b2 :: r2 =>
        if (b <? 240)%N
        then ((b - 224) * 4096 + (b1 - 128) * 64 + (b2 - 128))%N :: utf8 r2
        else
          match r2 with
          | [] => [b]
          | b3 :: r3 =>
            ((b - 240) * 262144 + (b1 - 128) * 4096
             + (b2 - 128) * 64 + (b3 - 128))%N :: utf8 r3
          end
      end
    end
  end.

(** A literal of the source. *)
Definition py (s : string) : str :=
  utf8 (N_of_ascii <$> list_ascii_of_string s).

Definition chr (a : ascii) : N := N_of_ascii a.

Definition str_eqb (a b : str) : bool := bool_decide (a = b).

(** [x in xs] for a list or tuple of strings. *)
Definition str_in (x : str) (xs : list str) : bool :=
  existsb (str_eqb x) xs.

(** [c in s] for a character. *)
Definition char_in (c : N) (s : str) : bool := existsb (N.eqb c) s.

(** [bool(s)]: a string is true when it is not empty. *)
Definition truthy (s : str) : bool :=
  match s with [] => false | _ :: _ => true end.

(** [c.isspace()]: the code points with the White_Space property
    (bidirectional type WS, B or S, or category Zs). *)
Definition isspace (c : N) : bool :=
  ((9 <=? c) && (c <=? 13) || (28 <=? c) && (c <=? 32)
   || (c =? 133) || (c =? 160) || (c =? 5760)
   || (8192 <=? c) && (c <=? 8202)
   || (c =? 8232) || (c =? 8233) || (c =? 8239) || (c =? 8287)
   || (c =? 12288))%N.

Fixpoint lstrip_by (p : N → bool) (s : str) : str :=
  match s with
  | [] => []
  | c :: s' => if p c then lstrip_by p s' else s
  end.

Definition rstrip_by (p : N → bool) (s : str) : str :=
  rev (lstrip_by p (rev s)).

(** [s.strip()] *)
Definition strip (s : str) : str := rstrip_by isspace (lstrip_by isspace s).

(** [s.rstrip(chars)] and [s.lstrip(chars)] *)
Definition rstrip (chars : str) (s : str) : str :=
  rstrip_by (λ c, char_in c chars) s.
Definition lstrip (chars : str) (s : str) : str :=
  lstrip_by (λ c, char_in c chars) s.

(** [s.replace(c, "")] for a single character [c]. *)
Definition remove_char (c : N) (s : str) : str :=
  filter (λ x, x ≠ c) s.

(** [s.find(c)]: [None] stands for -1. *)
Fixpoint find (c : N) (s : str) : option nat :=
  match s with
  | [] => None
  | x :: s' => if (x =? c)%N then Some 0 else S <$> find c s'
  end.

(** [s.find(c, start)] *)
Definition find_from (c : N) (start : nat) (s : str) : option nat :=
  (λ i, start + i) <$> find c (drop start s).

(** [s.rfind(c)] *)
Fixpoint rfind (c : N) (s : str) : option nat :=
  match s with
  | [] => None
  | x :: s' =>
    match rfind c s' with
    | Some i => Some (S i)
    | None => if (x =? c)%N then Some 0 else None
    end
  end.

(** [s.split(c, 1)] when [c] occurs in [s], and [s.partition(c)]. *)
Definition split_once (c : N) (s : str) : str * str :=
  match find c s with
  | Some i => (take i s, drop (S i) s)
  | None => (s, [])
  end.

(** [s.split(c)] *)
Fixpoint split (c : N) (s : str) : list str :=
  match s with
  | [] => [[]]
  | x :: s' =>
    if (x =? c)%N then [] :: split c s'
    else match split c s' with
         | [] => [[x]]
         | seg :: segs => (x :: seg) :: segs
         end
  end.

(** [sep.join(parts)] *)
Fixpoint join (sep : str) (parts : list str) : str :=
  match parts with
  | [] => []
  | [p] => p
  | p :: ps => p ++ sep ++ join sep ps
  end.

Definition isascii (c : N) : bool := (c <? 128)%N.
Definition isupper_ascii (c : N) : bool := ((65 <=? c) && (c <=? 90))%N.
Definition islower_ascii (c : N) : bool := ((97 <=? c) && (c <=? 122))%N.
Definition isalpha_ascii (c : N) : bool := isupper_ascii c || islower_ascii c.
Definition isdigit_ascii (c : N) : bool := ((48 <=? c) && (c <=? 57))%N.

(** [s.lower()] on a string of ASCII characters. *)
Definition lower_char (c : N) : N :=
  if isupper_ascii c then (c + 32)%N else c.
Definition lower (s : str) : str := lower_char <$> s.

Definition startswith (p s : str) : bool := str_eqb (take (length p) s) p.

(** [k in s] for strings: [k] occurs in [s]. *)
Fixpoint occurs_in (k s : str) : bool :=
  startswith k s
  || match s with
     | [] => false
     | _ :: s' => occurs_in k s'
     end.

Definition endswith (p s : str) : bool :=
  str_eqb (drop (length s - length p) s) p.

(** [str(n)] for an integer. *)
Definition str_of_Z (z : Z) : str :=
  N_of_ascii <$> list_ascii_of_string (NilZero.string_of_int (Z.to_int z)).

End PyStr.
Import PyStr.

(* ===================================================================== *)
(** ** Exceptions and the outcome of a call *)
(* ===================================================================== *)

Module Py.

(** The exception classes the program can meet: Python's own, those of
    [json] and of [requests.exceptions], and the program's [APIError]. *)
Inductive pyclass :=
| Exception | LookupError | KeyError | ValueError | UnicodeError
| UnicodeEncodeError | AttributeError | TypeError | OSError | PermissionError | FileNotFoundError
| json_JSONDecodeError
| RequestException | InvalidJSONError | requests_JSONDecodeError
| HTTPError | ConnectionError | ProxyError | SSLError
| Timeout | ConnectTimeout | ReadTimeout
| URLRequired | TooManyRedirects
| MissingSchema | InvalidSchema | InvalidURL | InvalidHeader
| InvalidProxyURL | ChunkedEncodingError | ContentDecodingError
| StreamConsumedError | RetryError | UnrewindableBodyError
| APIError.

#[global] Instance pyclass_eq_dec : EqDecision pyclass.
Proof. solve_decision. Defined.

(** The base classes each class is declared with. *)
Definition bases (c : pyclass) : list pyclass :=
  match c with
  | Exception => []
  | LookupError | ValueError | AttributeError | TypeError | OSError =>
      [Exception]
  | KeyError => [LookupError]
  | UnicodeError => [ValueError]
  | UnicodeEncodeError => [UnicodeError]
  | PermissionError | FileNotFoundError => [OSError]
  | json_JSONDecodeError => [ValueError]
  | RequestException => [OSError]
  | InvalidJSONError => [RequestException]
  | requests_JSONDecodeError => [InvalidJSONError; json_JSONDecodeError]
  | HTTPError | ConnectionError | Timeout | URLRequired | TooManyRedirects
  | ChunkedEncodingError | ContentDecodingError | RetryError
  | UnrewindableBodyError => [RequestException]
  | ProxyError | SSLError => [ConnectionError]
  | ConnectTimeout => [ConnectionError; Timeout]
  | ReadTimeout => [Timeout]
  | MissingSchema | InvalidSchema | InvalidURL | InvalidHeader =>
      [RequestException; ValueError]
  | InvalidProxyURL => [InvalidURL]
  | StreamConsumedError => [RequestException; TypeError]
  | APIError => [Exception]
  end.

Fixpoint ancestors (depth : nat) (c : pyclass) : list pyclass :=
  c :: match depth with
       | 0 => []
       | S d => flat_map (ancestors d) (bases c)
       end.

(** [issubclass(c, d)]; no chain of bases is longer than five. *)
Definition issubclass (c d : pyclass) : bool :=
  bool_decide (d ∈ ancestors 5 c).

(** An exception: its class and [str(e)]. *)
Record exn := mk_exn { cls : pyclass; text : str }.

Definition isinstance (e : exn) (d : pyclass) : bool := issubclass (cls e) d.

Inductive outcome (A : Type) :=
| Return (a : A)
| Raise (e : exn).
Arguments Return {A} a.
Arguments Raise {A} e.

#[global] Instance outcome_ret : MRet outcome := λ A a, Return a.
#[global] Instance outcome_bind : MBind outcome := λ A B k m,
  match m with
  | Return a => k a
  | Raise e => Raise e
  end.

(** One [except] clause: the classes it names and its body. *)
Definition clause (A : Type) : Type := list pyclass * (exn → outcome A).

(** The first clause naming a class of the exception handles it; an
    exception a handler raises is not offered to the clauses after it. *)
Fixpoint dispatch {A} (clauses : list (clause A)) (e : exn) : outcome A :=
  match clauses with
  | [] => Raise e
  | (classes, handler) :: rest =>
    if existsb (isinstance e) classes then handler e else dispatch rest e
  end.

Definition try_except {A} (body : outcome A) (clauses : list (clause A))
  : outcome A :=
  match body with
  | Return a => Return a
  | Raise e => dispatch clauses e
  end.

Definition raise {A} (c : pyclass) (msg : str) : outcome A :=
  Raise (mk_exn c msg).

(** Values as [json] decodes them and as the program passes them on. A
    [dict] is its list of items, keys distinct; a lookup takes the first. *)
Inductive value :=
| VNone
| VBool (b : bool)
| VInt (z : Z)
| VFloat (repr : str)
| VStr (s : str)
| VList (items : list value)
| VDict (items : list (str * value)).

Definition lookup_key (k : str) (items : list (str * value)) : option value :=
  snd <$> List.find (λ kv, str_eqb (fst kv) k) items.

Definition is_dict (v : value) : bool :=
  match v with VDict _ => true | _ => false end.
Definition is_list (v : value) : bool :=
  match v with VList _ => true | _ => false end.

(** [type(v).__name__] *)
Definition type_name (v : value) : str :=
  match v with
  | VNone => py "NoneType"
  | VBool _ => py "bool"
  | VInt _ => py "int"
  | VFloat _ => py "float"
  | VStr _ => py "str"
  | VList _ => py "list"
  | VDict _ => py "dict"
  end.

(** [v.get(k, default)]: only a dict has the method. *)
Definition get (v : value) (k : str) (default : value) : outcome value :=
  match v with
  | VDict items => Return (from_option id default (lookup_key k items))
  | _ => raise AttributeError
           (py "'" ++ type_name v ++ py "' object has no attribute 'get'")
  end.

(** [k in d] and [d[k]] for a dict. *)
Definition dict_contains (items : list (str * value)) (k : str) : bool :=
  bool_decide (is_Some (lookup_key k items)).
Definition getitem (items : list (str * value)) (k : str) : outcome value :=
  match lookup_key k items with
  | Some v => Return v
  | None => raise KeyError k
  end.

(** [bool(v)] *)
Definition truth (v : value) : bool :=
  match v with
  | VNone => false
  | VBool b => b
  | VInt z => negb (z =? 0)%Z
  | VFloat r => negb (str_in r [py "0.0"; py "-0.0"])
  | VStr s => truthy s
  | VList items => match items with [] => false | _ => true end
  | VDict items => match items with [] => false | _ => true end
  end.

End Py.
Import Py.

(* ===================================================================== *)
(** ** [urllib.parse] (CPython 3.11): [urlparse] and [urljoin] *)
(* ===================================================================== *)

(** What the interpreter's Unicode and address tables decide: the NFKC
    normal form of a string ([unicodedata.normalize]), whether a host
    written between brackets is accepted ([_check_bracketed_host]), and
    [str.lower()] of a string that is not all ASCII. *)
Class Host := {
  nfkc : str → str;
  bracketed_host_ok : str → bool;
  to_lower : str → str
}.

Module UrlLib.

Definition uses_relative : list str :=
  Eval vm_compute in
  py <$> [""; "ftp"; "http"; "gopher"; "nntp"; "imap"; "wais"; "file";
          "https"; "shttp"; "mms"; "prospero"; "rtsp"; "rtspu"; "sftp";
          "svn"; "svn+ssh"; "ws"; "wss"]%string.

Definition uses_netloc : list str :=
  Eval vm_compute in
  py <$> [""; "ftp"; "http"; "gopher"; "nntp"; "telnet"; "imap"; "wais";
          "file"; "mms"; "https"; "shttp"; "snews"; "prospero"; "rtsp";
          "rtspu"; "rsync"; "svn"; "svn+ssh"; "sftp"; "nfs"; "git";
          "git+ssh"; "ws"; "wss"]%string.

Definition uses_params : list str :=
  Eval vm_compute in
  py <$> [""; "ftp"; "hdl"; "prospero"; "http"; "imap"; "https"; "shttp";
          "rtsp"; "rtspu"; "sip"; "sips"; "mms"; "sftp"; "tel"]%string.

Definition scheme_chars : str :=
  Eval vm_compute in
    py "abcdefghijklmnopqrstuvwxyzABCDEFGHIJKLMNOPQRSTUVWXYZ0123456789+-.".

(** [_WHATWG_C0_CONTROL_OR_SPACE]: the characters 0 to 32. *)
Definition c0_control_or_space (c : N) : bool := (c <=? 32)%N.

(** [_UNSAFE_URL_BYTES_TO_REMOVE]: tab, carriage return, line feed. *)
Definition remove_unsafe (s : str) : str :=
  remove_char 10%N (remove_char 13%N (remove_char 9%N s)).

Record ParseResult := mk_parse {
  scheme : str;
  netloc : str;
  path : str;
  params : str;
  query : str;
  fragment : str
}.

Definition _splitnetloc (url : str) (start : nat) : str * str :=
  let delim :=
    fold_left
      (λ delim c,
         match find_from c start url with
         | Some wdelim => Nat.min delim wdelim
         | None => delim
         end)
      (py "/?#") (length url) in
  (drop start (take delim url), drop delim url).

(** [s.rpartition(c)[2]] *)
Definition after_last (c : N) (s : str) : str :=
  match rfind c s with
  | Some i => drop (S i) s
  | None => s
  end.

Definition _splitparams (url : str) : str * str :=
  if char_in (chr "/") url then
    match find_from (chr ";") (default 0 (rfind (chr "/") url)) url with
    | None => (url, [])
    | Some i => (take i url, drop (S i) url)
    end
  else
    match find (chr ";") url with
    | Some i => (take i url, drop (S i) url)
    | None => (removelast url, url)
    end.

Definition urlunsplit (scheme netloc url query fragment : str) : str :=
  let url :=
    if truthy netloc
       || (truthy scheme && str_in scheme uses_netloc
           && negb (str_eqb (take 2 url) (py "//")))
    then
      let url :=
        if truthy url && negb (str_eqb (take 1 url) (py "/"))
        then py "/" ++ url else url in
      py "//" ++ netloc ++ url
    else url in
  let url := if truthy scheme then scheme ++ py ":" ++ url else url in
  let url := if truthy query then url ++ py "?" ++ query else url in
  if truthy fragment then url ++ py "#" ++ fragment else url.

Definition urlunparse (p : ParseResult) : str :=
  let url :=
    if truthy (params p) then path p ++ py ";" ++ params p else path p in
  urlunsplit (scheme p) (netloc p) url (query p) (fragment p).

(** [segments[1:-1] = filter(None, segments[1:-1])] *)
Definition drop_empty_middle (segments : list str) : list str :=
  match segments with
  | first :: (_ :: _) as rest =>
      first :: List.filter truthy (removelast rest) ++ [List.last rest []]
  | _ => segments
  end.

(** The loop over the segments: [..] pops, [.] is skipped. *)
Definition resolve_step (resolved_path : list str) (seg : str) : list str :=
  if str_eqb seg (py "..") then removelast resolved_path
  else if str_eqb seg (py ".") then resolved_path
  else resolved_path ++ [seg].

Definition resolve (segments : list str) : list str :=
  fold_left resolve_step segments [].

Section WithHost.
Context `{Host}.

Definition _checknetloc (netloc : str) : outcome () :=
  if negb (truthy netloc) || forallb isascii netloc then Return ()
  else
    let n := remove_char (chr "?") (remove_char (chr "#")
               (remove_char (chr ":") (remove_char (chr "@") netloc))) in
    let netloc2 := nfkc n in
    if str_eqb n netloc2 then Return ()
    else if existsb (λ c, char_in c netloc2) (py "/?#@:")
    then raise ValueError
           (py "netloc '" ++ netloc
            ++ py "' contains invalid characters under NFKC normalization")
    else Return ().

Definition _check_bracketed_host (hostname : str) : outcome () :=
  if bracketed_host_ok hostname then Return ()
  else raise ValueError (py "Invalid IPv6 URL").

Definition _check_bracketed_netloc (netloc : str) : outcome () :=
  let hostname_and_port := after_last (chr "@") netloc in
  if char_in (chr "[") hostname_and_port then
    let '(before_bracket, bracketed) :=
      split_once (chr "[") hostname_and_port in
    if truthy before_bracket then raise ValueError (py "Invalid IPv6 URL")
    else
      let '(hostname, port) := split_once (chr "]") bracketed in
      if truthy port && negb (startswith (py ":") port)
      then raise ValueError (py "Invalid IPv6 URL")
      else _check_bracketed_host hostname
  else
    _check_bracketed_host (fst (split_once (chr ":") hostname_and_port)).

Definition urlsplit (url scheme : str) : outcome ParseResult :=
  let url := lstrip_by c0_control_or_space url in
  let scheme :=
    rstrip_by c0_control_or_space (lstrip_by c0_control_or_space scheme) in
  let url := remove_unsafe url in
  let scheme := remove_unsafe scheme in
  let '(scheme, url) :=
    match find (chr ":") url, url with
    | Some (S _ as i), c0 :: _ =>
      if isascii c0 && isalpha_ascii c0
         && forallb (λ c, char_in c scheme_chars) (take i url)
      then (lower (take i url), drop (S i) url)
      else (scheme, url)
    | _, _ => (scheme, url)
    end in
  '(netloc, url) ←
    (if str_eqb (take 2 url) (py "//") then
       let '(netloc, url) := _splitnetloc url 2 in
       if char_in (chr "[") netloc && negb (char_in (chr "]") netloc)
          || char_in (chr "]") netloc && negb (char_in (chr "[") netloc)
       then raise ValueError (py "Invalid IPv6 URL")
       else
         _ ← (if char_in (chr "[") netloc && char_in (chr "]") netloc
              then _check_bracketed_netloc netloc else Return ());
         Return (netloc, url)
     else Return ([], url));
  let '(url, fragment) :=
    if char_in (chr "#") url then split_once (chr "#") url else (url, []) in
  let '(url, query) :=
    if char_in (chr "?") url then split_once (chr "?") url else (url, []) in
  _ ← _checknetloc netloc;
  Return (mk_parse scheme netloc url [] query fragment).

Definition urlparse (url scheme : str) : outcome ParseResult :=
  r ← urlsplit url scheme;
  if str_in (UrlLib.scheme r) uses_params && char_in (chr ";") (path r) then
    let '(url, params) := _splitparams (path r) in
    Return (mk_parse (UrlLib.scheme r) (netloc r) url params
              (query r) (fragment r))
  else Return r.

Definition urljoin (base url : str) : outcome str :=
  if negb (truthy base) then Return url
  else if negb (truthy url) then Return base
  else
    b ← urlparse base [];
    u ← urlparse url (scheme b);
    if negb (str_eqb (scheme u) (scheme b))
       || negb (str_in (scheme u) uses_relative)
    then Return url
    else if str_in (scheme u) uses_netloc && truthy (netloc u)
    then Return (urlunparse u)
    else
      let netloc :=
        if str_in (scheme u) uses_netloc then netloc b else netloc u in
      if negb (truthy (path u)) && negb (truthy (params u)) then
        let query := if negb (truthy (query u)) then query b else query u in
        Return (urlunparse
                  (mk_parse (scheme u) netloc (path b) (params b)
                     query (fragment u)))
      else
        let base_parts := split (chr "/") (path b) in
        let base_parts :=
          if truthy (List.last base_parts [])
          then removelast base_parts else base_parts in
        let segments :=
          if str_eqb (take 1 (path u)) (py "/")
          then split (chr "/") (path u)
          else drop_empty_middle (base_parts ++ split (chr "/") (path u)) in
        let resolved_path := resolve segments in
        let resolved_path :=
          if str_in (List.last segments []) [py "."; py ".."]
          then resolved_path ++ [[]] else resolved_path in
        let joined := join (py "/") resolved_path in
        Return (urlunparse
                  (mk_parse (scheme u) netloc
                     (if truthy joined then joined else py "/")
                     (params u) (query u) (fragment u))).

End WithHost.
End UrlLib.

(** The tables of an interpreter as far as ASCII input goes: NFKC leaves
    ASCII text alone; no bracketed host is accepted; the letters [A] to
    [Z] are the ones lowered. *)
Definition ascii_host : Host :=
  {| nfkc := λ s, s; bracketed_host_ok := λ _, false; to_lower := lower |}.

(* ===================================================================== *)
(** ** The network and the configuration directory *)
(* ===================================================================== *)

Module Requests.

(** What the client reads of a response: the status code and what
    [response.json()] gives, a decoded value or the decoder's exception. *)
Record Response := mk_response {
  status_code : Z;
  json : outcome value
}.

(** [requests.get(url, timeout=..., headers=...)]: the reply, or the
    exception of [requests.exceptions] the transport ends with. *)
Definition get_fn : Type := str → Z → list (str * str) → outcome Response.

End Requests.

Module Disk.

(** A file of the configuration directory, as the program meets it. *)
Inductive file :=
| Json (v : value)   (** text that [json] decodes to [v] *)
| Garbled            (** text that [json] rejects, the empty text too *)
| Locked.            (** a file the program may not open, to read or write *)

(** [json.load(open(path))], [json.loads(path.read_text())] *)
Definition read_json (f : file) : outcome value :=
  match f with
  | Json v => Return v
  | Garbled => raise json_JSONDecodeError (py "Expecting value")
  | Locked => raise PermissionError (py "Permission denied")
  end.

(** The directory [~/.openai_model_fetcher]: file name to file. The names
    are single path components. The directory itself is open to the
    program and the disk has room: a new file can be made, a file that is
    not [Locked] can be written, any file can be removed. *)
Abbreviation dir := (gmap str file).

(** *** Writing text

    The files are written as UTF-8, and the codec refuses the code points
    of a surrogate. *)
Definition surrogate (c : N) : bool := ((55296 <=? c) && (c <=? 57343))%N.

Definition encodable (s : str) : bool := forallb (λ c, negb (surrogate c)) s.

Definition hex_digit (n : N) : N :=
  if (n <? 10)%N then (48 + n)%N else (87 + n)%N.

(** [format(c, '04x')] *)
Definition hex4 (c : N) : str :=
  [ hex_digit ((c / 4096) mod 16); hex_digit ((c / 256) mod 16);
    hex_digit ((c / 16) mod 16); hex_digit (c mod 16) ]%N.

(** [text.encode('utf-8')] from character [i] on, where it fails: the
    [UnicodeEncodeError] names the first run of surrogates. *)
Fixpoint encode_error_from (i : nat) (text : str) : option exn :=
  match text with
  | [] => None
  | c :: rest =>
    if surrogate c then
      let run := length rest - length (lstrip_by surrogate rest) in
      Some (mk_exn UnicodeEncodeError
              (py "'utf-8' codec can't encode "
               ++ match run with
                  | 0 =>
                    py "character '\u" ++ hex4 c ++ py "' in position "
                    ++ str_of_Z (Z.of_nat i)
                  | _ =>
                    py "characters in position " ++ str_of_Z (Z.of_nat i)
                    ++ py "-" ++ str_of_Z (Z.of_nat (i + run))
                  end
               ++ py ": surrogates not allowed"))
    else encode_error_from (S i) rest
  end.

Definition encode_error (text : str) : option exn := encode_error_from 0 text.

(** The first of the writes [f.write(chunk)] that fails. *)
Fixpoint first_error (chunks : list str) : option exn :=
  match chunks with
  | [] => None
  | chunk :: rest =>
    match encode_error chunk with
    | Some e => Some e
    | None => first_error rest
    end
  end.

(** [open(path, 'w', encoding='utf-8')] and the writes of [chunks], one
    after the other; [content] is the file when all of them went through.
    Opening the file empties it: when a write fails, what is left is the
    text written before, which [json] rejects. *)
Definition write_file (path : str) (chunks : list str) (content : file)
    (d : dir) : outcome () * dir :=
  match d !! path with
  | Some Locked => (raise PermissionError (py "Permission denied"), d)
  | _ =>
    match first_error chunks with
    | Some e => (Raise e, <[path := Garbled]> d)
    | None => (Return (), <[path := content]> d)
    end
  end.

(** [json.dumps(s, ensure_ascii=False)] for a string. *)
Definition json_char (c : N) : str :=
  if (c =? 34)%N then [92; 34]%N
  else if (c =? 92)%N then [92; 92]%N
  else if (c =? 10)%N then [92; 110]%N
  else if (c =? 13)%N then [92; 114]%N
  else if (c =? 9)%N then [92; 116]%N
  else if (c =? 12)%N then [92; 102]%N
  else if (c =? 8)%N then [92; 98]%N
  else if (c <? 32)%N then [92; 117]%N ++ hex4 c
  else [c].

Definition json_string (s : str) : str :=
  [34%N] ++ flat_map json_char s ++ [34%N].

(** What [json.dump(config_data, f, indent=2, ensure_ascii=False)] hands
    to [f.write], piece by piece, up to the key; [json.dumps] gives the
    pieces joined. The rest, the name [last_updated] and the timestamp of
    [datetime.now().isoformat()], is ASCII. *)
Definition config_chunks (url api_key : str) : list str :=
  [ py "{"; [10; 32; 32]%N; json_string (py "base_url"); py ": ";
    json_string url; [44; 10; 32; 32]%N; json_string (py "api_key");
    py ": "; json_string api_key ].

(** [Path(name).stem] *)
Definition stem (name : str) : str :=
  match rfind (chr ".") name with
  | Some (S _ as i) => if i <? length name - 1 then take i name else name
  | _ => name
  end.

(** [config_dir.glob("*.json")]: the names of the directory that end in
    [.json], in the order the directory gives them. *)
Definition glob_json (d : dir) : list str :=
  List.filter (endswith (py ".json")) (fst <$> map_to_list d).

(** The record [save] and [save_config] write. *)
Definition config_data (url api_key now : str) : value :=
  VDict [(py "base_url", VStr url);
         (py "api_key", VStr api_key);
         (py "last_updated", VStr now)].

(** The dict [load] and [load_config] return. *)
Record Config := mk_config {
  cfg_base_url : value;
  cfg_api_key : value
}.

(** [api_key or ""], [api_key if api_key else ""] *)
Definition or_empty (api_key : option str) : str := default [] api_key.

End Disk.

(** ** Reading the messages by kind

    The program reports a failed fetch as an [APIError] with a message; the
    label that opens the message tells the failures apart. [kind_of] names
    the labels after the error kinds of the design. *)
Module Kind.

Inductive ApiErrorKind :=
| InvalidInput | Timeout | ConnectionFailed | NetworkError | Unauthorized
| NotFound | ServerError | UnexpectedStatus | MalformedResponse
| InvalidSchema | Unknown.

Definition labels : list (str * ApiErrorKind) :=
  [ (py "请求超时", Timeout);
    (py "连接错误", ConnectionFailed);
    (py "网络请求错误", NetworkError);
    (py "认证失败", Unauthorized);
    (py "端点不存在", NotFound);
    (py "服务器", ServerError);
    (py "HTTP错误", UnexpectedStatus);
    (py "JSON解析错误", MalformedResponse);
    (py "响应解析错误", MalformedResponse);
    (py "响应格式错误", InvalidSchema);
    (py "未知错误", Unknown) ].

Definition kind_of (message : str) : ApiErrorKind :=
  match List.find (λ lk, startswith (fst lk) message) labels with
  | Some (_, k) => k
  | None => Unknown
  end.

(** [message] carries [detail]: the detail is a part of the message. *)
Definition carries (message detail : str) : Prop :=
  ∃ before after, message = before ++ detail ++ after.

(** A call failed with an [APIError] of kind [k]. *)
Definition fails_with {A} (o : outcome A) (k : ApiErrorKind) : Prop :=
  ∃ message, o = raise APIError message ∧ kind_of message = k.

(** ... and the message carries [detail]. *)
Definition fails_carrying {A} (o : outcome A) (k : ApiErrorKind)
    (detail : str) : Prop :=
  ∃ message,
    o = raise APIError message ∧ kind_of message = k
    ∧ carries message detail.

End Kind.

(** ** Handlers: state and exceptions *)

Module Gui.

(** A handler runs on the state of the window and of the directory; when it
    raises, the state is what it was at the [raise]. *)
Definition action (S A : Type) : Type := S → outcome A * S.

#[global] Instance action_ret {S} : MRet (action S) := λ A a s, (Return a, s).
#[global] Instance action_bind {S} : MBind (action S) := λ A B k m s,
  match m s with
  | (Return a, s') => k a s'
  | (Raise e, s') => (Raise e, s')
  end.

Definition lift {S A} (o : outcome A) : action S A := λ s, (o, s).
Definition gets {S A} (f : S → A) : action S A := λ s, (Return (f s), s).
Definition modify {S} (f : S → S) : action S () := λ s, (Return (), f s).

(** [try: body except ...] around a handler. *)
Definition try_action {S A} (body : action S A)
    (clauses : list (list pyclass * (exn → action S A))) : action S A :=
  λ s, match body s with
       | (Return a, s') => (Return a, s')
       | (Raise e, s') =>
         match List.find (λ c, existsb (isinstance e) (fst c)) clauses with
         | Some (_, handler) => handler e s'
         | None => (Raise e, s')
         end
       end.

(** The event loop runs one handler after the other: what the first
    raises is reported, and the second runs all the same. *)
Definition and_then {S A B} (first : action S A) (second : action S B)
  : action S B :=
  λ s, second (first s).2.

(** A handler of a part of the state, run on the whole. *)
Definition zoom {S T A} (part : S → T) (put : T → S → S) (m : action T A)
  : action S A :=
  λ s, let '(r, t) := m (part s) in (r, put t s).

(** [for x in xs: body(x)] *)
Fixpoint for_each {S A} (xs : list A) (body : A → action S ()) : action S () :=
  match xs with
  | [] => mret ()
  | x :: xs' => body x;; for_each xs' body
  end.

(** Iterating over a value: a list gives its items, a dict its keys, a
    string its characters; nothing else can be iterated. *)
Definition iter (v : value) : outcome (list value) :=
  match v with
  | VList items => Return items
  | VDict items => Return ((λ kv, VStr (fst kv)) <$> items)
  | VStr s => Return ((λ c, VStr [c]) <$> s)
  | _ => raise TypeError
           (py "'" ++ type_name v ++ py "' object is not iterable")
  end.

(** [len(v)] *)
Definition len (v : value) : outcome nat :=
  match v with
  | VList items => Return (length items)
  | VDict items => Return (length items)
  | VStr s => Return (length s)
  | _ => raise TypeError
           (py "object of type '" ++ type_name v ++ py "' has no len()")
  end.

End Gui.

Import Requests Disk Gui.

(* ===================================================================== *)
(** ** [app.py]: the customtkinter variant *)
(* ===================================================================== *)

Module App.

Record OpenAIAPIClient := mk_client {
  base_url : str;
  api_key : option str
}.

(** [OpenAIAPIClient.__init__] *)
Definition __init__ (base_url : str) (api_key : option str) : OpenAIAPIClient :=
  {| base_url := strip base_url;
     api_key := match api_key with
                | Some k => if truthy k then Some (strip k) else None
                | None => None
                end |}.

(** [ConfigManager.config_file], within the directory *)
Definition config_file : str := py "config.json".

(** The window: what the entries hold, what the frames show, and the
    directory behind [config_manager]. *)
Record ModelFetcherApp := mk_app {
  url_entry : str;
  key_entry : str;
  validation_error : option str;
  is_loading : bool;
  model_ids : list value;
  status : str * str;
  disk : dir
}.

Definition set_validation (v : option str) (a : ModelFetcherApp) :=
  mk_app (url_entry a) (key_entry a) v (is_loading a) (model_ids a)
    (status a) (disk a).
Definition set_loading_state (b : bool) (a : ModelFetcherApp) :=
  mk_app (url_entry a) (key_entry a) (validation_error a) b (model_ids a)
    (status a) (disk a).
Definition set_model_ids (l : list value) (a : ModelFetcherApp) :=
  mk_app (url_entry a) (key_entry a) (validation_error a) (is_loading a) l
    (status a) (disk a).
Definition show_status (message status_type : str) (a : ModelFetcherApp) :=
  mk_app (url_entry a) (key_entry a) (validation_error a) (is_loading a)
    (model_ids a) (message, status_type) (disk a).
Definition set_disk (d : dir) (a : ModelFetcherApp) :=
  mk_app (url_entry a) (key_entry a) (validation_error a) (is_loading a)
    (model_ids a) (status a) d.

(** [InputFrame.get_url], [InputFrame.get_api_key] *)
Definition get_url (a : ModelFetcherApp) : str := strip (url_entry a).
Definition get_api_key (a : ModelFetcherApp) : str := strip (key_entry a).

(** [ResultsFrame.add_model] *)
Definition add_model (model_id : value) (a : ModelFetcherApp) :=
  set_model_ids (model_ids a ++ [model_id]) a.

(** What the worker thread hands back to the window. The callbacks it
    schedules are lambdas; the one for an error reads [e] when it runs, and
    Python unbinds the name of an [except ... as e] clause when the clause
    ends: run after that, the lambda raises [NameError] and no handler
    runs. *)
Inductive delivery :=
| fetch_success (result : value)
| fetch_error (error_message : str)
| callback_fails.

Section Client.
Context `{Host}.

Definition validate_url (url : str) : outcome bool :=
  try_except
    (let url := strip url in
     if negb (truthy url) then Return false
     else
       parsed ← UrlLib.urlparse url [];
       if negb (str_in (UrlLib.scheme parsed) [py "http"; py "https"])
       then Return false
       else if negb (truthy (UrlLib.netloc parsed)) then Return false
       else Return true)
    [ ([Exception], λ _, Return false) ].

(** The target of the request, the first statement of [fetch_models]. *)
Definition endpoint_of (self : OpenAIAPIClient) : outcome str :=
  UrlLib.urljoin (rstrip (py "/") (base_url self) ++ py "/") (py "models").

Definition headers_of (self : OpenAIAPIClient) : list (str * str) :=
  (py "Accept", py "application/json")
  :: match api_key self with
     | Some k =>
       if truthy k then [(py "Authorization", py "Bearer " ++ k)] else []
     | None => []
     end.

Variable requests_get : get_fn.

Definition fetch_models (self : OpenAIAPIClient) : outcome value :=
  try_except
    (endpoint ← endpoint_of self;
     let headers := headers_of self in
     response ← requests_get endpoint 30%Z headers;
     if (status_code response =? 401)%Z then
       raise APIError (py "认证失败：API密钥无效或缺失（401 Unauthorized）")
     else if (status_code response =? 404)%Z then
       raise APIError
         (py "端点不存在：" ++ endpoint ++ py " 未找到（404 Not Found）")
     else if (status_code response =? 500)%Z then
       raise APIError
         (py "服务器错误：API服务器内部错误（500 Internal Server Error）")
     else if negb (status_code response =? 200)%Z then
       raise APIError
         (py "HTTP错误：状态码 " ++ str_of_Z (status_code response))
     else
       data ← try_except (json response)
                [ ([ValueError], λ e,
                   raise APIError
                     (py "JSON解析错误：响应不是有效的JSON格式 - "
                      ++ text e)) ];
       match data with
       | VDict items =>
         if negb (dict_contains items (py "data")) then
           raise APIError (py "响应格式错误：缺少'data'字段")
         else
           d ← getitem items (py "data");
           if negb (is_list d) then
             raise APIError (py "响应格式错误：'data'字段应为数组")
           else Return data
       | _ => raise APIError (py "响应格式错误：期望JSON对象")
       end)
    [ ([Timeout], λ _,
       raise APIError
         (py "请求超时：连接超过30秒未响应，请检查网络连接或BaseURL是否正确"));
      ([ConnectionError], λ e,
       raise APIError
         (py "连接错误：无法连接到服务器，请检查网络连接和BaseURL - "
          ++ text e));
      ([RequestException], λ e,
       raise APIError (py "网络请求错误：" ++ text e));
      ([APIError], λ e, Raise e);
      ([Exception], λ e, raise APIError (py "未知错误：" ++ text e)) ].

(** The directory once [save_config] has written the configuration. *)
Definition written (url : str) (api_key : option str) (now : str) (d : dir)
  : dir :=
  <[config_file := Json (Disk.config_data url (or_empty api_key) now)]> d.

(** [ConfigManager.save_config]; [now] is [datetime.now().isoformat()]. *)
Definition save_config (url : str) (api_key : option str) (now : str)
  : action dir () :=
  try_action
    (let api_key :=
       match api_key with
       | Some k => if truthy k then k else []
       | None => []
       end in
     write_file config_file (config_chunks url api_key)
       (Json (Disk.config_data url api_key now)))
    [ ([PermissionError], λ _,
       lift (raise PermissionError
               (py "无法写入配置文件 " ++ config_file ++ py ": 权限被拒绝")));
      ([Exception], λ e,
       lift (raise Exception (py "保存配置时发生错误: " ++ text e))) ].

Definition no_config : Config := mk_config VNone VNone.

(** [ConfigManager.load_config] *)
Definition load_config (d : dir) : outcome Config :=
  try_except
    (match d !! config_file with
     | None => Return no_config
     | Some f =>
       config_data ← read_json f;
       b ← get config_data (py "base_url") VNone;
       k ← get config_data (py "api_key") (VStr []);
       Return (mk_config b k)
     end)
    [ ([json_JSONDecodeError], λ _, Return no_config);
      ([PermissionError], λ _, Return no_config);
      ([Exception], λ _, Return no_config) ].

(** [ConfigManager.clear_config] *)
Definition clear_config (d : dir) : outcome dir :=
  try_except
    (match d !! config_file with
     | Some _ => Return (delete config_file d)
     | None => Return d
     end)
    [ ([PermissionError], λ _,
       raise PermissionError
         (py "无法删除配置文件 " ++ config_file ++ py ": 权限被拒绝"));
      ([Exception], λ e,
       raise Exception (py "清除配置时发生错误: " ++ text e)) ].

Variable now : str.

(** [ModelFetcherApp._save_config]: a failure is printed, not raised. *)
Definition _save_config (url : str) (api_key : option str)
  : action ModelFetcherApp () :=
  try_action (zoom disk set_disk (save_config url api_key now))
    [ ([Exception], λ _, mret ()) ].

Definition _clear_config : action ModelFetcherApp () :=
  try_action
    (d ← gets disk;
     d' ← lift (clear_config d);
     modify (set_disk d'))
    [ ([Exception], λ _, mret ()) ].

(** [ModelFetcherApp._on_url_change] *)
Definition _on_url_change : action ModelFetcherApp () :=
  url ← gets get_url;
  if negb (truthy url) then _clear_config else mret ().

(** [s.lower()] *)
Definition str_lower (s : str) : str :=
  if forallb isascii s then lower s else to_lower s.

(** The hint [show_error] picks for a message. *)
Definition guidance (error_message : str) : str :=
  if occurs_in (py "超时") error_message
     || occurs_in (py "timeout") (str_lower error_message)
  then py "请检查网络连接和BaseURL是否正确"
  else if occurs_in (py "连接错误") error_message
          || occurs_in (py "connection") (str_lower error_message)
  then py "请检查网络连接和BaseURL是否可访问"
  else if occurs_in (py "401") error_message
  then py "可能需要API密钥，请检查API文档"
  else if occurs_in (py "404") error_message
  then py "请确认BaseURL是否正确，是否包含正确的版本路径"
  else if occurs_in (py "500") error_message
  then py "服务器出现问题，请稍后重试"
  else if occurs_in (py "JSON") error_message
  then py "服务器返回了无效的响应格式"
  else py "请检查BaseURL和网络连接".

Definition show_error (error_message : str) : action ModelFetcherApp () :=
  modify (show_status
            (error_message ++ [10%N] ++ py "提示: " ++ guidance error_message)
            (py "error")).

Definition show_success (message : str) : action ModelFetcherApp () :=
  modify (show_status message (py "success")).

(** [ModelFetcherApp._on_fetch_success] *)
Definition _on_fetch_success (result : value) : action ModelFetcherApp () :=
  modify (set_loading_state false);;
  models ← lift (get result (py "data") (VList []));
  if negb (truth models) then
    modify (show_status (py "未找到任何模型") (py "warning"))
  else
    items ← lift (iter models);
    for_each items (λ model,
      model_id ← lift (get model (py "id") (VStr (py "Unknown")));
      modify (add_model model_id));;
    n ← lift (len models);
    show_success
      (py "成功获取 " ++ str_of_Z (Z.of_nat n) ++ py " 个模型");;
    base_url ← gets get_url;
    api_key ← gets get_api_key;
    _save_config base_url (Some api_key).

(** [ModelFetcherApp._on_fetch_error] *)
Definition _on_fetch_error (error_message : str)
  : action ModelFetcherApp () :=
  modify (set_loading_state false);;
  show_error error_message.

(** The body of the thread [fetch_models_async] starts. [prompt] tells
    whether the window runs an error callback before the thread has left
    the [except] clause. *)
Definition worker (prompt : bool) (base_url api_key : str) : delivery :=
  match fetch_models (__init__ base_url (Some api_key)) with
  | Return result => fetch_success result
  | Raise e =>
    if negb prompt then callback_fails
    else if isinstance e APIError then fetch_error (text e)
    else fetch_error (py "未知错误: " ++ text e)
  end.

(** [ModelFetcherApp.fetch_models_async], up to the start of the thread:
    [None] when the input is turned down, else the call the thread makes. *)
Definition fetch_models_async
  : action ModelFetcherApp (option (str * str)) :=
  base_url ← gets get_url;
  api_key ← gets get_api_key;
  if negb (truthy base_url) then
    modify (set_validation (Some (py "请输入BaseURL")));; mret None
  else
    ok ← lift (validate_url base_url);
    if negb ok then
      modify (set_validation
                (Some (py "无效的URL格式，请输入有效的HTTP/HTTPS地址")));;
      mret None
    else
      modify (set_validation None);;
      modify (set_loading_state true);;
      modify (show_status (py "正在获取模型列表...") (py "info"));;
      modify (set_model_ids []);;
      mret (Some (base_url, api_key)).

(** [root.after(0, ...)]: the window runs the handler for what the thread
    handed back. *)
Definition deliver (d : delivery) : action ModelFetcherApp () :=
  match d with
  | fetch_success result => _on_fetch_success result
  | fetch_error error_message => _on_fetch_error error_message
  | callback_fails => mret ()
  end.

(** One fetch from the click to the handler, the user leaving the window
    alone in between. *)
Definition fetch_invocation (prompt : bool) : action ModelFetcherApp () :=
  job ← fetch_models_async;
  match job with
  | None => mret ()
  | Some (base_url, api_key) => deliver (worker prompt base_url api_key)
  end.

(** One fetch with the window handling other events, [meanwhile], while
    the thread is running: the buttons are disabled then, the entries
    and the keys [Return] and [F5] are not. What a handler raises is
    reported and the handlers after it run. *)
Definition fetch_meanwhile (prompt : bool)
    (meanwhile : action ModelFetcherApp ()) : action ModelFetcherApp () :=
  job ← fetch_models_async;
  match job with
  | None => mret ()
  | Some (base_url, api_key) =>
    and_then meanwhile (deliver (worker prompt base_url api_key))
  end.

End Client.

(** *** Starting with the saved configuration *)

Definition set_url_entry (t : str) (a : ModelFetcherApp) :=
  mk_app t (key_entry a) (validation_error a) (is_loading a) (model_ids a)
    (status a) (disk a).
Definition set_key_entry (t : str) (a : ModelFetcherApp) :=
  mk_app (url_entry a) t (validation_error a) (is_loading a) (model_ids a)
    (status a) (disk a).

Section Startup.

(** What Tk makes of a value that is not a string when it is inserted in
    an entry: the text it shows, or the error of the call. *)
Variable tk_string : value → outcome str.

(** [entry.insert(0, v)] into an entry that is empty *)
Definition insert_text (v : value) : outcome str :=
  match v with
  | VStr s => Return s
  | _ => tk_string v
  end.

(** [InputFrame.set_url] *)
Definition set_url (url : value) : action ModelFetcherApp () :=
  modify (set_url_entry []);;
  t ← lift (insert_text url);
  modify (set_url_entry t).

(** [InputFrame.set_api_key] *)
Definition set_api_key (api_key : value) : action ModelFetcherApp () :=
  modify (set_key_entry []);;
  if truth api_key then
    t ← lift (insert_text api_key);
    modify (set_key_entry t)
  else mret ().

(** [ModelFetcherApp._load_saved_config] *)
Definition _load_saved_config : action ModelFetcherApp () :=
  d ← gets disk;
  config ← lift (load_config d);
  if truth (cfg_base_url config) then
    set_url (cfg_base_url config);;
    (if truth (cfg_api_key config) then set_api_key (cfg_api_key config)
     else mret ());;
    modify (show_status (py "已加载保存的配置") (py "info"))
  else mret ().

End Startup.
End App.

(* ===================================================================== *)
(** ** [main.py]: the PySide6 variant, with named profiles *)
(* ===================================================================== *)

Module Main.

Record OpenAIAPIClient := mk_client {
  base_url : str;
  api_key : option str
}.

(** [OpenAIAPIClient.__init__] *)
Definition __init__ (base_url : str) (api_key : option str) : OpenAIAPIClient :=
  {| base_url := strip base_url;
     api_key := match api_key with
                | Some k => if truthy k then Some (strip k) else None
                | None => None
                end |}.

(** *** [ConfigManager] *)

(** [ConfigManager._get_path], within the directory *)
Definition _get_path (name : str) : str := name ++ py ".json".

(** The directory once [save] has written the record. *)
Definition written (name url : str) (api_key : option str) (now : str)
    (d : dir) : dir :=
  <[_get_path name := Json (config_data url (or_empty api_key) now)]> d.

(** [ConfigManager.save]; [now] is [datetime.now().isoformat()].
    [write_text] writes the text of [json.dumps] in one piece. *)
Definition save (name url : str) (api_key : option str) (now : str)
  : action dir () :=
  write_file (_get_path name)
    [concat (config_chunks url (or_empty api_key))]
    (Json (config_data url (or_empty api_key) now)).

Definition no_config : Config := mk_config VNone VNone.

(** [ConfigManager.load] *)
Definition load (name : str) (d : dir) : outcome Config :=
  try_except
    (let path := _get_path name in
     match d !! path with
     | Some f =>
       data ← read_json f;
       b ← get data (py "base_url") VNone;
       k ← get data (py "api_key") (VStr []);
       Return (mk_config b k)
     | None => Return no_config
     end)
    [ ([Exception], λ _, Return no_config) ].

(** [ConfigManager.delete]: [unlink(missing_ok=True)] *)
Definition delete (name : str) (d : dir) : dir :=
  base.delete (_get_path name) d.

(** [ConfigManager.list_profiles] *)
Definition list_profiles (d : dir) : list str := stem <$> glob_json d.

(** [ConfigManager.clear_all] *)
Definition clear_all (d : dir) : dir :=
  fold_left (λ d p, base.delete p d) (glob_json d) d.

(** *** The window *)

Record HomePage := mk_home {
  url_entry : str;
  key_entry : str;
  validation_label : option str;
  loading : bool;
  all_models : list value;
  model_ids : list value;
  model_cards : list value;
  current_profile : str
}.

Record ProfilesPage := mk_profiles {
  new_name : str;
  profile_cards : list str
}.

(** The pages, the [InfoBar]s shown so far (level and content), and the
    directory the three [ConfigManager]s share. *)
Record MainWindow := mk_window {
  home_page : HomePage;
  profiles_page : ProfilesPage;
  info_bars : list (str * str);
  disk : dir
}.

Definition on_home (f : HomePage → HomePage) (w : MainWindow) : MainWindow :=
  mk_window (f (home_page w)) (profiles_page w) (info_bars w) (disk w).
Definition on_profiles (f : ProfilesPage → ProfilesPage) (w : MainWindow)
  : MainWindow :=
  mk_window (home_page w) (f (profiles_page w)) (info_bars w) (disk w).
Definition on_disk (f : dir → dir) (w : MainWindow) : MainWindow :=
  mk_window (home_page w) (profiles_page w) (info_bars w) (f (disk w)).
Definition set_disk (d : dir) (w : MainWindow) : MainWindow :=
  mk_window (home_page w) (profiles_page w) (info_bars w) d.
Definition info_bar (level content : str) (w : MainWindow) : MainWindow :=
  mk_window (home_page w) (profiles_page w)
    (info_bars w ++ [(level, content)]) (disk w).

Definition set_url_entry (t : str) (h : HomePage) : HomePage :=
  mk_home t (key_entry h) (validation_label h) (loading h) (all_models h)
    (model_ids h) (model_cards h) (current_profile h).
Definition set_key_entry (t : str) (h : HomePage) : HomePage :=
  mk_home (url_entry h) t (validation_label h) (loading h) (all_models h)
    (model_ids h) (model_cards h) (current_profile h).
Definition set_validation_label (v : option str) (h : HomePage) : HomePage :=
  mk_home (url_entry h) (key_entry h) v (loading h) (all_models h)
    (model_ids h) (model_cards h) (current_profile h).
Definition set_loading (b : bool) (h : HomePage) : HomePage :=
  mk_home (url_entry h) (key_entry h) (validation_label h) b (all_models h)
    (model_ids h) (model_cards h) (current_profile h).
Definition set_all_models (l : list value) (h : HomePage) : HomePage :=
  mk_home (url_entry h) (key_entry h) (validation_label h) (loading h) l
    (model_ids h) (model_cards h) (current_profile h).
Definition set_model_ids (l : list value) (h : HomePage) : HomePage :=
  mk_home (url_entry h) (key_entry h) (validation_label h) (loading h)
    (all_models h) l (model_cards h) (current_profile h).
Definition set_model_cards (l : list value) (h : HomePage) : HomePage :=
  mk_home (url_entry h) (key_entry h) (validation_label h) (loading h)
    (all_models h) (model_ids h) l (current_profile h).
Definition set_current_profile (n : str) (h : HomePage) : HomePage :=
  mk_home (url_entry h) (key_entry h) (validation_label h) (loading h)
    (all_models h) (model_ids h) (model_cards h) n.

(** What the worker thread emits: [signals.success], [signals.error], or
    nothing when the thread ends on an exception it does not catch. *)
Inductive emitted :=
| success (result : value)
| error (msg : str)
| nothing.

(** The hints of [HomePage._on_error], in the order of the dict. *)
Definition hints : list (str * str) :=
  [ (py "超时", py "检查网络连接");
    (py "连接", py "检查URL是否可访问");
    (py "401", py "检查API密钥");
    (py "404", py "确认BaseURL正确");
    (py "500", py "服务器问题，稍后重试") ].

Definition hint_of (msg : str) : str :=
  match List.find (λ kv, occurs_in (fst kv) msg) hints with
  | Some (_, v) => v
  | None => py "检查BaseURL和网络"
  end.

(** [QLineEdit.setText]: the argument must be a string. *)
Definition as_text (v : value) : outcome str :=
  match v with
  | VStr s => Return s
  | _ => raise TypeError (py "setText(self, str): argument 1 has unexpected type")
  end.

Section Client.
Context `{Host}.

Definition validate_url (url : str) : outcome bool :=
  try_except
    (parsed ← UrlLib.urlparse (strip url) [];
     Return (str_in (UrlLib.scheme parsed) [py "http"; py "https"]
             && truthy (UrlLib.netloc parsed)))
    [ ([Exception], λ _, Return false) ].

(** The target of the request, the first statement of [fetch_models]. *)
Definition endpoint_of (self : OpenAIAPIClient) : outcome str :=
  UrlLib.urljoin (rstrip (py "/") (base_url self) ++ py "/") (py "models").

Definition headers_of (self : OpenAIAPIClient) : list (str * str) :=
  (py "Accept", py "application/json")
  :: match api_key self with
     | Some k =>
       if truthy k then [(py "Authorization", py "Bearer " ++ k)] else []
     | None => []
     end.

(** The dict [error_msgs] of [fetch_models]. *)
Definition error_msgs (endpoint : str) : list (Z * str) :=
  [ (401%Z, py "认证失败：API密钥无效或缺失");
    (404%Z, py "端点不存在：" ++ endpoint);
    (500%Z, py "服务器内部错误") ].

Variable requests_get : get_fn.

Definition fetch_models (self : OpenAIAPIClient) : outcome value :=
  try_except
    (endpoint ← endpoint_of self;
     let headers := headers_of self in
     resp ← requests_get endpoint 30%Z headers;
     match List.find (λ kv, (fst kv =? status_code resp)%Z)
             (error_msgs endpoint) with
     | Some (_, msg) => raise APIError msg
     | None =>
       if negb (status_code resp =? 200)%Z then
         raise APIError
           (py "HTTP错误：状态码 " ++ str_of_Z (status_code resp))
       else
         data ← json resp;
         d ← get data (py "data") VNone;
         if negb (is_list d) then
           raise APIError (py "响应格式错误：缺少有效的'data'字段")
         else Return data
     end)
    [ ([Timeout], λ _, raise APIError (py "请求超时：连接超过30秒未响应"));
      ([ConnectionError], λ e, raise APIError (py "连接错误：" ++ text e));
      ([RequestException], λ e,
       raise APIError (py "网络请求错误：" ++ text e));
      ([ValueError; KeyError], λ e,
       raise APIError (py "响应解析错误：" ++ text e));
      ([APIError], λ e, Raise e);
      ([Exception], λ e, raise APIError (py "未知错误：" ++ text e)) ].

Variable now : str.

(** *** [HomePage] *)

Definition _show_validation (msg : str) : action MainWindow () :=
  modify (on_home (set_validation_label (Some msg))).

Definition _notify (msg level : str) : action MainWindow () :=
  modify (info_bar level msg).

Definition _clear_models : action MainWindow () :=
  modify (on_home (set_model_cards []));;
  modify (on_home (set_model_ids []));;
  modify (on_home (set_all_models [])).

Definition _add_model_card (model_id : value) : action MainWindow () :=
  modify (on_home (λ h, set_model_cards (model_cards h ++ [model_id]) h)).

(** The body of the thread [_fetch] starts. *)
Definition worker (url : str) (w : MainWindow) : emitted :=
  match fetch_models
          (__init__ url (Some (strip (key_entry (home_page w))))) with
  | Return result => success result
  | Raise e => if isinstance e APIError then error (text e) else nothing
  end.

(** [HomePage._fetch], up to the start of the thread: [None] when the
    input is turned down, else the URL the thread is started with. *)
Definition _fetch : action MainWindow (option str) :=
  url ← gets (λ w, strip (url_entry (home_page w)));
  if negb (truthy url) then
    _show_validation (py "请输入BaseURL");; mret None
  else
    ok ← lift (validate_url url);
    if negb ok then _show_validation (py "无效的URL格式");; mret None
    else
      modify (on_home (set_validation_label None));;
      modify (on_home (set_loading true));;
      _notify (py "正在获取模型列表...") (py "info");;
      _clear_models;;
      mret (Some url).

(** [HomePage._on_success] *)
Definition _on_success (result : value) : action MainWindow () :=
  modify (on_home (set_loading false));;
  models ← lift (get result (py "data") (VList []));
  if negb (truth models) then _notify (py "未找到任何模型") (py "warning")
  else
    items ← lift (iter models);
    ids ← lift (mapM (λ m, get m (py "id") (VStr (py "Unknown"))) items);
    modify (on_home (set_all_models ids));;
    for_each ids _add_model_card;;
    modify (on_home (set_model_ids ids));;
    n ← lift (len models);
    _notify (py "成功获取 " ++ str_of_Z (Z.of_nat n) ++ py " 个模型")
      (py "success");;
    w ← gets id;
    zoom disk set_disk
      (save (current_profile (home_page w))
         (strip (url_entry (home_page w)))
         (Some (strip (key_entry (home_page w)))) now).

(** [HomePage._on_error] *)
Definition _on_error (msg : str) : action MainWindow () :=
  modify (on_home (set_loading false));;
  modify (info_bar (py "error")
            (msg ++ [10%N] ++ py "提示: " ++ hint_of msg)).

(** [HomePage._load_config] *)
Definition _load_config : action MainWindow () :=
  w ← gets id;
  cfg ← lift (load (current_profile (home_page w)) (disk w));
  if truth (cfg_base_url cfg) then
    t ← lift (as_text (cfg_base_url cfg));
    modify (on_home (set_url_entry t));;
    (if truth (cfg_api_key cfg) then
       k ← lift (as_text (cfg_api_key cfg));
       modify (on_home (set_key_entry k))
     else mret ());;
    _notify (py "已加载保存的配置") (py "info")
  else mret ().

(** [HomePage.switch_profile] *)
Definition switch_profile (name : str) : action MainWindow () :=
  modify (on_home (set_current_profile name));;
  _clear_models;;
  _load_config.

(** *** [ProfilesPage] *)

Definition _refresh_list : action MainWindow () :=
  profiles ← gets (λ w, list_profiles (disk w));
  if negb (match profiles with [] => false | _ => true end) then
    zoom disk set_disk (save (py "默认") [] (Some []) now);;
    modify (on_profiles (λ p, mk_profiles (new_name p) [py "默认"]))
  else
    modify (on_profiles (λ p, mk_profiles (new_name p) profiles)).


Definition _use_profile (name : str) : action MainWindow () :=
  switch_profile name;;
  _notify (py "当前配置: " ++ name) (py "success").

Definition _delete_profile (name : str) : action MainWindow () :=
  if str_eqb name (py "default") then
    _notify (py "无法删除默认配置") (py "warning")
  else
    modify (on_disk (delete name));;
    _refresh_list;;
    _notify (py "配置: " ++ name) (py "success").

(** *** [SettingsPage] *)

Definition _clear : action MainWindow () :=
  modify (on_disk clear_all);;
  _notify (py "所有配置已清除") (py "success").

(** *** [MainWindow] *)

(** [MainWindow.__init__] on the directory it finds: the home page loads
    the profile [default], the profiles page lists the directory. *)
Definition open_window (d : dir) : outcome () * MainWindow :=
  (_load_config;; _refresh_list)
    (mk_window (mk_home [] [] None false [] [] [] (py "default"))
       (mk_profiles [] []) [] d).

(** The slot the emitted signal is connected to. *)
Definition deliver (e : emitted) : action MainWindow () :=
  match e with
  | success result => _on_success result
  | error msg => _on_error msg
  | nothing => mret ()
  end.

(** One fetch from the click to the slot, the user leaving the window
    alone in between. *)
Definition fetch_invocation : action MainWindow () :=
  job ← _fetch;
  match job with
  | None => mret ()
  | Some url => w ← gets id; deliver (worker url w)
  end.

(** One fetch with the window handling other events, [meanwhile], while
    the thread is running: the buttons are disabled then, the entries,
    the profiles page and the keys [Return] and [F5] are not. What a
    handler raises is reported and the handlers after it run. *)
Definition fetch_meanwhile (meanwhile : action MainWindow ())
  : action MainWindow () :=
  job ← _fetch;
  match job with
  | None => mret ()
  | Some url => w ← gets id; and_then meanwhile (deliver (worker url w))
  end.

End Client.

(** *** The search box and the export *)

Section SearchBox.

(** [str.lower()] of a string that is not all ASCII, from the
    interpreter's Unicode tables. *)
Variable unicode_lower : str → str.

(** [s.lower()] *)
Definition str_lower (s : str) : str :=
  if forallb isascii s then lower s else unicode_lower s.

(** [m.lower()]: only a string has the method. *)
Definition lower_of (m : value) : outcome str :=
  match m with
  | VStr s => Return (str_lower s)
  | _ => raise AttributeError
           (py "'" ++ type_name m ++ py "' object has no attribute 'lower'")
  end.

(** [[m for m in models if text in m.lower()]] *)
Fixpoint matching (text : str) (models : list value)
  : outcome (list value) :=
  match models with
  | [] => Return []
  | m :: rest =>
    l ← lower_of m;
    filtered ← matching text rest;
    Return (if occurs_in text l then m :: filtered else filtered)
  end.

(** [HomePage._clear_model_cards] *)
Definition _clear_model_cards : action MainWindow () :=
  modify (on_home (set_model_cards [])).

(** [HomePage._filter_models] *)
Definition _filter_models (text : str) : action MainWindow () :=
  let text := strip (str_lower text) in
  _clear_model_cards;;
  models ← gets (λ w, all_models (home_page w));
  filtered ← lift (if truthy text then matching text models
                   else Return models);
  for_each filtered _add_model_card;;
  modify (on_home (set_model_ids filtered)).

End SearchBox.

(** [sep.join(items)] from item [i] on: every item must be a string. *)
Fixpoint join_from (i : nat) (items : list value) : outcome (list str) :=
  match items with
  | [] => Return []
  | VStr s :: rest => parts ← join_from (S i) rest; Return (s :: parts)
  | v :: _ =>
    raise TypeError
      (py "sequence item " ++ str_of_Z (Z.of_nat i)
       ++ py ": expected str instance, " ++ type_name v ++ py " found")
  end.

Definition join_values (sep : str) (items : list value) : outcome str :=
  parts ← join_from 0 items;
  Return (join sep parts).

Section ExportFile.

(** [Path(filename).write_text(text, encoding='utf-8')] in the working
    directory: what becomes of the write. *)
Variable write_text : str → str → outcome ().

(** [datetime.now().strftime('%Y%m%d_%H%M%S')] *)
Variable stamp : str.

(** [HomePage._export] *)
Definition _export : action MainWindow () :=
  ids ← gets (λ w, model_ids (home_page w));
  if negb (match ids with [] => false | _ => true end) then
    _notify (py "没有可导出的模型") (py "warning")
  else
    try_action
      (let filename := py "model_ids_" ++ stamp ++ py ".txt" in
       content ← lift (join_values [10%N] ids);
       lift (write_text filename content);;
       _notify (py "已导出到 " ++ filename) (py "success"))
      [ ([Exception], λ e, _notify (text e) (py "error")) ].

End ExportFile.
End Main.

(* ===================================================================== *)
(** ** Vocabulary of the statements *)
(* ===================================================================== *)

(** The test both variants make on a parsed URL. *)
Definition accepted (p : UrlLib.ParseResult) : bool :=
  str_in (UrlLib.scheme p) [py "http"; py "https"]
  && truthy (UrlLib.netloc p).

Section ValidatorContract.
Context `{Host}.

(** The trimmed string parses as a URL with scheme [http] or [https] and
    an authority. *)
Definition valid_url (url : str) : Prop :=
  ∃ p, UrlLib.urlparse (strip url) [] = Return p
       ∧ (UrlLib.scheme p = py "http" ∨ UrlLib.scheme p = py "https")
       ∧ UrlLib.netloc p ≠ [].

(** What a validator owes on every string: a boolean and never an
    exception, [True] exactly on the valid URLs, [False] on blank input
    and on input the parser rejects. *)
Definition validator_contract (validate : str → outcome bool) : Prop :=
  ∀ url,
    (∃ b, validate url = Return b)
    ∧ (validate url = Return true ↔ valid_url url)
    ∧ (¬ valid_url url → validate url = Return false)
    ∧ (forallb isspace url = true → validate url = Return false)
    ∧ (∀ e, UrlLib.urlparse (strip url) [] = Raise e →
            validate url = Return false).

(** The text [urlsplit] takes apart, for the string given to
    [validate_url]: the trimmed string without the control characters and
    spaces in front of it and without tab, carriage return and line
    feed. *)
Definition text_to_split (url : str) : str :=
  UrlLib.remove_unsafe (lstrip_by UrlLib.c0_control_or_space (strip url)).

(** The characters that end the authority of a URL. *)
Definition ends_authority (c : N) : bool := char_in c (py "/?#").

(** The authority of what follows [//]: the characters before the first
    [/], [?] or [#]. *)
Fixpoint authority_of (s : str) : str :=
  match s with
  | [] => []
  | c :: rest => if ends_authority c then [] else c :: authority_of rest
  end.

(** An authority the parser lets through: its brackets, if any, come in
    a pair around a host the interpreter accepts, and NFKC turns none of
    its characters into a delimiter. *)
Definition authority_passes (auth : str) : Prop :=
  char_in (chr "[") auth = char_in (chr "]") auth
  ∧ (char_in (chr "[") auth = true →
     UrlLib._check_bracketed_netloc auth = Return ())
  ∧ UrlLib._checknetloc auth = Return ().

(** [text] is an http URL: [http] or [https] in upper or lower case,
    [://], and an authority that is not empty and that the parser lets
    through. What follows the authority is not looked at. *)
Definition http_url (text : str) : Prop :=
  ∃ sch after,
    text = sch ++ py "://" ++ after
    ∧ lower sch ∈ [py "http"; py "https"]
    ∧ authority_of after ≠ []
    ∧ authority_passes (authority_of after).

(** What a validator owes, in terms of the text alone: [True] exactly on
    the strings that hold an http URL once trimmed and cleaned as the
    parser does, a boolean on every string, the same answer whatever
    whitespace surrounds the string, and [False] on blank input. *)
Definition validates_http_urls (validate : str → outcome bool) : Prop :=
  (∀ url, validate url = Return true ↔ http_url (text_to_split url))
  ∧ (∀ url, validate url = Return true ∨ validate url = Return false)
  ∧ (∀ before url after,
       forallb isspace before = true → forallb isspace after = true →
       validate (before ++ url ++ after) = validate url)
  ∧ (∀ url, forallb isspace url = true → validate url = Return false).

End ValidatorContract.

(** A record [load] cannot use: no file, a file that cannot be read, text
    that is not JSON, or JSON that is not an object. *)
Definition degraded (f : option file) : Prop :=
  f = None ∨ f = Some Locked ∨ f = Some Garbled
  ∨ ∃ v, f = Some (Json v) ∧ is_dict v = false.

(** A profile name that is one path component. *)
Definition path_component (name : str) : Prop :=
  (chr "/" ∉ name) ∧ (0%N ∉ name).


(** The order in which a fetch that got [reply] from the network, for the
    request to [endpoint], is told apart: the transport's exceptions
    first, a timeout before a connection failure before the rest, then the
    status code. *)
Definition classified_by_priority (fetch : outcome value)
    (reply : outcome Response) (endpoint : str) : Prop :=
  (∀ e, reply = Raise e → isinstance e Py.Timeout = true →
        Kind.fails_with fetch Kind.Timeout)
  ∧ (∀ e, reply = Raise e → isinstance e Py.Timeout = false →
          isinstance e ConnectionError = true →
          Kind.fails_carrying fetch Kind.ConnectionFailed (text e))
  ∧ (∀ e, reply = Raise e → isinstance e Py.Timeout = false →
          isinstance e ConnectionError = false →
          isinstance e RequestException = true →
          Kind.fails_with fetch Kind.NetworkError)
  ∧ (∀ r, reply = Return r → status_code r = 401%Z →
          Kind.fails_with fetch Kind.Unauthorized)
  ∧ (∀ r, reply = Return r → status_code r = 404%Z →
          Kind.fails_carrying fetch Kind.NotFound endpoint)
  ∧ (∀ r, reply = Return r → status_code r = 500%Z →
          Kind.fails_with fetch Kind.ServerError)
  ∧ (∀ r, reply = Return r →
          status_code r ∉ [200%Z; 401%Z; 404%Z; 500%Z] →
          Kind.fails_carrying fetch Kind.UnexpectedStatus
            (str_of_Z (status_code r))).

(** A server that answers every request with status 200 and a body that
    [response.json()] turns into [body]. *)
Definition replies (body : outcome value) : get_fn :=
  λ _ _ _, Return (mk_response 200%Z body).

(** A server that answers every request with the given status. *)
Definition answers (status : Z) (body : outcome value) : get_fn :=
  λ _ _ _, Return (mk_response status body).

Definition example_base : str := py "https://api.example.com/v1".
Definition example_target : str := py "https://api.example.com/v1/models".

(** The body [{"data":[{"id":"gpt-x"},{}]}]. *)
Definition two_models : list (list (str * value)) :=
  [[(py "id", VStr (py "gpt-x"))]; []].
Definition two_models_body : value :=
  VDict [(py "data", VList (VDict <$> two_models))].

(** What a fetch owes on a response with status 200, [fetch body] being
    the fetch when the body decodes to [body]: a body that does not
    decode fails as MalformedResponse; a body that is not an object, has
    no [data], or whose [data] is not a list fails as InvalidSchema. *)
Definition schema_checked (fetch : outcome value → outcome value) : Prop :=
  (∀ e, isinstance e ValueError = true →
        Kind.fails_with (fetch (Raise e)) Kind.MalformedResponse)
  ∧ (∀ v, is_dict v = false →
          Kind.fails_with (fetch (Return v)) Kind.InvalidSchema)
  ∧ (∀ items, lookup_key (py "data") items = None →
              Kind.fails_with (fetch (Return (VDict items))) Kind.InvalidSchema)
  ∧ (∀ items d, lookup_key (py "data") items = Some d → is_list d = false →
                Kind.fails_with (fetch (Return (VDict items)))
                  Kind.InvalidSchema).

(** The id shown for an element of [data]: its [id], or [Unknown]. *)
Definition model_id_of (fields : list (str * value)) : value :=
  from_option id (VStr (py "Unknown")) (lookup_key (py "id") fields).

(** The result lists at least one model: an object whose [data] is a
    list, not empty, of objects. *)
Definition lists_a_model (result : value) : Prop :=
  ∃ fields objs,
    result = VDict fields
    ∧ lookup_key (py "data") fields = Some (VList (VDict <$> objs))
    ∧ objs ≠ [].

(** When a fetch writes to the directory: never when the input is turned
    down or the request fails, and on a result exactly when it lists a
    model. *)
Definition saves_when_models_listed (valid : outcome bool)
    (fetched : outcome value) (unchanged saved : Prop) : Prop :=
  (valid = Return false → unchanged)
  ∧ (valid = Return true → ∀ e, fetched = Raise e → unchanged)
  ∧ (valid = Return true → ∀ result, fetched = Return result →
       ¬ lists_a_model result → unchanged)
  ∧ (valid = Return true → ∀ result, fetched = Return result →
       lists_a_model result → saved).

Definition empty_list_body : value := VDict [(py "data", VList [])].

Definition fresh_window (url : str) : Main.MainWindow :=
  Main.mk_window (Main.mk_home url [] None false [] [] [] (py "default"))
    (Main.mk_profiles [] []) [] ∅.

Definition noon : str := py "2025-01-01T12:00:00".

(** The directory of [w'] is what [save] makes of the directory of [w],
    called with what [w] holds: the current profile, and the URL and the
    key of the entries, trimmed. *)
Definition main_saved (now : str) (w w' : Main.MainWindow) : Prop :=
  Main.disk w'
  = (Main.save (Main.current_profile (Main.home_page w))
       (strip (Main.url_entry (Main.home_page w)))
       (Some (strip (Main.key_entry (Main.home_page w)))) now
       (Main.disk w)).2.

(** The same for [app.py] and [save_config]. *)
Definition app_saved (now : str) (a a' : App.ModelFetcherApp) : Prop :=
  App.disk a'
  = (App.save_config (App.get_url a) (Some (App.get_api_key a)) now
       (App.disk a)).2.

(** The body of the loop of [_on_fetch_success]. *)
Abbreviation app_loop :=
  (λ model : value,
     model_id ← lift (get model (py "id") (VStr (py "Unknown")));
     modify (App.add_model model_id)).

(** *** Well-formed base URLs *)

(** Printable ASCII, the space apart. *)
Definition printable (c : N) : bool := (32 <? c)%N && (c <? 127)%N.


(** Characters of a host: printable ASCII but the delimiters of the
    authority and brackets. *)
Definition host_char (c : N) : bool :=
  (32 <? c)%N && (c <? 127)%N && negb (char_in c (py "/?#[]")).

(** Characters of a path segment: printable ASCII but the delimiters of
    the path. *)
Definition segment_char (c : N) : bool :=
  (32 <? c)%N && (c <? 127)%N && negb (char_in c (py "/?#;")).

(** A segment that names something: not empty, not [.] and not [..]. *)
Definition plain_segment (s : str) : bool :=
  truthy s && forallb segment_char s && negb (str_in s [py "."; py ".."]).

(** [/a/b] for the segments [a], [b]. *)
Definition path_of (segments : list str) : str :=
  concat ((λ s, py "/" ++ s) <$> segments).

(** [scheme://host/a/b] *)
Definition base_of (scheme host : str) (segments : list str) : str :=
  scheme ++ py "://" ++ host ++ path_of segments.

Definition well_formed_base (scheme host : str) (segments : list str)
  : Prop :=
  scheme ∈ [py "http"; py "https"]
  ∧ truthy host = true
  ∧ forallb host_char host = true
  ∧ forallb plain_segment segments = true.

(** What the parser asks of a scheme in front of [://]. *)
Definition scheme_like (sch : str) : bool :=
  match sch with
  | c0 :: _ => isascii c0 && isalpha_ascii c0
  | [] => false
  end
  && forallb (λ c, char_in c UrlLib.scheme_chars) sch
  && str_eqb (lower sch) sch.

(** [a/b/] for the segments [a], [b]. *)
Definition slash_after (segments : list str) : str :=
  concat ((λ s, s ++ py "/") <$> segments).


(** *** The rest of the program *)

(** The headers of the request: the key, trimmed, unless it is blank. *)
Definition request_headers (api_key : option str) : list (str * str) :=
  (py "Accept", py "application/json")
  :: (if truthy (strip (or_empty api_key))
      then [(py "Authorization", py "Bearer " ++ strip (or_empty api_key))]
      else []).

(** A body [fetch_models] returns: an object with a list under [data]. *)
Definition model_list (v : value) : Prop :=
  ∃ fields items,
    v = VDict fields ∧ lookup_key (py "data") fields = Some (VList items).

(** What [_filter_models] looks for: the text of the search box, lowered
    and trimmed. *)
Definition needle (unicode_lower : str → str) (text : str) : str :=
  strip (Main.str_lower unicode_lower text).

(** The home page with [shown] as the models on display. *)
Definition showing (shown : list value) (w : Main.MainWindow)
  : Main.MainWindow :=
  Main.on_home
    (λ h, Main.set_model_ids shown (Main.set_model_cards shown h)) w.

(** The file [_export] writes to. *)
Definition export_file (stamp : str) : str :=
  py "model_ids_" ++ stamp ++ py ".txt".

(** Characters of a query: printable ASCII but [#]. *)
Definition query_char (c : N) : bool :=
  (32 <? c)%N && (c <? 127)%N && negb (c =? chr "#")%N.

(** The user replaces the text of the URL entry of [main.py]. *)
Definition type_url (t : str) : action Main.MainWindow () :=
  modify (Main.on_home (Main.set_url_entry t)).

(** *** Inputs of the examples *)

(** The window of [app.py] before any fetch, with [url] typed in. *)
Definition idle_app (url : str) : App.ModelFetcherApp :=
  App.mk_app url [] None false [] (py "Ready", []) ∅.

(** A result whose second element is a number. *)
Definition model_and_number : list (str * value) :=
  [(py "data",
    VList ((VDict <$> [[(py "id", VStr (py "gpt-x"))]]) ++ [VInt 1]))].

(** A network that knows one address. *)
Definition only_at (url : str) (r : Response) : get_fn :=
  λ u _ _, if str_eqb u url then Return r
           else raise ConnectionError (py "unreachable").


(** A window that holds a key, over a directory where the profile [p1]
    has a URL and no key. *)
Definition window_with_key : Main.MainWindow :=
  Main.mk_window
    (Main.mk_home example_base (py "sk-old") None false [] [] []
       (py "default"))
    (Main.mk_profiles [] []) []
    (Main.written (py "p1") (py "https://x/v1") None noon ∅).

(** The home page after a fetch that listed [names]. *)
Definition listing (names : list str) (w : Main.MainWindow)
  : Main.MainWindow :=
  Main.on_home (Main.set_all_models (VStr <$> names)) (showing (VStr <$> names) w).

(* ===================================================================== *)
(** * Properties *)
(* ===================================================================== *)

(** ** Exceptions *)

(** Every class of the model derives from [Exception]: a clause
    [except Exception] lets nothing through. *)
Lemma issubclass_Exception (c : pyclass) : issubclass c Exception = true.
Proof. destruct c; reflexivity. Qed.

Lemma isinstance_Exception (e : exn) : isinstance e Exception = true.
Proof. apply issubclass_Exception. Qed.

Lemma dispatch_except_Exception {A} (h : exn → outcome A) (e : exn) :
  dispatch [([Exception], h)] e = h e.
Proof. simpl. by rewrite isinstance_Exception. Qed.

(** ** The URL validator *)

Section Validator.
Context `{Host}.

Lemma urlparse_empty :
  UrlLib.urlparse [] [] = Return (UrlLib.mk_parse [] [] [] [] [] []).
Proof. reflexivity. Qed.

Lemma app_validate_url_eq (url : str) :
  App.validate_url url =
  match UrlLib.urlparse (strip url) [] with
  | Return p => Return (accepted p)
  | Raise _ => Return false
  end.
Proof.
  unfold App.validate_url, accepted.
  destruct (strip url) as [|c s] eqn:E.
  - by rewrite urlparse_empty.
  - cbn [truthy negb].
    destruct (UrlLib.urlparse (c :: s) []) as [p|e];
      cbn [mbind outcome_bind try_except].
    + by destruct (str_in (UrlLib.scheme p) _), (truthy (UrlLib.netloc p)).
    + by rewrite dispatch_except_Exception.
Qed.

Lemma main_validate_url_eq (url : str) :
  Main.validate_url url =
  match UrlLib.urlparse (strip url) [] with
  | Return p => Return (accepted p)
  | Raise _ => Return false
  end.
Proof.
  unfold Main.validate_url, accepted.
  destruct (UrlLib.urlparse (strip url) []) as [p|e];
    cbn [mbind outcome_bind try_except]; [done|].
  by rewrite dispatch_except_Exception.
Qed.

(** C10. The validator of [app.py] and the validator of [main.py] return
    the same boolean on every string. *)
Theorem validate_url_variants_agree (url : str) :
  App.validate_url url = Main.validate_url url.
Proof. by rewrite app_validate_url_eq, main_validate_url_eq. Qed.

End Validator.

Section ValidatorProperties.
Context `{Host}.

Lemma accepted_true (p : UrlLib.ParseResult) :
  accepted p = true ↔
  (UrlLib.scheme p = py "http" ∨ UrlLib.scheme p = py "https")
  ∧ UrlLib.netloc p ≠ [].
Proof.
  unfold accepted, str_in, str_eqb. cbn [existsb].
  rewrite andb_true_iff, !orb_true_iff, !bool_decide_eq_true.
  destruct (UrlLib.netloc p); cbn [truthy].
  - split; intros [Hs Hn]; [discriminate | by destruct Hn].
  - split.
    + intros [[Hs|[Hs|Hs]] _]; (split; [|done]); [by left|by right|done].
    + intros [[Hs|Hs] _]; (split; [|done]); [by left|by right; left].
Qed.

Lemma lstrip_by_all (p : N → bool) (s : str) :
  forallb p s = true → lstrip_by p s = [].
Proof.
  induction s as [|c s IH]; [done|]. cbn [forallb lstrip_by].
  intros [-> Hs]%andb_true_iff. by apply IH.
Qed.

Lemma strip_blank (s : str) : forallb isspace s = true → strip s = [].
Proof. intros Hs. unfold strip. by rewrite lstrip_by_all. Qed.

Lemma validator_contract_of (validate : str → outcome bool) :
  (∀ url, validate url =
          match UrlLib.urlparse (strip url) [] with
          | Return p => Return (accepted p)
          | Raise _ => Return false
          end) →
  validator_contract validate.
Proof.
  intros Heq url. rewrite Heq. unfold valid_url.
  destruct (UrlLib.urlparse (strip url) []) as [p|e] eqn:Hp.
  - repeat split.
    + by eexists.
    + intros [= Hacc]. exists p. split; [done|]. by apply accepted_true.
    + intros (p' & [= <-] & Hok). f_equal. by apply accepted_true.
    + intros Hno. f_equal. apply not_true_is_false. intros Hacc.
      apply Hno. exists p. split; [done|]. by apply accepted_true.
    + intros Hblank. rewrite (strip_blank _ Hblank), urlparse_empty in Hp.
      by injection Hp as <-.
    + intros e' [=].
  - repeat split; try done.
    + by eexists.
    + intros (p' & [=] & _).
Qed.

End ValidatorProperties.

(** ** The profile store *)


Lemma load_returns (name : str) (d : dir) :
  ∃ c, Main.load name d = Return c.
Proof.
  unfold Main.load.
  destruct (d !! Main._get_path name) as [[v| |]|]; try by eexists.
  destruct v; by eexists.
Qed.

Lemma load_degraded (name : str) (d : dir) :
  degraded (d !! Main._get_path name) →
  Main.load name d = Return Main.no_config.
Proof.
  unfold Main.load.
  intros [-> | [-> | [-> | (v & -> & Hv)]]]; try done.
  by destruct v.
Qed.

Lemma load_config_returns (d : dir) : ∃ c, App.load_config d = Return c.
Proof.
  unfold App.load_config.
  destruct (d !! App.config_file) as [[v| |]|]; try by eexists.
  destruct v; by eexists.
Qed.

Lemma load_config_degraded (d : dir) :
  degraded (d !! App.config_file) →
  App.load_config d = Return App.no_config.
Proof.
  unfold App.load_config.
  intros [-> | [-> | [-> | (v & -> & Hv)]]]; try done.
  by destruct v.
Qed.

(** C8. [load] returns [{base_url: None, api_key: None}] whenever the
    record is absent, unreadable or fails structural parsing, and returns
    a configuration, never an exception, on every name and directory.
    The same holds of [load_config] in [app.py]. *)
Theorem load_never_raises_and_degrades :
  (∀ name d, ∃ c, Main.load name d = Return c)
  ∧ (∀ name d, degraded (d !! Main._get_path name) →
               Main.load name d = Return (mk_config VNone VNone))
  ∧ (∀ d, ∃ c, App.load_config d = Return c)
  ∧ (∀ d, degraded (d !! App.config_file) →
          App.load_config d = Return (mk_config VNone VNone)).
Proof.
  split_and!.
  - apply load_returns.
  - apply load_degraded.
  - apply load_config_returns.
  - apply load_config_degraded.
Qed.

Lemma or_empty_if (api_key : option str) :
  match api_key with
  | Some k => if truthy k then k else []
  | None => []
  end = or_empty api_key.
Proof. by destruct api_key as [[|c k]|]. Qed.

(** *** Writing *)

Lemma encode_error_from_None (i : nat) (text : str) :
  encodable text = true → encode_error_from i text = None.
Proof.
  revert i. induction text as [|c text IH]; intros i; [done|].
  cbn [encodable forallb encode_error_from].
  intros [Hc Ht]%andb_true_iff. apply negb_true_iff in Hc. rewrite Hc.
  by apply IH.
Qed.

Lemma encode_error_from_Some (i : nat) (text : str) :
  encodable text = false →
  ∃ e, encode_error_from i text = Some e ∧ cls e = UnicodeEncodeError.
Proof.
  revert i. induction text as [|c text IH]; intros i; [done|].
  cbn [encodable forallb encode_error_from].
  destruct (surrogate c); cbn [negb andb].
  - intros _. by eexists.
  - apply IH.
Qed.

Lemma encodable_app (s t : str) :
  encodable (s ++ t) = encodable s && encodable t.
Proof. apply forallb_app. Qed.

Lemma encodable_json_char (c : N) :
  encodable (json_char c) = negb (surrogate c).
Proof.
  unfold json_char, surrogate.
  repeat match goal with
  | |- context [(?a =? ?b)%N] => destruct (N.eqb_spec a b); [by subst|]
  end.
  destruct (N.ltb_spec c 32).
  - destruct (N.leb_spec 55296 c); [lia|].
    cbn [andb negb]. unfold encodable, hex4, hex_digit.
    cbn [app forallb]. unfold surrogate.
    repeat match goal with
    | |- context [(?a <? 10)%N] => destruct (N.ltb_spec a 10)
    end;
    repeat match goal with
    | |- context [(55296 <=? ?a)%N] =>
      destruct (N.leb_spec 55296 a);
        [pose proof (N.mod_upper_bound (c / 4096) 16);
         pose proof (N.mod_upper_bound (c / 256) 16);
         pose proof (N.mod_upper_bound (c / 16) 16);
         pose proof (N.mod_upper_bound c 16); lia|]
    end; reflexivity.
  - cbn [encodable forallb]. by rewrite andb_true_r.
Qed.

Lemma encodable_json_string (s : str) :
  encodable (json_string s) = encodable s.
Proof.
  unfold json_string. rewrite !encodable_app.
  change (encodable [34%N]) with true. rewrite andb_true_l, andb_true_r.
  induction s as [|c s IH]; [done|].
  cbn [flat_map]. rewrite encodable_app, encodable_json_char, IH.
  reflexivity.
Qed.

Lemma encodable_config_text (url key : str) :
  encodable (concat (config_chunks url key))
  = encodable url && encodable key.
Proof.
  unfold config_chunks. cbn [concat]. rewrite !encodable_app.
  rewrite !encodable_json_string.
  change (encodable (py "{")) with true.
  change (encodable [10; 32; 32]%N) with true.
  change (encodable (py "base_url")) with true.
  change (encodable (py ": ")) with true.
  change (encodable [44; 10; 32; 32]%N) with true.
  change (encodable (py "api_key")) with true.
  change (encodable []) with true.
  cbn [andb]. by rewrite andb_true_r.
Qed.

Lemma first_error_config (url key : str) :
  match first_error (config_chunks url key) with
  | None => encodable url && encodable key = true
  | Some e =>
    encodable url && encodable key = false ∧ cls e = UnicodeEncodeError
  end.
Proof.
  unfold config_chunks. cbn [first_error].
  unfold encode_error.
  rewrite !(encode_error_from_None 0 (json_string (py _)))
    by (vm_compute; reflexivity).
  rewrite (encode_error_from_None 0 (py "{")) by (vm_compute; reflexivity).
  rewrite (encode_error_from_None 0 [10; 32; 32]%N)
    by (vm_compute; reflexivity).
  rewrite (encode_error_from_None 0 [44; 10; 32; 32]%N)
    by (vm_compute; reflexivity).
  rewrite !(encode_error_from_None 0 (py ": ")) by (vm_compute; reflexivity).
  destruct (encodable url) eqn:Hu.
  - rewrite (encode_error_from_None 0 (json_string url))
      by by rewrite encodable_json_string.
    destruct (encodable key) eqn:Hk.
    + by rewrite (encode_error_from_None 0 (json_string key))
        by by rewrite encodable_json_string.
    + destruct (encode_error_from_Some 0 (json_string key)) as (e & -> & He);
        [by rewrite encodable_json_string|done].
  - destruct (encode_error_from_Some 0 (json_string url)) as (e & -> & He);
      [by rewrite encodable_json_string|done].
Qed.

Lemma first_error_text (url key : str) :
  match first_error [concat (config_chunks url key)] with
  | None => encodable url && encodable key = true
  | Some e =>
    encodable url && encodable key = false ∧ cls e = UnicodeEncodeError
  end.
Proof.
  cbn [first_error]. unfold encode_error.
  destruct (encodable (concat (config_chunks url key))) eqn:He.
  - rewrite encode_error_from_None by done.
    by rewrite <- encodable_config_text.
  - destruct (encode_error_from_Some 0 _ He) as (e & -> & Hc).
    by rewrite <- encodable_config_text.
Qed.

Lemma write_file_cases (path : str) (chunks : list str) (content : file)
    (d : dir) :
  (d !! path = Some Locked
   ∧ write_file path chunks content d
     = (raise PermissionError (py "Permission denied"), d))
  ∨ (d !! path ≠ Some Locked
     ∧ ∃ e, first_error chunks = Some e
            ∧ write_file path chunks content d
              = (Raise e, <[path := Garbled]> d))
  ∨ (d !! path ≠ Some Locked
     ∧ first_error chunks = None
     ∧ write_file path chunks content d = (Return (), <[path := content]> d)).
Proof.
  unfold write_file.
  destruct (d !! path) as [f|] eqn:Hd.
  - destruct f as [v| |].
    + right. destruct (first_error chunks) as [e|].
      * left. split; [discriminate|]. exists e. split; reflexivity.
      * right. split; [discriminate|]. split; reflexivity.
    + right. destruct (first_error chunks) as [e|].
      * left. split; [discriminate|]. exists e. split; reflexivity.
      * right. split; [discriminate|]. split; reflexivity.
    + left. split; reflexivity.
  - right. destruct (first_error chunks) as [e|].
    + left. split; [discriminate|]. exists e. split; reflexivity.
    + right. split; [discriminate|]. split; reflexivity.
Qed.

(** What [save] does, case by case. *)
Lemma main_save_cases (name url : str) (key : option str) (now : str)
    (d : dir) :
  (d !! Main._get_path name = Some Locked
   ∧ Main.save name url key now d
     = (raise PermissionError (py "Permission denied"), d))
  ∨ (d !! Main._get_path name ≠ Some Locked
     ∧ encodable url && encodable (or_empty key) = false
     ∧ ∃ e, cls e = UnicodeEncodeError
            ∧ Main.save name url key now d
              = (Raise e, <[Main._get_path name := Garbled]> d))
  ∨ (d !! Main._get_path name ≠ Some Locked
     ∧ encodable url && encodable (or_empty key) = true
     ∧ Main.save name url key now d
       = (Return (), Main.written name url key now d)).
Proof.
  unfold Main.save, Main.written.
  pose proof (first_error_text url (or_empty key)) as Hfe.
  destruct (write_file_cases (Main._get_path name)
              [concat (config_chunks url (or_empty key))]
              (Json (config_data url (or_empty key) now)) d)
    as [[Hl Hw]|[(Hl & e & He & Hw)|(Hl & He & Hw)]].
  - left. split; [exact Hl|exact Hw].
  - right. left. rewrite He in Hfe. destruct Hfe as [Hen Hc].
    split; [exact Hl|]. split; [exact Hen|]. exists e.
    split; [exact Hc|exact Hw].
  - right. right. rewrite He in Hfe.
    split; [exact Hl|]. split; [exact Hfe|exact Hw].
Qed.

Lemma main_save_returns (name url : str) (key : option str) (now : str)
    (d : dir) :
  d !! Main._get_path name ≠ Some Locked →
  encodable url = true →
  encodable (or_empty key) = true →
  Main.save name url key now d = (Return (), Main.written name url key now d).
Proof.
  intros Hd Hu Hk.
  destruct (main_save_cases name url key now d)
    as [[Hl _]|[(_ & He & _)|(_ & _ & Hs)]]; [done| |done].
  by rewrite Hu, Hk in He.
Qed.

Lemma main_save_elsewhere (name other url : str) (key : option str)
    (now : str) (d : dir) :
  Main._get_path other ≠ Main._get_path name →
  (Main.save other url key now d).2 !! Main._get_path name
  = d !! Main._get_path name.
Proof.
  intros Hne.
  destruct (main_save_cases other url key now d)
    as [[_ ->]|[(_ & _ & e & _ & ->)|(_ & _ & ->)]]; cbn [snd]; [done| |].
  - by rewrite lookup_insert_ne.
  - unfold Main.written. by rewrite lookup_insert_ne.
Qed.

Lemma main_written_load (name url : str) (key : option str) (now : str)
    (d : dir) :
  Main.load name (Main.written name url key now d)
  = Return (mk_config (VStr url) (VStr (or_empty key))).
Proof.
  unfold Main.load, Main.written. by rewrite lookup_insert_eq.
Qed.




Lemma app_save_config_eq (url : str) (key : option str) (now : str)
    (d : dir) :
  App.save_config url key now d
  = match write_file App.config_file (config_chunks url (or_empty key))
            (Json (config_data url (or_empty key) now)) d with
    | (Return a, d') => (Return a, d')
    | (Raise e, d') =>
      if isinstance e PermissionError then
        (raise PermissionError
           (py "无法写入配置文件 " ++ App.config_file ++ py ": 权限被拒绝"), d')
      else (raise Exception (py "保存配置时发生错误: " ++ text e), d')
    end.
Proof.
  unfold App.save_config, try_action. rewrite or_empty_if.
  destruct (write_file _ _ _ d) as [[a|e] d']; [reflexivity|].
  cbn [List.find existsb fst]. rewrite orb_false_r.
  destruct (isinstance e PermissionError); [reflexivity|].
  rewrite isinstance_Exception. reflexivity.
Qed.

(** What [save_config] does, case by case. *)
Lemma app_save_cases (url : str) (key : option str) (now : str) (d : dir) :
  (d !! App.config_file = Some Locked
   ∧ App.save_config url key now d
     = (raise PermissionError
          (py "无法写入配置文件 " ++ App.config_file ++ py ": 权限被拒绝"), d))
  ∨ (d !! App.config_file ≠ Some Locked
     ∧ encodable url && encodable (or_empty key) = false
     ∧ ∃ e, cls e = Exception
            ∧ App.save_config url key now d
              = (Raise e, <[App.config_file := Garbled]> d))
  ∨ (d !! App.config_file ≠ Some Locked
     ∧ encodable url && encodable (or_empty key) = true
     ∧ App.save_config url key now d
       = (Return (), App.written url key now d)).
Proof.
  rewrite app_save_config_eq. unfold App.written.
  pose proof (first_error_config url (or_empty key)) as Hfe.
  destruct (write_file_cases App.config_file
              (config_chunks url (or_empty key))
              (Json (config_data url (or_empty key) now)) d)
    as [[Hl Hw]|[(Hl & e & He & Hw)|(Hl & He & Hw)]]; rewrite Hw.
  - left. split; [exact Hl|]. reflexivity.
  - right. left. rewrite He in Hfe. destruct Hfe as [Hen Hc].
    split; [exact Hl|]. split; [exact Hen|].
    unfold isinstance. rewrite Hc.
    change (issubclass UnicodeEncodeError PermissionError) with false.
    cbv iota. eexists. split; [|reflexivity]. reflexivity.
  - right. right. rewrite He in Hfe.
    split; [exact Hl|]. split; [exact Hfe|reflexivity].
Qed.









(** ** The classification of a fetch *)

Lemma carries_prefix (before detail : str) :
  Kind.carries (before ++ detail) detail.
Proof. exists before, []. by rewrite app_nil_r. Qed.

Lemma carries_infix (before detail after : str) :
  Kind.carries (before ++ detail ++ after) detail.
Proof. by exists before, after. Qed.

Lemma status_other (z : Z) :
  z ∉ [200%Z; 401%Z; 404%Z; 500%Z] →
  (z =? 401)%Z = false ∧ (z =? 404)%Z = false ∧ (z =? 500)%Z = false
  ∧ (z =? 200)%Z = false.
Proof.
  intros Hz. split_and!; apply Z.eqb_neq; intros ->; apply Hz;
    repeat constructor.
Qed.

Lemma dispatch_skip {A} classes (h : exn → outcome A) rest e :
  existsb (isinstance e) classes = false →
  dispatch ((classes, h) :: rest) e = dispatch rest e.
Proof. intros Hc. cbn [dispatch]. by rewrite Hc. Qed.

Lemma dispatch_hit {A} classes (h : exn → outcome A) rest e :
  existsb (isinstance e) classes = true →
  dispatch ((classes, h) :: rest) e = h e.
Proof. intros Hc. cbn [dispatch]. by rewrite Hc. Qed.

Lemma existsb_one {A} (f : A → bool) (x : A) : existsb f [x] = f x.
Proof. cbn. apply orb_false_r. Qed.

(** An [APIError] raised in the body of [fetch_models] passes the clauses
    for the exceptions of [requests] and is raised again. *)
Ltac reraise :=
  cbn [try_except raise mbind outcome_bind];
  rewrite ?dispatch_skip by reflexivity;
  rewrite dispatch_hit by reflexivity.

Ltac failed_with :=
  eexists; split; [reflexivity | vm_compute; reflexivity].
Ltac failed_carrying :=
  eexists; split_and!;
    [reflexivity | vm_compute; reflexivity
     | first [apply carries_prefix | apply carries_infix]].

Section Classification.
Context `{Host} (requests_get : get_fn).

Lemma app_classified (self : App.OpenAIAPIClient) (ep : str) :
  App.endpoint_of self = Return ep →
  classified_by_priority (App.fetch_models requests_get self)
    (requests_get ep 30%Z (App.headers_of self)) ep.
Proof.
  intros Hep. unfold App.fetch_models. rewrite Hep.
  cbn [mbind outcome_bind].
  destruct (requests_get ep 30%Z (App.headers_of self)) as [r|e] eqn:Hreply;
    cbn [mbind outcome_bind]; unfold classified_by_priority; split_and!;
    try (intros ? [=]; fail).
  - intros r' [= <-] ->. change (401 =? 401)%Z with true. cbv iota.
    reraise. failed_with.
  - intros r' [= <-] ->. change (404 =? 401)%Z with false.
    change (404 =? 404)%Z with true. cbv iota.
    reraise. failed_carrying.
  - intros r' [= <-] ->. change (500 =? 401)%Z with false.
    change (500 =? 404)%Z with false. change (500 =? 500)%Z with true.
    cbv iota. reraise. failed_with.
  - intros r' [= <-] (-> & -> & -> & ->)%status_other. cbn [negb].
    reraise. failed_carrying.
  - intros e' [= <-] Ht. cbn [try_except].
    rewrite dispatch_hit by (by rewrite existsb_one). failed_with.
  - intros e' [= <-] Ht Hc. cbn [try_except].
    rewrite dispatch_skip by (by rewrite existsb_one).
    rewrite dispatch_hit by (by rewrite existsb_one). failed_carrying.
  - intros e' [= <-] Ht Hc Hr. cbn [try_except].
    rewrite !dispatch_skip by (by rewrite existsb_one).
    rewrite dispatch_hit by (by rewrite existsb_one). failed_with.
Qed.

Lemma main_classified (self : Main.OpenAIAPIClient) (ep : str) :
  Main.endpoint_of self = Return ep →
  classified_by_priority (Main.fetch_models requests_get self)
    (requests_get ep 30%Z (Main.headers_of self)) ep.
Proof.
  intros Hep. unfold Main.fetch_models. rewrite Hep.
  cbn [mbind outcome_bind].
  destruct (requests_get ep 30%Z (Main.headers_of self)) as [r|e] eqn:Hreply;
    cbn [mbind outcome_bind]; unfold classified_by_priority; split_and!;
    try (intros ? [=]; fail).
  - intros r' [= <-] ->. unfold Main.error_msgs. cbn [List.find fst].
    change (401 =? 401)%Z with true. cbv iota.
    reraise. failed_with.
  - intros r' [= <-] ->. unfold Main.error_msgs. cbn [List.find fst].
    change (401 =? 404)%Z with false.
    change (404 =? 404)%Z with true. cbv iota.
    reraise. failed_carrying.
  - intros r' [= <-] ->. unfold Main.error_msgs. cbn [List.find fst].
    change (401 =? 500)%Z with false. change (404 =? 500)%Z with false.
    change (500 =? 500)%Z with true.
    cbv iota. reraise. failed_with.
  - intros r' [= <-] (H401 & H404 & H500 & H200)%status_other.
    unfold Main.error_msgs. cbn [List.find fst].
    rewrite !(Z.eqb_sym _ (status_code r)), H401, H404, H500, H200.
    cbn [negb]. reraise. failed_carrying.
  - intros e' [= <-] Ht. cbn [try_except].
    rewrite dispatch_hit by (by rewrite existsb_one). failed_with.
  - intros e' [= <-] Ht Hc. cbn [try_except].
    rewrite dispatch_skip by (by rewrite existsb_one).
    rewrite dispatch_hit by (by rewrite existsb_one). failed_carrying.
  - intros e' [= <-] Ht Hc Hr. cbn [try_except].
    rewrite !dispatch_skip by (by rewrite existsb_one).
    rewrite dispatch_hit by (by rewrite existsb_one). failed_with.
Qed.
End Classification.

(** C1. Whatever the network answers to the request, [fetch_models] tells
    the failures apart in this order: a timeout of the transport fails as
    Timeout; else a connection failure as ConnectionFailed, the message
    carrying the text of the cause; else any other exception of the
    transport as NetworkError; a response with status 401 fails as
    Unauthorized, 404 as NotFound with the target of the request in the
    message, 500 as ServerError, and any other status but 200 as
    UnexpectedStatus with the status code in the message. Both variants. *)
Theorem fetch_models_classification `{Host} (requests_get : get_fn)
    (base_url : str) (api_key : option str) (endpoint : str) :
  UrlLib.urljoin (rstrip (py "/") base_url ++ py "/") (py "models")
    = Return endpoint →
  classified_by_priority
    (App.fetch_models requests_get (App.mk_client base_url api_key))
    (requests_get endpoint 30%Z
       (App.headers_of (App.mk_client base_url api_key)))
    endpoint
  ∧ classified_by_priority
      (Main.fetch_models requests_get (Main.mk_client base_url api_key))
      (requests_get endpoint 30%Z
         (Main.headers_of (Main.mk_client base_url api_key)))
      endpoint.
Proof.
  intros Hep. split.
  - by apply app_classified.
  - by apply main_classified.
Qed.

(** ** The schema of a response with status 200 *)

Section Schema.
Context `{Host}.

Lemma app_schema_checked (self : App.OpenAIAPIClient) (ep : str) :
  App.endpoint_of self = Return ep →
  schema_checked (λ body, App.fetch_models (replies body) self).
Proof.
  intros Hep. unfold schema_checked, App.fetch_models, replies.
  rewrite Hep. cbn [mbind outcome_bind status_code json].
  change (200 =? 401)%Z with false. change (200 =? 404)%Z with false.
  change (200 =? 500)%Z with false. change (200 =? 200)%Z with true.
  cbn [negb]. split_and!.
  - intros e He. cbn [try_except].
    rewrite dispatch_hit by (by rewrite existsb_one).
    cbn [try_except raise mbind outcome_bind].
    rewrite ?dispatch_skip by reflexivity.
    rewrite dispatch_hit by reflexivity. failed_with.
  - intros v Hv. cbn [try_except mbind outcome_bind].
    destruct v; try discriminate; reraise; failed_with.
  - intros items Hd. cbn [try_except mbind outcome_bind].
    unfold dict_contains. rewrite Hd.
    rewrite bool_decide_eq_false_2 by (by intros [? ?]).
    cbn [negb]. reraise. failed_with.
  - intros items d Hd Hl. cbn [try_except mbind outcome_bind].
    unfold dict_contains, getitem. rewrite Hd.
    rewrite bool_decide_eq_true_2 by by eexists.
    cbn [negb mbind outcome_bind]. rewrite Hl. cbn [negb].
    reraise. failed_with.
Qed.

Lemma main_not_object (self : Main.OpenAIAPIClient) (ep : str) (v : value) :
  Main.endpoint_of self = Return ep →
  is_dict v = false →
  Main.fetch_models (replies (Return v)) self
  = raise APIError
      (py "未知错误：'" ++ type_name v
       ++ py "' object has no attribute 'get'").
Proof.
  intros Hep Hv. unfold Main.fetch_models, replies.
  rewrite Hep. cbn [mbind outcome_bind status_code json].
  unfold Main.error_msgs. cbn [List.find fst].
  change (401 =? 200)%Z with false. change (404 =? 200)%Z with false.
  change (500 =? 200)%Z with false. change (200 =? 200)%Z with true.
  cbn [negb].
  destruct v; try discriminate; cbn [get mbind outcome_bind try_except raise].
  all: rewrite !dispatch_skip by reflexivity.
  all: rewrite dispatch_hit by reflexivity.
  all: vm_compute; reflexivity.
Qed.

(** What [main.py] does check: an object without [data], or whose [data]
    is not a list, fails as InvalidSchema. *)
Lemma main_object_schema_checked (self : Main.OpenAIAPIClient) (ep : str) :
  Main.endpoint_of self = Return ep →
  (∀ items, lookup_key (py "data") items = None →
     Kind.fails_with (Main.fetch_models (replies (Return (VDict items))) self)
       Kind.InvalidSchema)
  ∧ (∀ items d, lookup_key (py "data") items = Some d → is_list d = false →
       Kind.fails_with
         (Main.fetch_models (replies (Return (VDict items))) self)
         Kind.InvalidSchema).
Proof.
  intros Hep. unfold Main.fetch_models, replies.
  rewrite Hep. cbn [mbind outcome_bind status_code json].
  unfold Main.error_msgs. cbn [List.find fst].
  change (401 =? 200)%Z with false. change (404 =? 200)%Z with false.
  change (500 =? 200)%Z with false. change (200 =? 200)%Z with true.
  cbn [negb get mbind outcome_bind]. split.
  - intros items ->. cbn [from_option is_list negb].
    reraise. failed_with.
  - intros items d -> Hd. cbn [from_option id]. rewrite Hd. cbn [negb].
    reraise. failed_with.
Qed.

(** A body that does not decode. [main.py] has the clause for
    [ValueError] after the clause for [RequestException]: the plain
    [ValueError] of a decoder fails as MalformedResponse, the
    [JSONDecodeError] of [requests], which is both, as a NetworkError. *)
Lemma main_undecodable_body (self : Main.OpenAIAPIClient) (ep : str)
    (e : exn) :
  Main.endpoint_of self = Return ep →
  isinstance e ValueError = true →
  Kind.fails_with (Main.fetch_models (replies (Raise e)) self)
    (if isinstance e RequestException then Kind.NetworkError
     else Kind.MalformedResponse).
Proof.
  intros Hep He. unfold Main.fetch_models, replies.
  rewrite Hep. cbn [mbind outcome_bind status_code json].
  unfold Main.error_msgs. cbn [List.find fst].
  change (401 =? 200)%Z with false. change (404 =? 200)%Z with false.
  change (500 =? 200)%Z with false. change (200 =? 200)%Z with true.
  cbn [negb mbind outcome_bind try_except].
  destruct e as [c msg]. unfold isinstance in *. cbn [cls text] in *.
  destruct c; try discriminate He;
    rewrite ?dispatch_skip by reflexivity;
    rewrite dispatch_hit by reflexivity;
    failed_with.
Qed.
End Schema.

(** The body [{"foo":1}] fails as InvalidSchema in both variants. *)
Lemma foo_body_fails_as_invalid_schema :
  Kind.fails_with
    (App.fetch_models (H := ascii_host)
       (replies (Return (VDict [(py "foo", VInt 1)])))
       (App.__init__ example_base None))
    Kind.InvalidSchema
  ∧ Kind.fails_with
      (Main.fetch_models (H := ascii_host)
         (replies (Return (VDict [(py "foo", VInt 1)])))
         (Main.__init__ example_base None))
      Kind.InvalidSchema.
Proof. split; eexists; split; vm_compute; reflexivity. Qed.

(** A body [requests] cannot decode: [app.py] fails as MalformedResponse,
    [main.py] as a NetworkError. *)
Lemma undecodable_body_by_variant (msg : str) :
  Kind.fails_with
    (App.fetch_models (H := ascii_host)
       (replies (raise requests_JSONDecodeError msg))
       (App.__init__ example_base None))
    Kind.MalformedResponse
  ∧ Kind.fails_with
      (Main.fetch_models (H := ascii_host)
         (replies (raise requests_JSONDecodeError msg))
         (Main.__init__ example_base None))
      Kind.NetworkError.
Proof.
  split.
  - apply (app_schema_checked (H := ascii_host) _ example_target);
      vm_compute; reflexivity.
  - apply (main_undecodable_body (H := ascii_host) _ example_target
             (mk_exn requests_JSONDecodeError msg));
      vm_compute; reflexivity.
Qed.


(** C2, at the input where [main.py] departs from it. A response with
    status 200 whose body is the JSON array [[]]: [main.py] calls
    [data.get] on the list, the [AttributeError] falls to the last
    clause, and the fetch fails with the message of an unknown error;
    [app.py] tests [isinstance(data, dict)] first and fails with the
    message of a schema error. *)
Theorem main_array_body_fails_as_unknown :
  Main.fetch_models (H := ascii_host) (replies (Return (VList [])))
    (Main.__init__ example_base None)
  = raise APIError (py "未知错误：'list' object has no attribute 'get'")
  ∧ Kind.kind_of (py "未知错误：'list' object has no attribute 'get'")
    = Kind.Unknown
  ∧ App.fetch_models (H := ascii_host) (replies (Return (VList [])))
      (App.__init__ example_base None)
    = raise APIError (py "响应格式错误：期望JSON对象")
  ∧ Kind.kind_of (py "响应格式错误：期望JSON对象") = Kind.InvalidSchema.
Proof. split_and!; vm_compute; reflexivity. Qed.

(** ** The handlers of a fetch *)

Ltac run :=
  cbv beta iota delta [mbind mret action_bind action_ret modify lift gets].

Lemma mapM_get_id (objs : list (list (str * value))) :
  mapM (λ m, get m (py "id") (VStr (py "Unknown"))) (VDict <$> objs)
  = Return (model_id_of <$> objs).
Proof.
  induction objs as [|o objs IH]; [done|].
  cbn [fmap list_fmap mapM] in *. rewrite IH. reflexivity.
Qed.

Lemma truth_nonempty (objs : list (list (str * value))) :
  objs ≠ [] → truth (VList (VDict <$> objs)) = true.
Proof. by destruct objs. Qed.

Lemma for_each_modify {S A} (f : A → S → S) (xs : list A) (s : S) :
  for_each xs (λ x, modify (f x)) s
  = (Return (), fold_left (λ s x, f x s) xs s).
Proof.
  revert s. induction xs as [|x xs IH]; intros s; [done|].
  cbn [for_each mbind action_bind modify fold_left]. apply IH.
Qed.

Lemma main_add_cards (ids : list value) (w : Main.MainWindow) :
  for_each ids Main._add_model_card w
  = (Return (),
     Main.on_home
       (λ h, Main.set_model_cards (Main.model_cards h ++ ids) h) w).
Proof.
  unfold Main._add_model_card. rewrite for_each_modify. f_equal.
  revert w. induction ids as [|x ids IH]; intros [[] ? ? ?].
  - unfold Main.on_home, Main.set_model_cards. cbn.
    by rewrite app_nil_r.
  - cbn [fold_left]. rewrite IH.
    unfold Main.on_home, Main.set_model_cards. cbn.
    by rewrite <- app_assoc.
Qed.

Lemma main_on_success_run (now : str) (fields : list (str * value))
    (objs : list (list (str * value))) (w : Main.MainWindow) :
  lookup_key (py "data") fields = Some (VList (VDict <$> objs)) →
  objs ≠ [] →
  Main._on_success now (VDict fields) w
  = (let ids := model_id_of <$> objs in
     let h := Main.home_page w in
     let saving :=
       Main.save (Main.current_profile h) (strip (Main.url_entry h))
         (Some (strip (Main.key_entry h))) now (Main.disk w) in
     (saving.1,
      Main.mk_window
        (Main.mk_home (Main.url_entry h) (Main.key_entry h)
           (Main.validation_label h) false ids ids
           (Main.model_cards h ++ ids) (Main.current_profile h))
        (Main.profiles_page w)
        (Main.info_bars w
         ++ [(py "success",
              py "成功获取 " ++ str_of_Z (Z.of_nat (length objs))
              ++ py " 个模型")])
        saving.2)).
Proof.
  intros Hdata Hne. unfold Main._on_success.
  cbv beta iota delta [mbind action_bind modify lift gets get]. rewrite Hdata.
  cbv beta iota delta [from_option id]. rewrite (truth_nonempty _ Hne).
  cbv beta iota delta [negb iter len mbind action_bind modify lift gets].
  rewrite mapM_get_id. cbv beta iota delta [mbind action_bind modify lift gets].
  rewrite main_add_cards.
  cbv beta iota delta [mbind action_bind modify lift gets Main._notify zoom].
  rewrite length_fmap. destruct w as [[] ? ? ?].
  cbn [Main.home_page Main.profiles_page Main.info_bars Main.disk
       Main.on_home Main.info_bar Main.set_disk Main.url_entry
       Main.key_entry Main.validation_label Main.loading Main.all_models
       Main.model_ids Main.model_cards Main.current_profile
       Main.set_loading Main.set_model_cards Main.set_model_ids
       Main.set_all_models id].
  destruct (Main.save _ _ _ _ _) as [r d']. reflexivity.
Qed.

Lemma main_on_success_empty (now : str) (fields : list (str * value))
    (w : Main.MainWindow) :
  lookup_key (py "data") fields = Some (VList []) →
  Main._on_success now (VDict fields) w
  = (Return (),
     Main.info_bar (py "warning") (py "未找到任何模型")
       (Main.on_home (Main.set_loading false) w)).
Proof.
  intros Hdata. unfold Main._on_success.
  cbv beta iota delta [mbind action_bind modify lift gets get]. rewrite Hdata.
  reflexivity.
Qed.

Lemma mapM_get_id_inv (items ids : list value) :
  mapM (λ m, get m (py "id") (VStr (py "Unknown"))) items = Return ids →
  ∃ objs, items = VDict <$> objs.
Proof.
  revert ids. induction items as [|m items IH]; intros ids.
  - by exists [].
  - cbn [mapM]. destruct m as [| | | | | |o]; try discriminate.
    cbn [get mbind outcome_bind].
    destruct (mapM _ items) as [ids'|e] eqn:Hm; [|discriminate].
    destruct (IH _ eq_refl) as [objs ->]. intros _. by exists (o :: objs).
Qed.

(** Unless the result lists at least one model, [_on_success] leaves the
    directory alone. *)
Lemma main_on_success_no_save (now : str) (result : value)
    (w : Main.MainWindow) :
  (∀ fields objs, result = VDict fields →
     lookup_key (py "data") fields = Some (VList (VDict <$> objs)) →
     objs = []) →
  Main.disk (Main._on_success now result w).2 = Main.disk w.
Proof.
  intros Hnone. unfold Main._on_success. run.
  destruct result as [| | | | | |fields]; try reflexivity.
  cbn [get from_option].
  destruct (lookup_key (py "data") fields) as [models|] eqn:Hdata;
    [|reflexivity].
  cbn [from_option id].
  destruct models as [| [|] |z |r |s |items |items]; cbn [truth negb iter];
    try reflexivity.
  - destruct (z =? 0)%Z; reflexivity.
  - destruct (negb _); reflexivity.
  - destruct s as [|c s]; [reflexivity|]. reflexivity.
  - destruct (mapM _ items) as [ids|e] eqn:Hm.
    + destruct (mapM_get_id_inv _ _ Hm) as [objs ->].
      rewrite (Hnone _ _ eq_refl Hdata). reflexivity.
    + destruct items; reflexivity.
  - destruct items as [|kv items]; reflexivity.
Qed.


(** *** [app.py] *)

Lemma app_add_models (objs : list (list (str * value)))
    (a : App.ModelFetcherApp) :
  for_each (VDict <$> objs) app_loop a
  = (Return (),
     App.set_model_ids (App.model_ids a ++ (model_id_of <$> objs)) a).
Proof.
  revert a. induction objs as [|o objs IH]; intros [].
  - unfold App.set_model_ids. cbn. by rewrite app_nil_r.
  - cbn [fmap list_fmap for_each]. run. cbn [get].
    fold (@fmap list _ _ _ VDict objs). rewrite IH.
    unfold App.add_model, App.set_model_ids. cbn.
    by rewrite <- app_assoc.
Qed.

Lemma app_loop_disk (items : list value) (a : App.ModelFetcherApp) :
  App.disk (for_each items app_loop a).2 = App.disk a.
Proof.
  revert a. induction items as [|m items IH]; intros a; [done|].
  cbn [for_each]. run.
  destruct (get m (py "id") (VStr (py "Unknown"))) as [model_id|e];
    [|reflexivity].
  rewrite IH. by destruct a.
Qed.

Lemma app_loop_inv (items : list value) (a a' : App.ModelFetcherApp) :
  for_each items app_loop a = (Return (), a') →
  ∃ objs, items = VDict <$> objs.
Proof.
  revert a. induction items as [|m items IH]; intros a.
  - by exists [].
  - cbn [for_each]. run.
    destruct m as [| | | | | |o]; try discriminate.
    cbn [get]. intros [objs ->]%IH. by exists (o :: objs).
Qed.

Lemma app_save_config_run (now url : str) (key : option str)
    (a : App.ModelFetcherApp) :
  App._save_config now url key a
  = (Return (),
     App.set_disk (App.save_config url key now (App.disk a)).2 a).
Proof.
  unfold App._save_config, try_action, zoom.
  destruct (App.save_config url key now (App.disk a)) as [[[]|e] d'];
    [reflexivity|].
  cbn [List.find existsb fst snd]. rewrite isinstance_Exception.
  reflexivity.
Qed.

Lemma app_on_fetch_success_run (now : str) (fields : list (str * value))
    (objs : list (list (str * value))) (a : App.ModelFetcherApp) :
  lookup_key (py "data") fields = Some (VList (VDict <$> objs)) →
  objs ≠ [] →
  App._on_fetch_success now (VDict fields) a
  = (Return (),
     App.mk_app (App.url_entry a) (App.key_entry a) (App.validation_error a)
       false (App.model_ids a ++ (model_id_of <$> objs))
       (py "成功获取 " ++ str_of_Z (Z.of_nat (length objs)) ++ py " 个模型",
        py "success")
       (App.save_config (App.get_url a) (Some (App.get_api_key a)) now
          (App.disk a)).2).
Proof.
  intros Hdata Hne. unfold App._on_fetch_success. run.
  cbn [get]. rewrite Hdata. cbn [from_option id].
  rewrite (truth_nonempty _ Hne). cbn [negb iter len].
  rewrite app_add_models. unfold App.show_success. run.
  rewrite app_save_config_run, length_fmap. by destruct a.
Qed.

Lemma app_on_fetch_success_empty (now : str) (fields : list (str * value))
    (a : App.ModelFetcherApp) :
  lookup_key (py "data") fields = Some (VList []) →
  App._on_fetch_success now (VDict fields) a
  = (Return (),
     App.show_status (py "未找到任何模型") (py "warning")
       (App.set_loading_state false a)).
Proof.
  intros Hdata. unfold App._on_fetch_success. run.
  cbn [get]. by rewrite Hdata.
Qed.

(** Unless the result lists at least one model, [_on_fetch_success]
    leaves the directory alone. *)
Lemma app_on_fetch_success_no_save (now : str) (result : value)
    (a : App.ModelFetcherApp) :
  (∀ fields objs, result = VDict fields →
     lookup_key (py "data") fields = Some (VList (VDict <$> objs)) →
     objs = []) →
  App.disk (App._on_fetch_success now result a).2 = App.disk a.
Proof.
  intros Hnone. unfold App._on_fetch_success. run.
  destruct result as [| | | | | |fields]; try (by destruct a).
  cbn [get from_option].
  destruct (lookup_key (py "data") fields) as [models|] eqn:Hdata;
    [|by destruct a].
  cbn [from_option id].
  destruct models as [| [|] |z |r |s |items |items]; cbn [truth negb iter];
    try (by destruct a).
  - destruct (z =? 0)%Z; by destruct a.
  - destruct (negb _); by destruct a.
  - destruct s as [|c s]; by destruct a.
  - destruct items as [|m items]; [by destruct a|].
    cbn [negb].
    pose proof (app_loop_disk (m :: items) (App.set_loading_state false a))
      as Ha'.
    match goal with
    | |- context [for_each ?xs ?b ?s] =>
      change (for_each xs b s) with (for_each xs app_loop s);
      destruct (for_each xs app_loop s) as [[[]|e] a'] eqn:Hloop
    end.
    + destruct (app_loop_inv _ _ _ Hloop) as [objs Hobjs].
      rewrite Hobjs in Hdata. specialize (Hnone _ _ eq_refl Hdata).
      subst objs. discriminate.
    + cbn [snd] in *. rewrite Ha'. by destruct a.
  - destruct items as [|kv items]; by destruct a.
Qed.

Section Orchestrator.
Context `{Host} (requests_get : get_fn) (now : str).

Lemma not_lists_a_model (result : value) :
  ¬ lists_a_model result →
  ∀ fields objs, result = VDict fields →
    lookup_key (py "data") fields = Some (VList (VDict <$> objs)) →
    objs = [].
Proof.
  intros Hno fields objs -> Hdata. destruct objs as [|o objs]; [done|].
  destruct Hno. by exists fields, (o :: objs).
Qed.

Lemma main_fetch_disk (w : Main.MainWindow) :
  saves_when_models_listed
    (Main.validate_url (strip (Main.url_entry (Main.home_page w))))
    (Main.fetch_models requests_get
       (Main.__init__ (strip (Main.url_entry (Main.home_page w)))
          (Some (strip (Main.key_entry (Main.home_page w))))))
    (Main.disk (Main.fetch_invocation requests_get now w).2 = Main.disk w)
    (main_saved now w (Main.fetch_invocation requests_get now w).2).
Proof.
  destruct w as [[url_e key_e vl ld am mi mc cp] pp ib d].
  unfold saves_when_models_listed.
  cbn [Main.home_page Main.url_entry Main.key_entry Main.disk].
  unfold Main.fetch_invocation, Main._fetch. run.
  cbn [Main.home_page Main.url_entry].
  destruct (strip url_e) as [|c url'] eqn:Eurl.
  - cbn [truthy negb].
    unfold Main._show_validation. run. cbn [snd Main.disk Main.on_home].
    split_and!; try done; intros Hv; exfalso; revert Hv;
      rewrite main_validate_url_eq;
      change (strip []) with (@nil N); rewrite urlparse_empty; discriminate.
  - cbn [truthy negb].
    destruct (Main.validate_url (c :: url')) as [[|]|e].
    + cbn [negb]. unfold Main._clear_models, Main._notify. run.
      unfold Main.worker.
      cbn [id Main.home_page Main.profiles_page Main.info_bars Main.disk
           Main.on_home Main.info_bar Main.url_entry Main.key_entry
           Main.validation_label Main.loading Main.all_models Main.model_ids
           Main.model_cards Main.current_profile
           Main.set_validation_label Main.set_loading Main.set_model_cards
           Main.set_model_ids Main.set_all_models].
      split_and!; try discriminate; intros _.
      * intros e ->. destruct (isinstance e APIError); reflexivity.
      * intros result -> Hno. cbn [Main.deliver].
        rewrite main_on_success_no_save; [done|].
        by apply not_lists_a_model.
      * intros result -> (fields & objs & -> & Hdata & Hne).
        cbn [Main.deliver].
        rewrite (main_on_success_run _ _ _ _ Hdata Hne).
        unfold main_saved.
        cbn [snd id Main.home_page Main.profiles_page Main.info_bars
             Main.disk Main.on_home Main.info_bar Main.url_entry
             Main.key_entry Main.validation_label Main.loading
             Main.all_models Main.model_ids Main.model_cards
             Main.current_profile Main.set_validation_label
             Main.set_loading Main.set_model_cards Main.set_model_ids
             Main.set_all_models].
        by rewrite Eurl.
    + cbn [negb]. unfold Main._show_validation. run.
      split_and!; try done; discriminate.
    + split_and!; try done; discriminate.
Qed.

Lemma app_fetch_disk (prompt : bool) (a : App.ModelFetcherApp) :
  saves_when_models_listed
    (App.validate_url (App.get_url a))
    (App.fetch_models requests_get
       (App.__init__ (App.get_url a) (Some (App.get_api_key a))))
    (App.disk (App.fetch_invocation requests_get now prompt a).2
     = App.disk a)
    (app_saved now a (App.fetch_invocation requests_get now prompt a).2).
Proof.
  destruct a as [url_e key_e ve ld mi st d].
  unfold saves_when_models_listed, App.get_url, App.get_api_key.
  cbn [App.url_entry App.key_entry App.disk].
  unfold App.fetch_invocation, App.fetch_models_async. run.
  unfold App.get_url, App.get_api_key. cbn [App.url_entry App.key_entry].
  destruct (strip url_e) as [|c url'] eqn:Eurl.
  - cbn [truthy negb snd App.disk App.set_validation].
    split_and!; try done; intros Hv; exfalso; revert Hv;
      rewrite app_validate_url_eq;
      change (strip []) with (@nil N); rewrite urlparse_empty; discriminate.
  - cbn [truthy negb].
    destruct (App.validate_url (c :: url')) as [[|]|e].
    + cbn [negb]. unfold App.worker.
      split_and!; try discriminate; intros _.
      * intros e ->. destruct prompt; [|reflexivity].
        cbn [negb]. destruct (isinstance e APIError); reflexivity.
      * intros result -> Hno. cbn [App.deliver].
        rewrite app_on_fetch_success_no_save; [done|].
        by apply not_lists_a_model.
      * intros result -> (fields & objs & -> & Hdata & Hne).
        cbn [App.deliver].
        rewrite (app_on_fetch_success_run _ _ _ _ Hdata Hne).
        unfold app_saved, App.save_config, App.get_url, App.get_api_key.
        cbn [snd App.disk App.url_entry App.key_entry App.show_status
             App.set_model_ids App.set_loading_state App.set_validation
             try_except].
        rewrite Eurl. by destruct (strip key_e).
    + cbn [negb]. split_and!; try done; discriminate.
    + split_and!; try done; discriminate.
Qed.

End Orchestrator.

(** ** A successful fetch *)

Section Success.
Context `{Host}.



End Success.


(** *** The parts of a fetch and the store *)

Section Parts.
Context `{Host} (requests_get : get_fn) (now : str).

Lemma main_click_disk (w : Main.MainWindow) :
  Main.disk (Main._fetch w).2 = Main.disk w
  ∧ Main.url_entry (Main.home_page (Main._fetch w).2)
    = Main.url_entry (Main.home_page w)
  ∧ Main.key_entry (Main.home_page (Main._fetch w).2)
    = Main.key_entry (Main.home_page w)
  ∧ Main.current_profile (Main.home_page (Main._fetch w).2)
    = Main.current_profile (Main.home_page w).
Proof.
  unfold Main._fetch. run. destruct w as [[] ? ? ?].
  cbn [Main.home_page Main.url_entry].
  destruct (strip url_entry) as [|c u]; cbn [truthy negb]; [done|].
  destruct (Main.validate_url (c :: u)) as [[|]|e]; done.
Qed.

Lemma main_on_error_disk (msg : str) (w : Main.MainWindow) :
  Main.disk (Main._on_error msg w).2 = Main.disk w.
Proof. reflexivity. Qed.

Lemma main_on_success_saved (result : value) (w : Main.MainWindow) :
  lists_a_model result → main_saved now w (Main._on_success now result w).2.
Proof.
  intros (fields & objs & -> & Hdata & Hne). unfold main_saved.
  by rewrite (main_on_success_run _ _ _ _ Hdata Hne).
Qed.

Lemma main_meanwhile_saved (meanwhile : action Main.MainWindow ())
    (w : Main.MainWindow) (result : value) :
  Main.validate_url (strip (Main.url_entry (Main.home_page w)))
    = Return true →
  Main.fetch_models requests_get
    (Main.__init__ (strip (Main.url_entry (Main.home_page w)))
       (Some (strip (Main.key_entry (Main.home_page w))))) = Return result →
  Main.fetch_meanwhile requests_get now meanwhile w
  = Main._on_success now result (meanwhile (Main._fetch w).2).2.
Proof.
  intros Hv Hf. unfold Main.fetch_meanwhile, and_then.
  cbv beta iota delta [mbind action_bind gets id].
  destruct (main_click_disk w) as (_ & _ & Hk & _).
  destruct (Main._fetch w) as [[[url|]|e] w1] eqn:Hc.
  - cbn [snd] in *. unfold Main.worker.
    assert (url = strip (Main.url_entry (Main.home_page w))) as ->.
    { revert Hc. unfold Main._fetch. run.
      destruct (strip (Main.url_entry (Main.home_page w))) as [|c u];
        cbn [truthy negb]; [discriminate|].
      rewrite Hv. cbn [negb]. unfold Main._clear_models, Main._notify. run.
      by intros [= <- _]. }
    rewrite Hk, Hf. reflexivity.
  - exfalso. revert Hc. unfold Main._fetch. run.
    destruct (strip (Main.url_entry (Main.home_page w))) as [|c u] eqn:Eu.
    + rewrite main_validate_url_eq in Hv.
      change (strip []) with (@nil N) in Hv.
      rewrite urlparse_empty in Hv. discriminate.
    + cbn [truthy negb]. rewrite Hv. discriminate.
  - exfalso. revert Hc. unfold Main._fetch. run.
    destruct (strip (Main.url_entry (Main.home_page w))) as [|c u];
      cbn [truthy negb]; [discriminate|].
    rewrite Hv. discriminate.
Qed.

Lemma app_click_disk (a : App.ModelFetcherApp) :
  App.disk (App.fetch_models_async a).2 = App.disk a
  ∧ App.url_entry (App.fetch_models_async a).2 = App.url_entry a
  ∧ App.key_entry (App.fetch_models_async a).2 = App.key_entry a.
Proof.
  unfold App.fetch_models_async. run. destruct a.
  unfold App.get_url. cbn [App.url_entry].
  destruct (strip url_entry) as [|c u]; cbn [truthy negb]; [done|].
  destruct (App.validate_url (c :: u)) as [[|]|e]; done.
Qed.

Lemma app_on_error_disk (msg : str) (a : App.ModelFetcherApp) :
  App.disk (App._on_fetch_error msg a).2 = App.disk a.
Proof. by destruct a. Qed.

Lemma app_on_success_saved (result : value) (a : App.ModelFetcherApp) :
  lists_a_model result →
  app_saved now a (App._on_fetch_success now result a).2.
Proof.
  intros (fields & objs & -> & Hdata & Hne). unfold app_saved.
  by rewrite (app_on_fetch_success_run _ _ _ _ Hdata Hne).
Qed.

Lemma app_meanwhile_saved (prompt : bool)
    (meanwhile : action App.ModelFetcherApp ()) (a : App.ModelFetcherApp)
    (result : value) :
  App.validate_url (App.get_url a) = Return true →
  App.fetch_models requests_get
    (App.__init__ (App.get_url a) (Some (App.get_api_key a)))
    = Return result →
  App.fetch_meanwhile requests_get now prompt meanwhile a
  = App._on_fetch_success now result
      (meanwhile (App.fetch_models_async a).2).2.
Proof.
  intros Hv Hf. unfold App.fetch_meanwhile, and_then.
  cbv beta iota delta [mbind action_bind].
  unfold App.fetch_models_async. run.
  destruct (App.get_url a) as [|c u] eqn:Eu.
  - rewrite app_validate_url_eq in Hv. unfold App.get_url in Eu.
    exfalso. revert Hv.
    assert (strip [] = @nil N) as -> by reflexivity.
    rewrite urlparse_empty. discriminate.
  - cbn [truthy negb]. rewrite Hv. cbn [negb snd]. unfold App.worker.
    rewrite Hf. reflexivity.
Qed.

End Parts.

(** C7, as the program has it. A fetch is the click, which starts the
    thread, and the handler of what the thread hands back. The click
    and the handler of an error never touch the store. The handler of a
    success calls [save] exactly when the result lists at least one
    model, each an object, and with what the window holds when the
    handler runs: the current profile ([main.py]) and the URL and the
    key of the entries, trimmed; on any other result it leaves the store
    as it was. So a fetch with other events in between saves what the
    window holds after them, and a fetch that runs from the click to the
    handler with nothing in between saves the inputs that were
    validated. When the input is turned down, when the request fails
    with any error, and when the result lists no model, the store is
    left as it was. *)
Theorem fetch_saves_when_models_listed `{Host} (requests_get : get_fn)
    (now : str) :
  ((∀ w, Main.disk (Main._fetch w).2 = Main.disk w)
   ∧ (∀ msg w, Main.disk (Main._on_error msg w).2 = Main.disk w)
   ∧ (∀ result w,
        ¬ lists_a_model result →
        Main.disk (Main._on_success now result w).2 = Main.disk w)
   ∧ (∀ result w,
        lists_a_model result →
        main_saved now w (Main._on_success now result w).2)
   ∧ (∀ meanwhile w result,
        Main.validate_url (strip (Main.url_entry (Main.home_page w)))
          = Return true →
        Main.fetch_models requests_get
          (Main.__init__ (strip (Main.url_entry (Main.home_page w)))
             (Some (strip (Main.key_entry (Main.home_page w)))))
          = Return result →
        lists_a_model result →
        main_saved now (meanwhile (Main._fetch w).2).2
          (Main.fetch_meanwhile requests_get now meanwhile w).2)
   ∧ (∀ w,
        saves_when_models_listed
          (Main.validate_url (strip (Main.url_entry (Main.home_page w))))
          (Main.fetch_models requests_get
             (Main.__init__ (strip (Main.url_entry (Main.home_page w)))
                (Some (strip (Main.key_entry (Main.home_page w))))))
          (Main.disk (Main.fetch_invocation requests_get now w).2
           = Main.disk w)
          (main_saved now w (Main.fetch_invocation requests_get now w).2)))
  ∧ ((∀ a, App.disk (App.fetch_models_async a).2 = App.disk a)
     ∧ (∀ msg a, App.disk (App._on_fetch_error msg a).2 = App.disk a)
     ∧ (∀ result a,
          ¬ lists_a_model result →
          App.disk (App._on_fetch_success now result a).2 = App.disk a)
     ∧ (∀ result a,
          lists_a_model result →
          app_saved now a (App._on_fetch_success now result a).2)
     ∧ (∀ prompt meanwhile a result,
          App.validate_url (App.get_url a) = Return true →
          App.fetch_models requests_get
            (App.__init__ (App.get_url a) (Some (App.get_api_key a)))
            = Return result →
          lists_a_model result →
          app_saved now (meanwhile (App.fetch_models_async a).2).2
            (App.fetch_meanwhile requests_get now prompt meanwhile a).2)
     ∧ (∀ prompt a,
          saves_when_models_listed
            (App.validate_url (App.get_url a))
            (App.fetch_models requests_get
               (App.__init__ (App.get_url a) (Some (App.get_api_key a))))
            (App.disk (App.fetch_invocation requests_get now prompt a).2
             = App.disk a)
            (app_saved now a
               (App.fetch_invocation requests_get now prompt a).2))).
Proof.
  split; split_and!.
  - intros w. apply main_click_disk.
  - intros msg w. apply main_on_error_disk.
  - intros result w Hno. apply main_on_success_no_save.
    by apply not_lists_a_model.
  - intros result w. apply main_on_success_saved.
  - intros meanwhile w result Hv Hf Hl.
    rewrite (main_meanwhile_saved requests_get now meanwhile w result Hv Hf).
    by apply main_on_success_saved.
  - intros w. apply main_fetch_disk.
  - intros a. apply app_click_disk.
  - intros msg a. apply app_on_error_disk.
  - intros result a Hno. apply app_on_fetch_success_no_save.
    by apply not_lists_a_model.
  - intros result a. apply app_on_success_saved.
  - intros prompt meanwhile a result Hv Hf Hl.
    rewrite (app_meanwhile_saved requests_get now prompt meanwhile a result
               Hv Hf).
    by apply app_on_success_saved.
  - intros prompt a. apply app_fetch_disk.
Qed.

(** C7 as stated fails twice. On an empty result: the URL is valid, the
    request succeeds with [{"data": []}], and nothing is saved. On
    inputs that change while the thread runs: the URL that was
    validated is replaced in the entry by text that is no URL, the
    request succeeds, and what is saved under the profile is that
    text. *)
Lemma save_follows_neither_success_nor_validation :
  (Main.validate_url (H := ascii_host)
     (strip (Main.url_entry (Main.home_page (fresh_window example_base))))
   = Return true
   ∧ Main.fetch_models (H := ascii_host) (replies (Return empty_list_body))
       (Main.__init__ example_base (Some []))
     = Return empty_list_body
   ∧ Main.disk
       (Main.fetch_invocation (H := ascii_host)
          (replies (Return empty_list_body)) noon
          (fresh_window example_base)).2
     = ∅
   ∧ ¬ main_saved noon (fresh_window example_base)
         (Main.fetch_invocation (H := ascii_host)
            (replies (Return empty_list_body)) noon
            (fresh_window example_base)).2)
  ∧ (Main.fetch_models (H := ascii_host) (replies (Return two_models_body))
       (Main.__init__ example_base (Some []))
     = Return two_models_body
     ∧ Main.validate_url (H := ascii_host) (py "not a url") = Return false
     ∧ Main.load (py "default")
         (Main.disk
            (Main.fetch_meanwhile (H := ascii_host)
               (replies (Return two_models_body)) noon
               (type_url (py "not a url"))
               (fresh_window example_base)).2)
       = Return (mk_config (VStr (py "not a url")) (VStr []))).
Proof.
  split; split_and!; try (vm_compute; reflexivity).
  unfold main_saved.
  replace (Main.disk (Main.fetch_invocation _ _ _).2) with (∅ : dir)
    by (vm_compute; reflexivity).
  replace (Main.save _ _ _ _ _).2
    with (Main.written (py "default") example_base (Some []) noon ∅)
    by (vm_compute; reflexivity).
  unfold Main.written. intros Heq. symmetry in Heq.
  exact (insert_non_empty _ _ _ Heq).
Qed.

(** ** The profile that is always there *)

(** C3, at the input where the program departs from it. On an empty
    directory the window lists the profiles and, finding none, writes a
    profile named with the Chinese word for default; [list_profiles] then
    returns that name and not [default], for which no record exists. *)
Theorem fallback_profile_is_not_default (now : str) :
  Main.list_profiles (Main.disk (Main.open_window now ∅).2) = [py "默认"]
  ∧ (py "default" ∉ Main.list_profiles (Main.disk (Main.open_window now ∅).2))
  ∧ Main.profile_cards (Main.profiles_page (Main.open_window now ∅).2)
    = [py "默认"]
  ∧ Main.load (py "默认") (Main.disk (Main.open_window now ∅).2)
    = Return (mk_config (VStr []) (VStr []))
  ∧ Main.load (py "default") (Main.disk (Main.open_window now ∅).2)
    = Return (mk_config VNone VNone).
Proof.
  split_and!; try (vm_compute; reflexivity).
  vm_compute. intros Hin. apply list_elem_of_In in Hin.
  destruct Hin as [Hin|[]]. discriminate.
Qed.

(** The part of C3 that holds: the profiles page turns down the deletion
    of [default] and the directory stays as it is. *)
Lemma delete_default_rejected (now : str) (w : Main.MainWindow) :
  Main.disk (Main._delete_profile now (py "default") w).2 = Main.disk w.
Proof. reflexivity. Qed.

(** [ConfigManager.delete] itself has no such guard. *)
Lemma store_delete_default_unguarded (d : dir) (f : file) :
  d !! Main._get_path (py "default") = Some f →
  Main.delete (py "default") d !! Main._get_path (py "default") = None.
Proof. intros _. apply lookup_delete_eq. Qed.

(** ** The target of the request *)

Lemma rstrip_by_app (p : N → bool) (s : str) (n : nat) (c : N) :
  p c = true → rstrip_by p (s ++ replicate n c) = rstrip_by p s.
Proof.
  intros Hc. unfold rstrip_by. f_equal.
  induction n as [|n IH]; [by rewrite app_nil_r|].
  rewrite replicate_S_end, app_assoc, rev_app_distr.
  cbn [rev app lstrip_by]. by rewrite Hc.
Qed.

(** What [rstrip] leaves does not end in a character it strips. *)
Lemma rstrip_by_last (p : N → bool) (s : str) (c : N) :
  last (rstrip_by p s) = Some c → p c = false.
Proof.
  unfold rstrip_by.
  induction (rev s) as [|x l IH]; [done|]. cbn [lstrip_by].
  destruct (p x) eqn:Hx; [done|]. cbn [rev]. rewrite last_snoc.
  by intros [= <-].
Qed.

Lemma rstrip_slash_app (s : str) (n : nat) :
  rstrip (py "/") (s ++ replicate n (chr "/")) = rstrip (py "/") s.
Proof. by apply rstrip_by_app. Qed.

Lemma rstrip_slash_last (s : str) :
  last (rstrip (py "/") s) ≠ Some (chr "/").
Proof. intros Hl. by apply rstrip_by_last in Hl. Qed.

(** ** Strings: searching and splitting *)

Lemma char_in_app (c : N) (a b : str) :
  char_in c (a ++ b) = char_in c a || char_in c b.
Proof. apply existsb_app. Qed.

Lemma char_in_false (c : N) (s : str) (q : N → bool) :
  forallb q s = true → q c = false → char_in c s = false.
Proof.
  intros Hs Hc. unfold char_in. induction s as [|x s IH]; [done|].
  cbn [forallb existsb] in *.
  apply andb_true_iff in Hs as [Hx Hs]. rewrite (IH Hs), orb_false_r.
  apply N.eqb_neq. intros ->. congruence.
Qed.

Lemma find_none (c : N) (s : str) : char_in c s = false → find c s = None.
Proof.
  unfold char_in. induction s as [|x s IH]; [done|]. cbn [existsb find].
  intros [Hx Hs]%orb_false_iff. rewrite N.eqb_sym, Hx.
  by rewrite (IH Hs).
Qed.

Lemma find_app (c : N) (a r : str) :
  char_in c a = false → find c (a ++ c :: r) = Some (length a).
Proof.
  unfold char_in. induction a as [|x a IH]; cbn [existsb find app length].
  - by rewrite N.eqb_refl.
  - intros [Hx Ha]%orb_false_iff. rewrite N.eqb_sym, Hx.
    by rewrite (IH Ha).
Qed.

Lemma remove_char_id (c : N) (s : str) :
  char_in c s = false → remove_char c s = s.
Proof.
  unfold remove_char, char_in. induction s as [|x s IH]; [done|].
  cbn [existsb]. intros [Hx Hs]%orb_false_iff.
  apply N.eqb_neq in Hx. rewrite filter_cons_True by done.
  by rewrite (IH Hs).
Qed.

Lemma split_none (c : N) (s : str) : char_in c s = false → split c s = [s].
Proof.
  unfold char_in. induction s as [|x s IH]; [done|]. cbn [existsb split].
  intros [Hx Hs]%orb_false_iff. rewrite N.eqb_sym, Hx.
  by rewrite (IH Hs).
Qed.

Lemma split_app (c : N) (a r : str) :
  char_in c a = false → split c (a ++ c :: r) = a :: split c r.
Proof.
  unfold char_in. induction a as [|x a IH]; cbn [existsb split app].
  - by rewrite N.eqb_refl.
  - intros [Hx Ha]%orb_false_iff. rewrite N.eqb_sym, Hx.
    by rewrite (IH Ha).
Qed.
(** ** Parsing an absolute URL *)

Lemma scheme_char_facts (c : N) :
  char_in c UrlLib.scheme_chars = true →
  (32 <? c)%N = true ∧ c ≠ chr ":".
Proof.
  unfold char_in. intros Hc. apply existsb_exists in Hc as (x & Hx & Hcx).
  apply N.eqb_eq in Hcx as ->.
  vm_compute in Hx.
  repeat (destruct Hx as [<-|Hx]; [split; [vm_compute; reflexivity|discriminate]|]).
  done.
Qed.

Lemma scheme_like_facts (sch : str) :
  scheme_like sch = true →
  ∃ c0 r, sch = c0 :: r
    ∧ (isascii c0 && isalpha_ascii c0 = true)
    ∧ forallb (λ c, char_in c UrlLib.scheme_chars) sch = true
    ∧ lower sch = sch
    ∧ char_in (chr ":") sch = false
    ∧ forallb (λ c, (32 <? c)%N) sch = true.
Proof.
  unfold scheme_like. intros [[H0 Hall]%andb_true_iff Hlow]%andb_true_iff.
  destruct sch as [|c0 r]; [done|]. exists c0, r.
  apply bool_decide_eq_true in Hlow.
  split; [reflexivity|]. split; [exact H0|]. split; [exact Hall|].
  split; [exact Hlow|]. split.
  - apply (char_in_false _ _ (λ c, char_in c UrlLib.scheme_chars) Hall).
    vm_compute. reflexivity.
  - clear -Hall. induction (c0 :: r) as [|x l IH]; [reflexivity|].
    cbn [forallb] in *. apply andb_true_iff in Hall as [Hx Hl].
    rewrite (IH Hl), andb_true_r. exact (proj1 (scheme_char_facts _ Hx)).
Qed.

Lemma above_space_not (s : str) (c : N) :
  forallb (λ c, (32 <? c)%N) s = true → (c <=? 32)%N = true →
  char_in c s = false.
Proof.
  intros Hs Hc. apply (char_in_false _ _ _ Hs).
  apply N.leb_le in Hc. apply N.ltb_ge. done.
Qed.

Lemma host_char_facts (s : str) :
  forallb host_char s = true →
  forallb (λ c, (32 <? c)%N) s = true ∧ forallb isascii s = true
  ∧ char_in (chr "/") s = false ∧ char_in (chr "?") s = false
  ∧ char_in (chr "#") s = false ∧ char_in (chr "[") s = false
  ∧ char_in (chr "]") s = false.
Proof.
  intros Hs. split_and!;
    try (apply (char_in_false _ _ _ Hs); vm_compute; reflexivity).
  - induction s as [|x l IH]; [done|]. cbn [forallb] in *.
    apply andb_true_iff in Hs as [Hx Hl]. rewrite (IH Hl), andb_true_r.
    unfold host_char in Hx. by destruct (32 <? x)%N.
  - induction s as [|x l IH]; [done|]. cbn [forallb] in *.
    apply andb_true_iff in Hs as [Hx Hl]. rewrite (IH Hl), andb_true_r.
    unfold host_char in Hx. unfold isascii.
    apply andb_true_iff in Hx as [[_ Hx]%andb_true_iff _].
    apply N.ltb_lt in Hx. apply N.ltb_lt. lia.
Qed.

Lemma lstrip_by_id (p : N → bool) (c : N) (s : str) :
  p c = false → lstrip_by p (c :: s) = c :: s.
Proof. intros Hc. cbn [lstrip_by]. by rewrite Hc. Qed.

Lemma remove_unsafe_id (s : str) :
  forallb (λ c, (32 <? c)%N) s = true → UrlLib.remove_unsafe s = s.
Proof.
  intros Hs. unfold UrlLib.remove_unsafe.
  rewrite (remove_char_id 9 s), (remove_char_id 13 s), (remove_char_id 10 s);
    try done; by apply above_space_not.
Qed.

Lemma find_from_app (c : N) (a b : str) :
  find_from c (length a) (a ++ b) = (λ i, length a + i) <$> find c b.
Proof. unfold find_from. by rewrite drop_app_length. Qed.

Lemma drop_S_app {A} (a : list A) (c : A) (b : list A) :
  drop (S (length a)) (a ++ c :: b) = b.
Proof. induction a as [|x a IH]; [done|]. apply IH. Qed.

Lemma splitnetloc_host (host p : str) :
  char_in (chr "/") host = false →
  char_in (chr "?") host = false →
  char_in (chr "#") host = false →
  (p = [] ∨ ∃ p', p = chr "/" :: p') →
  char_in (chr "?") p = false →
  char_in (chr "#") p = false →
  UrlLib._splitnetloc ([chr "/"; chr "/"] ++ host ++ p) 2 = (host, p).
Proof.
  intros Hh1 Hh2 Hh3 Hp Hp2 Hp3. unfold UrlLib._splitnetloc.
  change (py "/?#") with [chr "/"; chr "?"; chr "#"]. cbn [fold_left].
  rewrite !(find_from_app _ [chr "/"; chr "/"] (host ++ p)).
  rewrite (find_none (chr "?")), (find_none (chr "#"))
    by (by rewrite char_in_app, ?Hh2, ?Hh3, ?Hp2, ?Hp3).
  cbn [fmap option_fmap option_map].
  destruct Hp as [-> | [p' ->]].
  - rewrite app_nil_r, (find_none _ _ Hh1). cbn [fmap option_fmap option_map].
    rewrite take_ge by done. by rewrite drop_all.
  - rewrite (find_app _ _ _ Hh1). cbn [fmap option_fmap option_map].
    rewrite Nat.min_r by (rewrite !length_app; cbn [length]; lia).
    rewrite <- length_app, (app_assoc _ host).
    rewrite take_app_length, drop_app_length. reflexivity.
Qed.

Section Absolute.
Context `{Host}.

Lemma urlsplit_absolute (sch host p dflt : str) :
  scheme_like sch = true →
  forallb host_char host = true →
  (p = [] ∨ ∃ p', p = chr "/" :: p') →
  forallb (λ c, (32 <? c)%N) p = true →
  char_in (chr "?") p = false →
  char_in (chr "#") p = false →
  UrlLib.urlsplit (sch ++ py "://" ++ host ++ p) dflt
  = Return (UrlLib.mk_parse sch host p [] [] []).
Proof.
  intros (c0 & r & -> & Hc0 & Hchars & Hlow & Hcolon & Hsp)%scheme_like_facts
    (Hhsp & Hhascii & Hh1 & Hh2 & Hh3 & Hh4 & Hh5)%host_char_facts
    Hp Hpsp Hp2 Hp3.
  change (py "://" ++ host ++ p)
    with (chr ":" :: [chr "/"; chr "/"] ++ host ++ p).
  assert (forallb (λ c, (32 <? c)%N)
            ((c0 :: r) ++ chr ":" :: [chr "/"; chr "/"] ++ host ++ p) = true)
    as Hall.
  { rewrite forallb_app, Hsp. cbn [forallb andb app].
    rewrite forallb_app, Hhsp, Hpsp. reflexivity. }
  unfold UrlLib.urlsplit.
  assert (c0_ok : UrlLib.c0_control_or_space c0 = false).
  { cbn [forallb] in Hsp. apply andb_true_iff in Hsp as [Hsp _].
    unfold UrlLib.c0_control_or_space. apply N.ltb_lt in Hsp.
    apply N.leb_gt. done. }
  set (rest := [chr "/"; chr "/"] ++ host ++ p) in *.
  rewrite (lstrip_by_id _ c0 (r ++ chr ":" :: rest) c0_ok
           : lstrip_by _ ((c0 :: r) ++ chr ":" :: rest) = _).
  change (c0 :: (r ++ chr ":" :: rest)) with ((c0 :: r) ++ chr ":" :: rest).
  rewrite (remove_unsafe_id _ Hall).
  rewrite (find_app _ _ _ Hcolon).
  cbn [length]. change (S (length r)) with (length (c0 :: r)).
  change ((c0 :: r) ++ chr ":" :: rest) with (c0 :: (r ++ chr ":" :: rest))
    at 1.
  cbv iota beta.
  rewrite take_app_length, Hc0, Hchars, Hlow. cbn [andb].
  rewrite drop_S_app. subst rest.
  change (take 2 ([chr "/"; chr "/"] ++ host ++ p)) with [chr "/"; chr "/"].
  change (str_eqb [chr "/"; chr "/"] (py "//")) with true. cbv iota.
  rewrite (splitnetloc_host _ _ Hh1 Hh2 Hh3 Hp Hp2 Hp3).
  cbv beta iota zeta. rewrite Hh4, Hh5.
  cbn [andb orb negb mbind outcome_bind]. rewrite Hp3, Hp2.
  unfold UrlLib._checknetloc. rewrite Hhascii, orb_true_r.
  reflexivity.
Qed.

Lemma urlparse_absolute (sch host p dflt : str) :
  scheme_like sch = true →
  forallb host_char host = true →
  (p = [] ∨ ∃ p', p = chr "/" :: p') →
  forallb (λ c, (32 <? c)%N) p = true →
  char_in (chr "?") p = false →
  char_in (chr "#") p = false →
  char_in (chr ";") p = false →
  UrlLib.urlparse (sch ++ py "://" ++ host ++ p) dflt
  = Return (UrlLib.mk_parse sch host p [] [] []).
Proof.
  intros Hsch Hhost Hp Hpsp Hp2 Hp3 Hp4. unfold UrlLib.urlparse.
  rewrite urlsplit_absolute by done. cbn [mbind outcome_bind UrlLib.path].
  by rewrite Hp4, andb_false_r.
Qed.
End Absolute.

(** ** Joining [models] to a base URL *)

Lemma segment_char_facts (s : str) :
  forallb segment_char s = true →
  forallb (λ c, (32 <? c)%N) s = true
  ∧ char_in (chr "/") s = false ∧ char_in (chr "?") s = false
  ∧ char_in (chr "#") s = false ∧ char_in (chr ";") s = false.
Proof.
  intros Hs. split_and!;
    try (apply (char_in_false _ _ _ Hs); vm_compute; reflexivity).
  induction s as [|x l IH]; [done|]. cbn [forallb] in *.
  apply andb_true_iff in Hs as [Hx Hl]. rewrite (IH Hl), andb_true_r.
  unfold segment_char in Hx. by destruct (32 <? x)%N.
Qed.
Lemma path_of_slash (segs : list str) :
  path_of segs ++ py "/" = py "/" ++ slash_after segs.
Proof.
  unfold path_of, slash_after. induction segs as [|s segs IH]; [done|].
  cbn [fmap list_fmap concat]. rewrite <- !app_assoc. f_equal. f_equal.
  exact IH.
Qed.

Lemma plain_segment_facts (s : str) :
  plain_segment s = true →
  truthy s = true ∧ forallb segment_char s = true
  ∧ str_eqb s (py "..") = false ∧ str_eqb s (py ".") = false.
Proof.
  unfold plain_segment, str_in. cbn [existsb].
  intros [[Ht Hc]%andb_true_iff Hn]%andb_true_iff.
  apply negb_true_iff in Hn.
  apply orb_false_iff in Hn as [H1 [H2 _]%orb_false_iff]. done.
Qed.

Lemma slash_after_facts (segs : list str) :
  forallb plain_segment segs = true →
  forallb (λ c, (32 <? c)%N) (slash_after segs) = true
  ∧ char_in (chr "?") (slash_after segs) = false
  ∧ char_in (chr "#") (slash_after segs) = false
  ∧ char_in (chr ";") (slash_after segs) = false
  ∧ split (chr "/") (slash_after segs) = segs ++ [[]]
  ∧ List.filter truthy segs = segs
  ∧ (∀ acc, fold_left UrlLib.resolve_step segs acc = acc ++ segs).
Proof.
  unfold slash_after. change (py "/") with [chr "/"].
  induction segs as [|s segs IH].
  - intros _. split_and!; try done. intros acc. by rewrite app_nil_r.
  - cbn [forallb]. intros [Hs Hsegs]%andb_true_iff.
    destruct (IH Hsegs) as (I1 & I2 & I3 & I4 & I5 & I6 & I7).
    destruct (plain_segment_facts _ Hs) as (Ht & Hc & Hdd & Hd).
    destruct (segment_char_facts _ Hc) as (S1 & S2 & S3 & S4 & S5).
    cbn [fmap list_fmap concat]. rewrite <- !app_assoc.
    cbn [app]. split_and!.
    + rewrite forallb_app, S1. cbn [forallb andb]. exact I1.
    + rewrite char_in_app, S3. cbn [char_in existsb orb]. exact I2.
    + rewrite char_in_app, S4. cbn [char_in existsb orb]. exact I3.
    + rewrite char_in_app, S5. cbn [char_in existsb orb]. exact I4.
    + rewrite (split_app _ _ _ S2). by rewrite I5.
    + cbn [List.filter]. by rewrite Ht, I6.
    + intros acc. cbn [fold_left]. unfold UrlLib.resolve_step at 2.
      rewrite Hdd, Hd, I7. by rewrite <- app_assoc.
Qed.

Lemma truthy_app (a b : str) : truthy a = true → truthy (a ++ b) = true.
Proof. by destruct a. Qed.

Lemma join_cons (sep p : str) (ps : list str) :
  ps ≠ [] → join sep (p :: ps) = p ++ sep ++ join sep ps.
Proof. by destruct ps. Qed.

Lemma join_slash_after (segs : list str) (m : str) :
  join [chr "/"] (segs ++ [m]) = slash_after segs ++ m.
Proof.
  unfold slash_after. change (py "/") with [chr "/"].
  induction segs as [|s segs IH]; [done|].
  cbn [fmap list_fmap concat app].
  rewrite join_cons by (by destruct segs).
  rewrite IH. by rewrite <- !app_assoc.
Qed.

Lemma path_of_slash_models (segs : list str) :
  path_of segs ++ py "/models" = chr "/" :: slash_after segs ++ py "models".
Proof.
  change (py "/models") with (py "/" ++ py "models").
  by rewrite app_assoc, path_of_slash.
Qed.

Section Join.
Context `{Host}.

Lemma urlparse_models (sch : str) :
  sch ∈ [py "http"; py "https"] →
  UrlLib.urlparse (py "models") sch
  = Return (UrlLib.mk_parse sch [] (py "models") [] [] []).
Proof.
  intros Hsch. apply list_elem_of_In in Hsch.
  destruct Hsch as [<-|[<-|[]]]; vm_compute; reflexivity.
Qed.

Lemma scheme_facts (sch : str) :
  sch ∈ [py "http"; py "https"] →
  scheme_like sch = true ∧ truthy sch = true
  ∧ str_in sch UrlLib.uses_relative = true
  ∧ str_in sch UrlLib.uses_netloc = true.
Proof.
  intros Hsch. apply list_elem_of_In in Hsch.
  destruct Hsch as [<-|[<-|[]]]; vm_compute; done.
Qed.

Lemma urljoin_models (sch host : str) (segs : list str) :
  well_formed_base sch host segs →
  UrlLib.urljoin (base_of sch host segs ++ py "/") (py "models")
  = Return (base_of sch host segs ++ py "/models").
Proof.
  intros (Hsch & Hhost & Hhc & Hsegs).
  destruct (scheme_facts _ Hsch) as (Hlike & Hst & Hrel & Hnet).
  destruct (slash_after_facts _ Hsegs) as (S1 & S2 & S3 & S4 & S5 & S6 & S7).
  unfold base_of. rewrite <- !app_assoc, path_of_slash.
  change (py "/" ++ slash_after segs) with (chr "/" :: slash_after segs).
  unfold UrlLib.urljoin.
  rewrite (truthy_app _ _ Hst). change (truthy (py "models")) with true.
  cbn [negb].
  rewrite urlparse_absolute; try done; try by right; eexists.
  cbn [mbind outcome_bind UrlLib.scheme]. rewrite (urlparse_models _ Hsch).
    cbn [mbind outcome_bind UrlLib.scheme UrlLib.netloc UrlLib.path
         UrlLib.params UrlLib.query UrlLib.fragment].
    unfold str_eqb at 1. rewrite bool_decide_eq_true_2 by done.
    rewrite Hrel, Hnet. cbn [negb orb andb truthy].
    change (truthy (py "models")) with true. cbn [negb andb].
    assert (split (chr "/") (chr "/" :: slash_after segs)
            = [] :: (segs ++ [[]])) as ->.
    { cbn [split]. rewrite N.eqb_refl. by rewrite S5. }
    change (split (chr "/") (py "models")) with [py "models"].
    change (str_eqb (take 1 (py "models")) (py "/")) with false.
    cbv iota.
    assert (List.last ([] :: segs ++ [[]]) [] = []) as ->.
    { change ([] :: segs ++ [[]]) with (([] :: segs) ++ [[]]).
      apply last_last. }
    cbn [truthy]. cbv iota.
    assert (UrlLib.drop_empty_middle (([] :: segs ++ [[]]) ++ [py "models"])
            = [] :: (segs ++ [py "models"])) as ->.
    { unfold UrlLib.drop_empty_middle. cbn [app].
      destruct ((segs ++ [[]]) ++ [py "models"]) as [|x l] eqn:E.
      { by destruct segs. }
      rewrite <- E. rewrite removelast_last, last_last.
      rewrite List.filter_app, S6. cbn [List.filter truthy]. by rewrite app_nil_r. }
    assert (List.last ([] :: segs ++ [py "models"]) [] = py "models") as ->.
    { change ([] :: segs ++ [py "models"])
        with (([] :: segs) ++ [py "models"]).
      apply last_last. }
    change (str_in (py "models") [py "."; py ".."]) with false. cbv iota.
    assert (UrlLib.resolve ([] :: segs ++ [py "models"])
            = [] :: (segs ++ [py "models"])) as ->.
    { unfold UrlLib.resolve. cbn [fold_left].
      change (UrlLib.resolve_step [] []) with [@nil N].
      rewrite fold_left_app, S7. cbn [fold_left].
      change (UrlLib.resolve_step ([[]] ++ segs) (py "models"))
        with (([[]] ++ segs) ++ [py "models"]).
      by rewrite <- app_assoc. }
    change (py "/") with [chr "/"].
    rewrite join_cons by (by destruct segs).
    rewrite join_slash_after. cbn [app truthy].
    unfold UrlLib.urlunparse, UrlLib.urlunsplit.
    cbn [UrlLib.scheme UrlLib.netloc UrlLib.path UrlLib.params UrlLib.query
         UrlLib.fragment truthy].
    rewrite Hhost, Hst. cbn [orb andb negb take].
    change (str_eqb [chr "/"] [chr "/"]) with true. cbn [negb].
    f_equal. rewrite path_of_slash_models. reflexivity.
Qed.
End Join.

Lemma rstrip_by_keeps (p : N → bool) (s : str) (c : N) :
  last s = Some c → p c = false → rstrip_by p s = s.
Proof.
  intros [s' ->]%last_Some Hc. unfold rstrip_by. rewrite rev_app_distr.
  cbn [rev app lstrip_by]. rewrite Hc.
  change (c :: rev s') with (rev [c] ++ rev s').
  by rewrite <- rev_app_distr, rev_involutive.
Qed.

Lemma last_forallb (q : N → bool) (s : str) :
  truthy s = true → forallb q s = true →
  ∃ c, last s = Some c ∧ q c = true.
Proof.
  destruct s as [|x s] using rev_ind; [done|]. intros _ Hq.
  rewrite forallb_app in Hq. apply andb_true_iff in Hq as [_ Hq].
  cbn [forallb] in Hq. rewrite andb_true_r in Hq.
  exists x. by rewrite last_snoc.
Qed.

Lemma path_of_snoc (segs : list str) (s : str) :
  path_of (segs ++ [s]) = path_of segs ++ py "/" ++ s.
Proof.
  unfold path_of. rewrite fmap_app, concat_app. cbn [fmap list_fmap concat].
  by rewrite app_nil_r.
Qed.

Lemma base_of_snoc (sch host : str) (segs : list str) (s : str) :
  base_of sch host (segs ++ [s]) = base_of sch host segs ++ py "/" ++ s.
Proof. unfold base_of. by rewrite path_of_snoc, <- !app_assoc. Qed.

Lemma base_of_last (sch host : str) (segs : list str) :
  well_formed_base sch host segs →
  ∃ c, last (base_of sch host segs) = Some c ∧ c ≠ chr "/".
Proof.
  intros (Hsch & Hhost & Hhc & Hsegs).
  destruct segs as [|s segs _] using rev_ind.
  - destruct (last_forallb _ _ Hhost Hhc) as (c & Hl & Hc). exists c.
    unfold base_of, path_of. cbn [fmap list_fmap concat].
    rewrite app_nil_r, !last_app, Hl. split; [done|].
    intros ->. discriminate Hc.
  - rewrite forallb_app in Hsegs. apply andb_true_iff in Hsegs as [_ Hs].
    cbn [forallb] in Hs. rewrite andb_true_r in Hs.
    destruct (plain_segment_facts _ Hs) as (Ht & Hc & _).
    destruct (last_forallb _ _ Ht Hc) as (c & Hl & Hcc). exists c.
    rewrite base_of_snoc, !last_app, Hl. split; [done|].
    intros ->. discriminate Hcc.
Qed.

Lemma rstrip_base_of (sch host : str) (segs : list str) (n : nat) :
  well_formed_base sch host segs →
  rstrip (py "/") (base_of sch host segs ++ replicate n (chr "/"))
  = base_of sch host segs.
Proof.
  intros Hwf. rewrite rstrip_slash_app.
  destruct (base_of_last _ _ _ Hwf) as (c & Hl & Hc).
  apply (rstrip_by_keeps _ _ c Hl).
  change (char_in c (py "/")) with (char_in c [chr "/"]).
  cbn [char_in existsb]. rewrite orb_false_r. by apply N.eqb_neq.
Qed.

Section Target.
Context `{Host}.

Lemma endpoint_well_formed (sch host : str) (segs : list str) (n : nat) :
  well_formed_base sch host segs →
  UrlLib.urljoin
    (rstrip (py "/") (base_of sch host segs ++ replicate n (chr "/"))
     ++ py "/") (py "models")
  = Return (base_of sch host (segs ++ [py "models"])).
Proof.
  intros Hwf. rewrite (rstrip_base_of _ _ _ _ Hwf), (urljoin_models _ _ _ Hwf).
  rewrite base_of_snoc. unfold base_of. rewrite <- !app_assoc.
  reflexivity.
Qed.

End Target.

(** ** Well-formed URLs are valid *)

Lemma printable_not_space (c : N) :
  (32 <? c)%N = true → (c <? 127)%N = true → isspace c = false.
Proof.
  intros H1%N.ltb_lt H2%N.ltb_lt. unfold isspace.
  repeat match goal with
  | |- context [(?a <=? ?b)%N] =>
    destruct (N.leb_spec a b); try lia
  | |- context [(?a =? ?b)%N] =>
    destruct (N.eqb_spec a b); try lia
  end; reflexivity.
Qed.

Lemma path_of_facts (segs : list str) :
  forallb plain_segment segs = true →
  (path_of segs = [] ∨ ∃ p', path_of segs = chr "/" :: p')
  ∧ forallb (λ c, (32 <? c)%N) (path_of segs) = true
  ∧ char_in (chr "?") (path_of segs) = false
  ∧ char_in (chr "#") (path_of segs) = false
  ∧ char_in (chr ";") (path_of segs) = false.
Proof.
  unfold path_of. change (py "/") with [chr "/"].
  induction segs as [|s segs IH].
  - intros _. split_and!; try done. by left.
  - cbn [forallb]. intros [Hs Hsegs]%andb_true_iff.
    destruct (IH Hsegs) as (_ & I1 & I2 & I3 & I4).
    destruct (plain_segment_facts _ Hs) as (Ht & Hc & _).
    destruct (segment_char_facts _ Hc) as (S1 & S2 & S3 & S4 & S5).
    cbn [fmap list_fmap concat]. rewrite <- app_assoc. split_and!.
    + right. by eexists.
    + by rewrite !forallb_app, S1, I1.
    + by rewrite !char_in_app, S3, I2.
    + by rewrite !char_in_app, S4, I3.
    + by rewrite !char_in_app, S5, I4.
Qed.

Lemma lstrip_by_keeps (p : N → bool) (s : str) :
  match s with c :: _ => p c = false | [] => True end →
  lstrip_by p s = s.
Proof. destruct s as [|c s]; [done|]. intros Hc. cbn. by rewrite Hc. Qed.

Lemma strip_base_of (sch host : str) (segs : list str) :
  well_formed_base sch host segs →
  strip (base_of sch host segs) = base_of sch host segs.
Proof.
  intros Hwf. unfold strip.
  rewrite (lstrip_by_keeps isspace (base_of sch host segs)).
  - destruct Hwf as (Hsch & Hhost & Hhc & Hsegs).
    destruct segs as [|s segs _] using rev_ind.
    + destruct (last_forallb _ _ Hhost Hhc) as (c & Hl & Hc).
      apply (rstrip_by_keeps _ _ c).
      * unfold base_of, path_of. cbn [fmap list_fmap concat].
        by rewrite app_nil_r, !last_app, Hl.
      * unfold host_char in Hc.
        apply andb_true_iff in Hc as [[H1 H2]%andb_true_iff _].
        by apply printable_not_space.
    + rewrite forallb_app in Hsegs. apply andb_true_iff in Hsegs as [_ Hs].
      cbn [forallb] in Hs. rewrite andb_true_r in Hs.
      destruct (plain_segment_facts _ Hs) as (Ht & Hc & _).
      destruct (last_forallb _ _ Ht Hc) as (c & Hl & Hcc).
      apply (rstrip_by_keeps _ _ c).
      * by rewrite base_of_snoc, !last_app, Hl.
      * unfold segment_char in Hcc.
        apply andb_true_iff in Hcc as [[H1 H2]%andb_true_iff _].
        by apply printable_not_space.
  - destruct Hwf as (Hsch & _). unfold base_of.
    apply list_elem_of_In in Hsch.
    destruct Hsch as [<-|[<-|[]]]; vm_compute; reflexivity.
Qed.

Section WellFormedValid.
Context `{Host}.

Lemma urlparse_base_of (sch host : str) (segs : list str) :
  well_formed_base sch host segs →
  UrlLib.urlparse (base_of sch host segs) []
  = Return (UrlLib.mk_parse sch host (path_of segs) [] [] []).
Proof.
  intros (Hsch & Hhost & Hhc & Hsegs).
  destruct (scheme_facts _ Hsch) as (Hlike & _).
  destruct (path_of_facts _ Hsegs) as (P0 & P1 & P2 & P3 & P4).
  unfold base_of. by apply urlparse_absolute.
Qed.

Lemma valid_url_well_formed (sch host : str) (segs : list str) :
  well_formed_base sch host segs → valid_url (base_of sch host segs).
Proof.
  intros Hwf. unfold valid_url. rewrite (strip_base_of _ _ _ Hwf).
  eexists. split; [by apply urlparse_base_of|].
  destruct Hwf as (Hsch & Hhost & _). cbn [UrlLib.scheme UrlLib.netloc].
  split; [|by destruct host].
  apply list_elem_of_In in Hsch. destruct Hsch as [<-|[<-|[]]]; auto.
Qed.

End WellFormedValid.

(** Where the target keeps the path of the base URL. The target of the
    request is [urljoin] of the base URL, with its trailing slashes
    replaced by exactly one, and [models]. For
    [https://api.example.com/v1] it is [https://api.example.com/v1/models],
    and the same with a slash after [v1]. For every base URL made of the
    scheme [http] or [https], a host and path segments, with any number of
    slashes after it, the target has the same scheme and host and the same
    segments followed by [models]: none is lost and none is doubled.
    Both variants. *)
Theorem endpoint_keeps_base_path `{Host} :
  (∀ base_url api_key,
     App.endpoint_of (App.mk_client base_url api_key)
     = UrlLib.urljoin (rstrip (py "/") base_url ++ py "/") (py "models")
     ∧ Main.endpoint_of (Main.mk_client base_url api_key)
       = UrlLib.urljoin (rstrip (py "/") base_url ++ py "/") (py "models"))
  ∧ (∀ base_url, last (rstrip (py "/") base_url) ≠ Some (chr "/"))
  ∧ (∀ base_url n,
       rstrip (py "/") (base_url ++ replicate n (chr "/"))
       = rstrip (py "/") base_url)
  ∧ (UrlLib.urljoin
       (rstrip (py "/") (py "https://api.example.com/v1") ++ py "/")
       (py "models")
     = Return (py "https://api.example.com/v1/models"))
  ∧ (UrlLib.urljoin
       (rstrip (py "/") (py "https://api.example.com/v1/") ++ py "/")
       (py "models")
     = Return (py "https://api.example.com/v1/models"))
  ∧ (∀ scheme host segments n,
       well_formed_base scheme host segments →
       UrlLib.urljoin
         (rstrip (py "/")
            (base_of scheme host segments ++ replicate n (chr "/"))
          ++ py "/") (py "models")
       = Return (base_of scheme host (segments ++ [py "models"]))).
Proof.
  split_and!.
  - done.
  - apply rstrip_slash_last.
  - apply rstrip_slash_app.
  - vm_compute. reflexivity.
  - vm_compute. reflexivity.
  - intros scheme host segments n Hwf. by apply endpoint_well_formed.
Qed.

(** C4, at the input where the program departs from it. A base URL with
    a query passes both validators, and the slash that is to close the
    path is appended after the query: [urljoin] then takes [v1] for the
    last segment of the path, replaces it by [models] and drops the
    query. The version segment of the base URL is lost; with a fragment
    in place of the query it is lost in the same way. Both variants. *)
Theorem version_segment_lost_with_a_query :
  App.validate_url (H := ascii_host)
    (py "https://api.example.com/v1?api-version=1") = Return true
  ∧ Main.validate_url (H := ascii_host)
      (py "https://api.example.com/v1?api-version=1") = Return true
  ∧ rstrip (py "/") (py "https://api.example.com/v1?api-version=1")
    ++ py "/"
    = py "https://api.example.com/v1?api-version=1/"
  ∧ App.endpoint_of (H := ascii_host)
      (App.__init__ (py "https://api.example.com/v1?api-version=1") None)
    = Return (py "https://api.example.com/models")
  ∧ Main.endpoint_of (H := ascii_host)
      (Main.__init__ (py "https://api.example.com/v1?api-version=1") None)
    = Return (py "https://api.example.com/models")
  ∧ App.validate_url (H := ascii_host) (py "https://api.example.com/v1#top")
    = Return true
  ∧ App.endpoint_of (H := ascii_host)
      (App.__init__ (py "https://api.example.com/v1#top") None)
    = Return (py "https://api.example.com/models")
  ∧ Main.endpoint_of (H := ascii_host)
      (Main.__init__ (py "https://api.example.com/v1#top") None)
    = Return (py "https://api.example.com/models").
Proof. split_and!; vm_compute; reflexivity. Qed.

(** X1. Both validators return [True] on every URL made of the scheme
    [http] or [https], a host and path segments. *)
Lemma validate_url_well_formed `{Host} (scheme host : str)
    (segments : list str) :
  well_formed_base scheme host segments →
  App.validate_url (base_of scheme host segments) = Return true
  ∧ Main.validate_url (base_of scheme host segments) = Return true.
Proof.
  intros Hwf%valid_url_well_formed. split.
  - by apply (validator_contract_of _ app_validate_url_eq).
  - by apply (validator_contract_of _ main_validate_url_eq).
Qed.

(** * More of the program *)

(** ** The request of [fetch_models] *)

(** Nothing derives from [APIError]. *)
Lemma issubclass_APIError (c : pyclass) :
  issubclass c APIError = true → c = APIError.
Proof. destruct c; vm_compute; congruence. Qed.

Lemma isinstance_APIError (e : exn) :
  isinstance e APIError = true ↔ cls e = APIError.
Proof.
  split; [apply issubclass_APIError|].
  unfold isinstance. by intros ->.
Qed.

Lemma or_empty_strip (api_key : option str) :
  match api_key with
  | Some k => if truthy k then Some (strip k) else None
  | None => None
  end = (if truthy (or_empty api_key) then Some (strip (or_empty api_key))
         else None).
Proof. by destruct api_key as [[|c k]|]. Qed.

Lemma headers_of_init (base_url : str) (api_key : option str) :
  App.headers_of (App.__init__ base_url api_key) = request_headers api_key
  ∧ Main.headers_of (Main.__init__ base_url api_key)
    = request_headers api_key.
Proof.
  unfold App.headers_of, Main.headers_of, App.__init__, Main.__init__,
    request_headers.
  cbn [App.api_key Main.api_key].
  destruct api_key as [[|c k]|]; cbn [truthy or_empty default];
    split; reflexivity.
Qed.

Section Request.
Context `{Host}.

Lemma app_fetch_raises (requests_get : get_fn) (self : App.OpenAIAPIClient)
    (e : exn) :
  App.fetch_models requests_get self = Raise e → cls e = APIError.
Proof.
  unfold App.fetch_models.
  match goal with |- try_except ?b _ = _ → _ => generalize b end.
  intros [v|e0]; cbn [try_except dispatch]; [discriminate|].
  rewrite !existsb_one.
  destruct (isinstance e0 Py.Timeout); [by intros [= <-]|].
  destruct (isinstance e0 ConnectionError); [by intros [= <-]|].
  destruct (isinstance e0 RequestException); [by intros [= <-]|].
  destruct (isinstance e0 APIError) eqn:He0.
  - intros [= <-]. by apply isinstance_APIError.
  - rewrite isinstance_Exception. by intros [= <-].
Qed.

Lemma main_fetch_raises (requests_get : get_fn) (self : Main.OpenAIAPIClient)
    (e : exn) :
  Main.fetch_models requests_get self = Raise e → cls e = APIError.
Proof.
  unfold Main.fetch_models.
  match goal with |- try_except ?b _ = _ → _ => generalize b end.
  intros [v|e0]; cbn [try_except dispatch]; [discriminate|].
  rewrite !existsb_one.
  destruct (isinstance e0 Py.Timeout); [by intros [= <-]|].
  destruct (isinstance e0 ConnectionError); [by intros [= <-]|].
  destruct (isinstance e0 RequestException); [by intros [= <-]|].
  destruct (existsb (isinstance e0) [ValueError; KeyError]);
    [by intros [= <-]|].
  destruct (isinstance e0 APIError) eqn:He0.
  - intros [= <-]. by apply isinstance_APIError.
  - rewrite isinstance_Exception. by intros [= <-].
Qed.

(** A [try] whose handlers all raise returns what its body returns. *)
Lemma app_fetch_returns_body (requests_get : get_fn)
    (self : App.OpenAIAPIClient) (v : value) :
  App.fetch_models requests_get self = Return v ↔
  ∃ ep r, App.endpoint_of self = Return ep
    ∧ requests_get ep 30%Z (App.headers_of self) = Return r
    ∧ status_code r = 200%Z
    ∧ json r = Return v
    ∧ model_list v.
Proof.
  unfold App.fetch_models. split.
  - destruct (App.endpoint_of self) as [ep|e0]; cbn [mbind outcome_bind].
    2: { cbn [try_except dispatch]. rewrite !existsb_one.
         repeat (destruct (isinstance e0 _); [discriminate|]).
         discriminate. }
    destruct (requests_get ep 30%Z (App.headers_of self)) as [r|e0] eqn:Hr;
      cbn [mbind outcome_bind].
    2: { cbn [try_except dispatch]. rewrite !existsb_one.
         repeat (destruct (isinstance e0 _); [discriminate|]).
         discriminate. }
    destruct (status_code r =? 401)%Z; [reraise; discriminate|].
    destruct (status_code r =? 404)%Z; [reraise; discriminate|].
    destruct (status_code r =? 500)%Z; [reraise; discriminate|].
    destruct (status_code r =? 200)%Z eqn:H200; cbn [negb];
      [|reraise; discriminate].
    apply Z.eqb_eq in H200.
    destruct (json r) as [data|e0] eqn:Hjson; cbn [try_except].
    2: { cbn [dispatch]. rewrite existsb_one.
         destruct (isinstance e0 ValueError).
         - reraise. discriminate.
         - cbn [mbind outcome_bind dispatch try_except].
           rewrite !existsb_one.
           repeat (destruct (isinstance e0 _); [discriminate|]).
           discriminate. }
    cbn [mbind outcome_bind].
    destruct data as [| | | | | |items]; try (reraise; discriminate).
    unfold dict_contains, getitem.
    destruct (lookup_key (py "data") items) as [d|] eqn:Hd.
    2: { rewrite bool_decide_eq_false_2 by (by intros [? ?]).
         cbn [negb]. reraise. discriminate. }
    rewrite bool_decide_eq_true_2 by by eexists.
    cbn [negb mbind outcome_bind].
    destruct d as [| | | | |l|]; cbn [is_list negb];
      try (reraise; discriminate).
    intros [= <-]. exists ep, r. split_and!; try done.
    by exists items, l.
  - intros (ep & r & -> & Hr & H200 & Hjson & fields & items & -> & Hd).
    cbn [mbind outcome_bind]. rewrite Hr. cbn [mbind outcome_bind].
    rewrite H200, Hjson.
    change (200 =? 401)%Z with false. change (200 =? 404)%Z with false.
    change (200 =? 500)%Z with false. change (200 =? 200)%Z with true.
    cbn [negb try_except mbind outcome_bind].
    unfold dict_contains, getitem. rewrite Hd.
    rewrite bool_decide_eq_true_2 by by eexists.
    reflexivity.
Qed.

Lemma main_fetch_returns_body (requests_get : get_fn)
    (self : Main.OpenAIAPIClient) (v : value) :
  Main.fetch_models requests_get self = Return v ↔
  ∃ ep r, Main.endpoint_of self = Return ep
    ∧ requests_get ep 30%Z (Main.headers_of self) = Return r
    ∧ status_code r = 200%Z
    ∧ json r = Return v
    ∧ model_list v.
Proof.
  unfold Main.fetch_models. split.
  - destruct (Main.endpoint_of self) as [ep|e0]; cbn [mbind outcome_bind].
    2: { cbn [try_except dispatch]. rewrite !existsb_one.
         repeat (destruct (isinstance e0 _); [discriminate|]).
         destruct (existsb _ _); [discriminate|].
         repeat (destruct (isinstance e0 _); [discriminate|]).
         discriminate. }
    destruct (requests_get ep 30%Z (Main.headers_of self)) as [r|e0] eqn:Hr;
      cbn [mbind outcome_bind].
    2: { cbn [try_except dispatch]. rewrite !existsb_one.
         repeat (destruct (isinstance e0 _); [discriminate|]).
         destruct (existsb _ _); [discriminate|].
         repeat (destruct (isinstance e0 _); [discriminate|]).
         discriminate. }
    unfold Main.error_msgs. cbn [List.find fst].
    destruct (401 =? status_code r)%Z; [reraise; discriminate|].
    destruct (404 =? status_code r)%Z; [reraise; discriminate|].
    destruct (500 =? status_code r)%Z; [reraise; discriminate|].
    destruct (status_code r =? 200)%Z eqn:H200; cbn [negb];
      [|reraise; discriminate].
    apply Z.eqb_eq in H200.
    destruct (json r) as [data|e0] eqn:Hjson; cbn [mbind outcome_bind].
    2: { cbn [try_except dispatch]. rewrite !existsb_one.
         repeat (destruct (isinstance e0 _); [discriminate|]).
         destruct (existsb _ _); [discriminate|].
         repeat (destruct (isinstance e0 _); [discriminate|]).
         discriminate. }
    destruct data as [| | | | | |items];
      try (cbn [get mbind outcome_bind try_except raise dispatch];
           discriminate).
    cbn [get mbind outcome_bind].
    destruct (lookup_key (py "data") items) as [d|] eqn:Hd;
      cbn [from_option id].
    2: { cbn [is_list negb]. reraise. discriminate. }
    destruct d as [| | | | |l|]; cbn [is_list negb];
      try (reraise; discriminate).
    intros [= <-]. exists ep, r. split_and!; try done.
    by exists items, l.
  - intros (ep & r & -> & Hr & H200 & Hjson & fields & items & -> & Hd).
    cbn [mbind outcome_bind]. rewrite Hr. cbn [mbind outcome_bind].
    rewrite H200, Hjson.
    unfold Main.error_msgs. cbn [List.find fst].
    change (401 =? 200)%Z with false. change (404 =? 200)%Z with false.
    change (500 =? 200)%Z with false. change (200 =? 200)%Z with true.
    cbn [negb get mbind outcome_bind]. rewrite Hd.
    reflexivity.
Qed.

End Request.

(** X2. [fetch_models] fails with an [APIError] and with nothing else,
    whatever [urljoin], the transport or the decoder raise. The worker of
    [main.py] catches [APIError] only: it emits a signal for every fetch.
    Both variants. *)
Theorem fetch_models_raises_only_APIError `{Host} (requests_get : get_fn) :
  (∀ self e, App.fetch_models requests_get self = Raise e →
             cls e = APIError)
  ∧ (∀ self e, Main.fetch_models requests_get self = Raise e →
               cls e = APIError)
  ∧ (∀ url w, Main.worker requests_get url w ≠ Main.nothing).
Proof.
  split_and!.
  - apply app_fetch_raises.
  - apply main_fetch_raises.
  - intros url w. unfold Main.worker.
    destruct (Main.fetch_models _ _) as [v|e] eqn:Hf; [done|].
    apply main_fetch_raises, isinstance_APIError in Hf. by rewrite Hf.
Qed.

(** X3. [fetch_models] makes one request: a GET of the target with a
    timeout of 30 seconds, the header [Accept: application/json] and,
    unless the key is absent or blank, [Authorization: Bearer] with the
    key trimmed. Nothing else of the network is read: two networks that
    answer this request alike give the same fetch; when the target
    cannot be built no request is made. Both variants. *)
Theorem fetch_models_sends_one_request `{Host} (g1 g2 : get_fn)
    (base_url : str) (api_key : option str) :
  (∀ endpoint,
     UrlLib.urljoin (rstrip (py "/") (strip base_url) ++ py "/") (py "models")
       = Return endpoint →
     g1 endpoint 30%Z (request_headers api_key)
       = g2 endpoint 30%Z (request_headers api_key) →
     App.fetch_models g1 (App.__init__ base_url api_key)
       = App.fetch_models g2 (App.__init__ base_url api_key)
     ∧ Main.fetch_models g1 (Main.__init__ base_url api_key)
       = Main.fetch_models g2 (Main.__init__ base_url api_key))
  ∧ (∀ e,
       UrlLib.urljoin (rstrip (py "/") (strip base_url) ++ py "/")
         (py "models") = Raise e →
       App.fetch_models g1 (App.__init__ base_url api_key)
         = App.fetch_models g2 (App.__init__ base_url api_key)
       ∧ Main.fetch_models g1 (Main.__init__ base_url api_key)
         = Main.fetch_models g2 (Main.__init__ base_url api_key)).
Proof.
  destruct (headers_of_init base_url api_key) as [Happ Hmain].
  split.
  - intros endpoint Hep Hg. split.
    + unfold App.fetch_models. rewrite Happ.
      change (App.endpoint_of (App.__init__ base_url api_key))
        with (UrlLib.urljoin (rstrip (py "/") (strip base_url) ++ py "/")
                (py "models")).
      rewrite Hep. cbn [mbind outcome_bind]. by rewrite Hg.
    + unfold Main.fetch_models. rewrite Hmain.
      change (Main.endpoint_of (Main.__init__ base_url api_key))
        with (UrlLib.urljoin (rstrip (py "/") (strip base_url) ++ py "/")
                (py "models")).
      rewrite Hep. cbn [mbind outcome_bind]. by rewrite Hg.
  - intros e He. split.
    + unfold App.fetch_models.
      change (App.endpoint_of (App.__init__ base_url api_key))
        with (UrlLib.urljoin (rstrip (py "/") (strip base_url) ++ py "/")
                (py "models")).
      by rewrite He.
    + unfold Main.fetch_models.
      change (Main.endpoint_of (Main.__init__ base_url api_key))
        with (UrlLib.urljoin (rstrip (py "/") (strip base_url) ++ py "/")
                (py "models")).
      by rewrite He.
Qed.

(** X4. [fetch_models] returns exactly when the reply to its request has
    status 200 and a body that decodes to an object with a list under
    [data]; what it returns is that body, as decoded. The two variants
    return on the same replies and return the same. *)
Theorem fetch_models_returns_the_body `{Host} (requests_get : get_fn)
    (base_url : str) (api_key : option str) (v : value) :
  (App.fetch_models requests_get (App.__init__ base_url api_key) = Return v
   ↔ ∃ endpoint r,
       UrlLib.urljoin (rstrip (py "/") (strip base_url) ++ py "/")
         (py "models") = Return endpoint
       ∧ requests_get endpoint 30%Z (request_headers api_key) = Return r
       ∧ status_code r = 200%Z
       ∧ json r = Return v
       ∧ model_list v)
  ∧ (Main.fetch_models requests_get (Main.__init__ base_url api_key)
     = Return v
     ↔ App.fetch_models requests_get (App.__init__ base_url api_key)
       = Return v).
Proof.
  destruct (headers_of_init base_url api_key) as [Happ Hmain].
  assert (Ha := app_fetch_returns_body requests_get
                  (App.__init__ base_url api_key) v).
  assert (Hm := main_fetch_returns_body requests_get
                  (Main.__init__ base_url api_key) v).
  rewrite Happ in Ha. rewrite Hmain in Hm.
  split; [exact Ha|].
  rewrite Ha, Hm. reflexivity.
Qed.

(** ** A fetch, from the click to the handler *)

Ltac main_fields :=
  unfold Main.on_home, Main.on_profiles, Main.on_disk, Main.info_bar,
    Main.set_url_entry, Main.set_key_entry, Main.set_current_profile,
    Main.set_validation_label, Main.set_loading, Main.set_model_cards,
    Main.set_model_ids, Main.set_all_models;
  cbn [id fst snd Main.home_page Main.profiles_page Main.info_bars Main.disk
       Main.url_entry Main.key_entry
       Main.validation_label Main.loading Main.all_models Main.model_ids
       Main.model_cards Main.current_profile Main.new_name
       Main.profile_cards].

Ltac app_fields :=
  unfold App.set_validation, App.set_loading_state, App.set_model_ids,
    App.show_status, App.set_disk, App.set_url_entry, App.set_key_entry;
  cbn [id fst snd App.url_entry App.key_entry App.validation_error
       App.is_loading App.model_ids App.status App.disk].

Section Fetch.
Context `{Host} (requests_get : get_fn) (now : str).

Lemma main_valid_not_blank (url : str) :
  Main.validate_url url = Return true → truthy (strip url) = true.
Proof.
  rewrite main_validate_url_eq. destruct (strip url); [|done].
  by rewrite urlparse_empty.
Qed.

Lemma app_valid_not_blank (url : str) :
  App.validate_url url = Return true → truthy (strip url) = true.
Proof.
  rewrite app_validate_url_eq. destruct (strip url); [|done].
  by rewrite urlparse_empty.
Qed.

Lemma strip_nil : strip [] = [].
Proof. reflexivity. Qed.

Lemma main_fetch_turned_down (w : Main.MainWindow) :
  Main.validate_url (strip (Main.url_entry (Main.home_page w)))
    = Return false →
  Main._fetch w
  = (Return None,
     Main.on_home
       (Main.set_validation_label
          (Some (if truthy (strip (Main.url_entry (Main.home_page w)))
                 then py "无效的URL格式" else py "请输入BaseURL"))) w).
Proof.
  intros Hv. unfold Main._fetch. run.
  destruct (strip (Main.url_entry (Main.home_page w))) as [|c u];
    cbn [truthy negb].
  - reflexivity.
  - rewrite Hv. reflexivity.
Qed.

Lemma main_fetch_started (w : Main.MainWindow) :
  Main.validate_url (strip (Main.url_entry (Main.home_page w)))
    = Return true →
  Main._fetch w
  = (Return (Some (strip (Main.url_entry (Main.home_page w)))),
     Main.mk_window
       (Main.mk_home (Main.url_entry (Main.home_page w))
          (Main.key_entry (Main.home_page w)) None true [] [] []
          (Main.current_profile (Main.home_page w)))
       (Main.profiles_page w)
       (Main.info_bars w ++ [(py "info", py "正在获取模型列表...")])
       (Main.disk w)).
Proof.
  intros Hv. unfold Main._fetch. run.
  destruct (strip (Main.url_entry (Main.home_page w))) as [|c u] eqn:Eu.
  - apply main_valid_not_blank in Hv. by rewrite strip_nil in Hv.
  - cbn [truthy negb]. rewrite Hv. cbn [negb].
    unfold Main._clear_models, Main._notify. run.
    destruct w as [[] ? ? ?]. reflexivity.
Qed.

Lemma app_fetch_turned_down (a : App.ModelFetcherApp) :
  App.validate_url (App.get_url a) = Return false →
  App.fetch_models_async a
  = (Return None,
     App.set_validation
       (Some (if truthy (App.get_url a)
              then py "无效的URL格式，请输入有效的HTTP/HTTPS地址"
              else py "请输入BaseURL")) a).
Proof.
  intros Hv. unfold App.fetch_models_async. run.
  destruct (App.get_url a) as [|c u]; cbn [truthy negb].
  - reflexivity.
  - rewrite Hv. reflexivity.
Qed.

Lemma app_fetch_started (a : App.ModelFetcherApp) :
  App.validate_url (App.get_url a) = Return true →
  App.fetch_models_async a
  = (Return (Some (App.get_url a, App.get_api_key a)),
     App.mk_app (App.url_entry a) (App.key_entry a) None true []
       (py "正在获取模型列表...", py "info") (App.disk a)).
Proof.
  intros Hv. unfold App.fetch_models_async. run.
  destruct (App.get_url a) as [|c u] eqn:Eu.
  - apply app_valid_not_blank in Hv. by rewrite strip_nil in Hv.
  - cbn [truthy negb]. rewrite Hv. cbn [negb].
    destruct a. reflexivity.
Qed.

Lemma main_fetch_failed (w : Main.MainWindow) (e : exn) :
  Main.validate_url (strip (Main.url_entry (Main.home_page w)))
    = Return true →
  Main.fetch_models requests_get
    (Main.__init__ (strip (Main.url_entry (Main.home_page w)))
       (Some (strip (Main.key_entry (Main.home_page w))))) = Raise e →
  Main.fetch_invocation requests_get now w
  = (Return (),
     Main.mk_window
       (Main.mk_home (Main.url_entry (Main.home_page w))
          (Main.key_entry (Main.home_page w)) None false [] [] []
          (Main.current_profile (Main.home_page w)))
       (Main.profiles_page w)
       (Main.info_bars w
        ++ [(py "info", py "正在获取模型列表...");
            (py "error",
             text e ++ [10%N] ++ py "提示: " ++ Main.hint_of (text e))])
       (Main.disk w)).
Proof.
  intros Hv Hf. unfold Main.fetch_invocation.
  cbv beta iota delta [mbind action_bind].
  rewrite (main_fetch_started _ Hv). run. unfold Main.worker.
  main_fields. rewrite Hf.
  apply main_fetch_raises, isinstance_APIError in Hf. rewrite Hf.
  cbn [Main.deliver]. unfold Main._on_error. run. main_fields.
  by rewrite <- app_assoc.
Qed.

End Fetch.

Section FetchOutcomes.
Context `{Host} (requests_get : get_fn) (now : str).

Lemma app_fetch_failed (prompt : bool) (a : App.ModelFetcherApp) (e : exn) :
  App.validate_url (App.get_url a) = Return true →
  App.fetch_models requests_get
    (App.__init__ (App.get_url a) (Some (App.get_api_key a))) = Raise e →
  App.fetch_invocation requests_get now prompt a
  = (Return (),
     App.mk_app (App.url_entry a) (App.key_entry a) None (negb prompt) []
       (if prompt
        then (text e ++ [10%N] ++ py "提示: " ++ App.guidance (text e),
              py "error")
        else (py "正在获取模型列表...", py "info"))
       (App.disk a)).
Proof.
  intros Hv Hf. unfold App.fetch_invocation.
  cbv beta iota delta [mbind action_bind].
  rewrite (app_fetch_started _ Hv). cbv beta iota. unfold App.worker.
  rewrite Hf.
  apply app_fetch_raises, isinstance_APIError in Hf. rewrite Hf.
  destruct prompt; cbn [negb App.deliver]; [|reflexivity].
  unfold App._on_fetch_error, App.show_error. run. reflexivity.
Qed.

Lemma main_status_message (self : Main.OpenAIAPIClient) (ep : str)
    (r : Response) :
  Main.endpoint_of self = Return ep →
  requests_get ep 30%Z (Main.headers_of self) = Return r →
  (status_code r = 401%Z →
   Main.fetch_models requests_get self
   = raise APIError (py "认证失败：API密钥无效或缺失"))
  ∧ (status_code r = 500%Z →
     Main.fetch_models requests_get self
     = raise APIError (py "服务器内部错误")).
Proof.
  intros Hep Hr. unfold Main.fetch_models. rewrite Hep.
  cbn [mbind outcome_bind]. rewrite Hr. cbn [mbind outcome_bind].
  unfold Main.error_msgs. cbn [List.find fst]. split; intros ->.
  - change (401 =? 401)%Z with true. cbv iota. reraise. reflexivity.
  - change (401 =? 500)%Z with false. change (404 =? 500)%Z with false.
    change (500 =? 500)%Z with true. cbv iota. reraise. reflexivity.
Qed.

Lemma main_timeout_message (self : Main.OpenAIAPIClient) (ep : str)
    (e : exn) :
  Main.endpoint_of self = Return ep →
  requests_get ep 30%Z (Main.headers_of self) = Raise e →
  isinstance e Py.Timeout = true →
  Main.fetch_models requests_get self
  = raise APIError (py "请求超时：连接超过30秒未响应").
Proof.
  intros Hep Hr He. unfold Main.fetch_models. rewrite Hep.
  cbn [mbind outcome_bind]. rewrite Hr. cbn [mbind outcome_bind try_except].
  by rewrite dispatch_hit by (by rewrite existsb_one).
Qed.

End FetchOutcomes.

Lemma mapM_get_id_bad (objs : list (list (str * value))) (bad : value)
    (rest : list value) :
  is_dict bad = false →
  mapM (λ m, get m (py "id") (VStr (py "Unknown")))
    ((VDict <$> objs) ++ bad :: rest)
  = raise AttributeError
      (py "'" ++ type_name bad ++ py "' object has no attribute 'get'").
Proof.
  intros Hbad. induction objs as [|o objs IH].
  - cbn [fmap list_fmap app mapM].
    destruct bad; try discriminate; reflexivity.
  - cbn [fmap list_fmap app mapM] in *. rewrite IH. reflexivity.
Qed.

Lemma app_loop_bad (objs : list (list (str * value))) (bad : value)
    (rest : list value) (a : App.ModelFetcherApp) :
  is_dict bad = false →
  for_each ((VDict <$> objs) ++ bad :: rest) app_loop a
  = (raise AttributeError
       (py "'" ++ type_name bad ++ py "' object has no attribute 'get'"),
     App.set_model_ids (App.model_ids a ++ (model_id_of <$> objs)) a).
Proof.
  intros Hbad. revert a. induction objs as [|o objs IH]; intros a.
  - cbn [fmap list_fmap app for_each]. run.
    destruct bad; try discriminate; cbn [get raise];
      destruct a; app_fields; by rewrite app_nil_r.
  - cbn [fmap list_fmap app for_each]. run. cbn [get].
    fold (@fmap list _ _ _ VDict objs). rewrite IH.
    destruct a. unfold App.add_model. app_fields.
    by rewrite <- app_assoc.
Qed.

(** X5. A fetch on input the validator turns down stops at once: the
    window shows the validation message and is otherwise as it was, the
    models of an earlier fetch included, and no request is made. Both
    variants. *)
Theorem invalid_input_stops_the_fetch `{Host} (requests_get : get_fn)
    (now : str) :
  (∀ w,
     Main.validate_url (strip (Main.url_entry (Main.home_page w)))
       = Return false →
     Main.fetch_invocation requests_get now w
     = (Return (),
        Main.on_home
          (Main.set_validation_label
             (Some (if truthy (strip (Main.url_entry (Main.home_page w)))
                    then py "无效的URL格式" else py "请输入BaseURL"))) w))
  ∧ (∀ prompt a,
       App.validate_url (App.get_url a) = Return false →
       App.fetch_invocation requests_get now prompt a
       = (Return (),
          App.set_validation
            (Some (if truthy (App.get_url a)
                   then py "无效的URL格式，请输入有效的HTTP/HTTPS地址"
                   else py "请输入BaseURL")) a)).
Proof.
  split.
  - intros w Hv. unfold Main.fetch_invocation.
    cbv beta iota delta [mbind action_bind].
    by rewrite (main_fetch_turned_down _ Hv).
  - intros prompt a Hv. unfold App.fetch_invocation.
    cbv beta iota delta [mbind action_bind].
    by rewrite (app_fetch_turned_down _ Hv).
Qed.

(** X6. In [main.py], a fetch that fails on valid input leaves the window
    with no model shown, the ones of an earlier fetch are gone, not
    loading, the validation message hidden, and two more info bars: the
    notice that the fetch started, then the error, which is the message
    of the [APIError], a line break, and the hint picked for the
    message. The entries, the current profile and the store are as they
    were. *)
Theorem failed_fetch_clears_the_models `{Host} (requests_get : get_fn)
    (now : str) (w : Main.MainWindow) (e : exn) :
  Main.validate_url (strip (Main.url_entry (Main.home_page w)))
    = Return true →
  Main.fetch_models requests_get
    (Main.__init__ (strip (Main.url_entry (Main.home_page w)))
       (Some (strip (Main.key_entry (Main.home_page w))))) = Raise e →
  Main.fetch_invocation requests_get now w
  = (Return (),
     Main.mk_window
       (Main.mk_home (Main.url_entry (Main.home_page w))
          (Main.key_entry (Main.home_page w)) None false [] [] []
          (Main.current_profile (Main.home_page w)))
       (Main.profiles_page w)
       (Main.info_bars w
        ++ [(py "info", py "正在获取模型列表...");
            (py "error",
             text e ++ [10%N] ++ py "提示: " ++ Main.hint_of (text e))])
       (Main.disk w)).
Proof. apply main_fetch_failed. Qed.

(** X7. In [main.py] the hint shown with a failure is picked by the words
    of the message. The messages for the statuses 401 and 500 hold none
    of the words, the digits included: the hint shown is the general one,
    not the one about the key or the server. A timeout is shown with the
    hint about the network. *)
Theorem main_hint_shown_by_failure `{Host} (requests_get : get_fn)
    (now : str) (w : Main.MainWindow) (endpoint : str) :
  Main.validate_url (strip (Main.url_entry (Main.home_page w)))
    = Return true →
  UrlLib.urljoin
    (rstrip (py "/") (strip (strip (Main.url_entry (Main.home_page w))))
     ++ py "/") (py "models") = Return endpoint →
  (∀ r,
     requests_get endpoint 30%Z
       (request_headers (Some (strip (Main.key_entry (Main.home_page w)))))
       = Return r →
     (status_code r = 401%Z →
      last (Main.info_bars (Main.fetch_invocation requests_get now w).2)
      = Some (py "error",
              py "认证失败：API密钥无效或缺失" ++ [10%N]
              ++ py "提示: 检查BaseURL和网络"))
     ∧ (status_code r = 500%Z →
        last (Main.info_bars (Main.fetch_invocation requests_get now w).2)
        = Some (py "error",
                py "服务器内部错误" ++ [10%N]
                ++ py "提示: 检查BaseURL和网络")))
  ∧ (∀ e,
       requests_get endpoint 30%Z
         (request_headers (Some (strip (Main.key_entry (Main.home_page w)))))
         = Raise e →
       isinstance e Py.Timeout = true →
       last (Main.info_bars (Main.fetch_invocation requests_get now w).2)
       = Some (py "error",
               py "请求超时：连接超过30秒未响应" ++ [10%N]
               ++ py "提示: 检查网络连接")).
Proof.
  intros Hv Hep.
  destruct (headers_of_init (strip (Main.url_entry (Main.home_page w)))
              (Some (strip (Main.key_entry (Main.home_page w)))))
    as [_ Hh].
  set (self := Main.__init__ (strip (Main.url_entry (Main.home_page w)))
                 (Some (strip (Main.key_entry (Main.home_page w))))) in *.
  change (Main.endpoint_of self = Return endpoint) in Hep.
  assert (∀ msg,
            Main.fetch_models requests_get self = raise APIError msg →
            last (Main.info_bars (Main.fetch_invocation requests_get now w).2)
            = Some (py "error",
                    msg ++ [10%N] ++ py "提示: " ++ Main.hint_of msg))
    as Hshow.
  { intros msg Hf.
    rewrite (main_fetch_failed _ _ _ _ Hv Hf). cbn [snd Main.info_bars].
    change [?x; ?y] with ([x] ++ [y]). rewrite app_assoc.
    by rewrite last_snoc. }
  split.
  - intros r Hr. rewrite <- Hh in Hr.
    destruct (main_status_message requests_get self endpoint r Hep Hr)
      as [H401 H500].
    split; intros Hs.
    + rewrite (Hshow _ (H401 Hs)). vm_compute. reflexivity.
    + rewrite (Hshow _ (H500 Hs)). vm_compute. reflexivity.
  - intros e Hr He. rewrite <- Hh in Hr.
    rewrite (Hshow _
               (main_timeout_message requests_get self endpoint e Hep Hr He)).
    vm_compute. reflexivity.
Qed.

(** X8. In [app.py] the error of a fetch reaches the window through a
    callback that reads the exception when it runs. Run while the worker
    is still in its [except] clause, it ends the loading state and shows
    the error. Run after the clause has ended, it fails on the name of
    the exception and no handler runs: the window stays as the click left
    it, loading, with the notice that the fetch started and no model
    shown. In both cases the entries and the store are as they were. *)
Theorem app_error_callback_after_the_clause `{Host} (requests_get : get_fn)
    (now : str) (a : App.ModelFetcherApp) (e : exn) :
  App.validate_url (App.get_url a) = Return true →
  App.fetch_models requests_get
    (App.__init__ (App.get_url a) (Some (App.get_api_key a))) = Raise e →
  App.fetch_invocation requests_get now false a
  = (Return (),
     App.mk_app (App.url_entry a) (App.key_entry a) None true []
       (py "正在获取模型列表...", py "info") (App.disk a))
  ∧ App.is_loading (App.fetch_invocation requests_get now true a).2 = false
  ∧ App.model_ids (App.fetch_invocation requests_get now true a).2 = []
  ∧ App.url_entry (App.fetch_invocation requests_get now true a).2
    = App.url_entry a
  ∧ App.key_entry (App.fetch_invocation requests_get now true a).2
    = App.key_entry a
  ∧ App.disk (App.fetch_invocation requests_get now true a).2 = App.disk a.
Proof.
  intros Hv Hf.
  rewrite !(app_fetch_failed _ _ _ _ _ Hv Hf). by split_and!.
Qed.

(** X9. An element of [data] that is not an object stops the handler of a
    success with an [AttributeError], after the loading state has ended
    and before anything is saved. [main.py] reads the ids of all the
    elements first: it shows no model. [app.py] shows the models one by
    one: the ones before the element stay on the list. *)
Theorem element_that_is_no_object_stops_the_handler (now : str)
    (fields : list (str * value)) (objs : list (list (str * value)))
    (bad : value) (rest : list value) :
  lookup_key (py "data") fields
    = Some (VList ((VDict <$> objs) ++ bad :: rest)) →
  is_dict bad = false →
  (∀ w, Main._on_success now (VDict fields) w
        = (raise AttributeError
             (py "'" ++ type_name bad
              ++ py "' object has no attribute 'get'"),
           Main.on_home (Main.set_loading false) w))
  ∧ (∀ a, App._on_fetch_success now (VDict fields) a
          = (raise AttributeError
               (py "'" ++ type_name bad
                ++ py "' object has no attribute 'get'"),
             App.set_model_ids
               (App.model_ids a ++ (model_id_of <$> objs))
               (App.set_loading_state false a))).
Proof.
  intros Hdata Hbad.
  assert (truth (VList ((VDict <$> objs) ++ bad :: rest)) = true) as Ht
    by by destruct objs.
  split.
  - intros w. unfold Main._on_success. run. cbn [get]. rewrite Hdata.
    cbv beta iota delta [from_option id]. rewrite Ht.
    cbv beta iota delta [negb iter].
    by rewrite (mapM_get_id_bad _ _ _ Hbad).
  - intros a. unfold App._on_fetch_success. run. cbn [get]. rewrite Hdata.
    cbv beta iota delta [from_option id]. rewrite Ht.
    cbv beta iota delta [negb iter].
    match goal with
    | |- context [for_each ?xs ?b ?s] =>
      change (for_each xs b s) with (for_each xs app_loop s)
    end.
    by rewrite (app_loop_bad _ _ _ _ Hbad).
Qed.

(** ** The profiles of the directory *)

Lemma get_path_inj (a b : str) : Main._get_path a = Main._get_path b → a = b.
Proof. unfold Main._get_path. apply app_inv_tail. Qed.

Lemma endswith_app (p x : str) : endswith p (x ++ p) = true.
Proof.
  unfold endswith, str_eqb. apply bool_decide_eq_true.
  rewrite length_app.
  replace (length x + length p - length p) with (length x) by lia.
  by rewrite drop_app_length.
Qed.

Lemma endswith_inv (p s : str) :
  endswith p s = true → ∃ x, s = x ++ p.
Proof.
  unfold endswith, str_eqb. intros Hs%bool_decide_eq_true.
  exists (take (length s - length p) s).
  pose proof (take_drop (length s - length p) s) as E.
  rewrite Hs in E. done.
Qed.

Lemma rfind_app (c : N) (a b : str) :
  rfind c (a ++ b)
  = match rfind c b with
    | Some i => Some (length a + i)
    | None => rfind c a
    end.
Proof.
  induction a as [|x a IH]; cbn [app rfind length].
  - by destruct (rfind c b).
  - rewrite IH. by destruct (rfind c b).
Qed.

Lemma rfind_dot_json : rfind (chr ".") (py ".json") = Some 0.
Proof. vm_compute. reflexivity. Qed.

Lemma length_dot_json : length (py ".json") = 5.
Proof. vm_compute. reflexivity. Qed.

(** The stem of a file named [x.json] is [x], but for the file [.json],
    which is its own stem. *)
Lemma stem_json (x : str) :
  stem (x ++ py ".json") = if truthy x then x else py ".json".
Proof.
  unfold stem. rewrite rfind_app, rfind_dot_json, Nat.add_0_r.
  destruct x as [|c x]; [reflexivity|]. cbn [length truthy].
  rewrite length_app, length_dot_json. cbn [length].
  replace (S (length x) <? S (length x) + 5 - 1) with true
    by (symmetry; apply Nat.ltb_lt; lia).
  change (S (length x)) with (length (c :: x)).
  by rewrite take_app_length.
Qed.

Lemma elem_of_glob_json (d : dir) (f : str) :
  f ∈ glob_json d ↔ endswith (py ".json") f = true ∧ is_Some (d !! f).
Proof.
  unfold glob_json. rewrite list_elem_of_In, filter_In, <- list_elem_of_In.
  rewrite list_elem_of_fmap. split.
  - intros [([f' x] & -> & Hin%elem_of_map_to_list) Hf]. split; [done|].
    by exists x.
  - intros [Hf [x Hx]]. split; [|done]. exists (f, x). split; [done|].
    by apply elem_of_map_to_list.
Qed.

Lemma elem_of_list_profiles (d : dir) (name : str) :
  name ∈ Main.list_profiles d ↔
  ∃ x, is_Some (d !! Main._get_path x)
       ∧ name = (if truthy x then x else py ".json").
Proof.
  unfold Main.list_profiles, Main._get_path. rewrite list_elem_of_fmap.
  split.
  - intros (f & -> & [[x ->]%endswith_inv Hf]%elem_of_glob_json).
    exists x. by rewrite stem_json.
  - intros (x & Hx & ->). exists (x ++ py ".json").
    rewrite stem_json. split; [done|]. apply elem_of_glob_json.
    split; [apply endswith_app | done].
Qed.

Lemma list_profiles_record (d : dir) (name : str) :
  truthy name = true → is_Some (d !! Main._get_path name) →
  name ∈ Main.list_profiles d.
Proof.
  intros Hn Hd. apply elem_of_list_profiles. exists name.
  by rewrite Hn.
Qed.

Lemma dot_json_not_empty : py ".json" ≠ [].
Proof. vm_compute. discriminate. Qed.




Lemma filter_Permutation {A} (f : A → bool) (l l' : list A) :
  l ≡ₚ l' → List.filter f l ≡ₚ List.filter f l'.
Proof.
  induction 1 as [|x l l' _ IH|x y l|l l' l'' _ IH1 _ IH2]; cbn [List.filter].
  - done.
  - destruct (f x); by rewrite IH.
  - destruct (f x), (f y); try done. apply perm_swap.
  - by rewrite IH1.
Qed.

Lemma glob_json_insert (d : dir) (f : str) (x : file) :
  d !! f = None →
  glob_json (<[f := x]> d)
  ≡ₚ (if endswith (py ".json") f then [f] else []) ++ glob_json d.
Proof.
  intros Hd. unfold glob_json.
  rewrite (filter_Permutation _ _ (f :: (fst <$> map_to_list d))).
  - cbn [List.filter]. by destruct (endswith _ f).
  - by rewrite (map_to_list_insert _ _ _ Hd).
Qed.

Lemma default_cn_path : Main._get_path (py "默认") = py "默认" ++ py ".json".
Proof. reflexivity. Qed.

(** A directory that lists no profile holds no record. *)
Lemma none_listed_absent (d : dir) (name : str) :
  Main.list_profiles d = [] → d !! Main._get_path name = None.
Proof.
  intros Hd. unfold Main.list_profiles in Hd. apply fmap_nil_inv in Hd.
  destruct (d !! Main._get_path name) as [x|] eqn:Hx; [|done].
  assert (Main._get_path name ∈ glob_json d) as Hin.
  { apply elem_of_glob_json. split; [apply endswith_app|by exists x]. }
  rewrite Hd in Hin. by apply not_elem_of_nil in Hin.
Qed.

(** A record that is not there yet is written, when its text can be. *)
Lemma main_save_new (name url : str) (key : option str) (now : str)
    (d : dir) :
  d !! Main._get_path name = None →
  encodable url = true →
  encodable (or_empty key) = true →
  Main.save name url key now d = (Return (), Main.written name url key now d).
Proof.
  intros Hd. apply main_save_returns. by rewrite Hd.
Qed.

(** On a directory with no profile, saving one lists exactly that one. *)
Lemma list_profiles_first (d : dir) (name url : str) (key : option str)
    (now : str) :
  truthy name = true →
  Main.list_profiles d = [] →
  Main.list_profiles (Main.written name url key now d) = [name].
Proof.
  intros Hn Hd. pose proof (none_listed_absent d name Hd) as Hnone.
  unfold Main.list_profiles in *.
  apply fmap_nil_inv in Hd.
  unfold Main.written.
  pose proof (glob_json_insert d (Main._get_path name)
                (Json (config_data url (or_empty key) now)) Hnone) as Hp.
  unfold Main._get_path at 2 in Hp. rewrite endswith_app, Hd in Hp.
  cbn [app] in Hp. apply Permutation_singleton_r in Hp. rewrite Hp.
  cbn [fmap list_fmap]. unfold Main._get_path.
  by rewrite stem_json, Hn.
Qed.


Lemma truthy_default_cn : truthy (py "默认") = true.
Proof. vm_compute. reflexivity. Qed.

Lemma not_nil_match {A} (l : list A) :
  match l with [] => false | _ => true end = true ↔ l ≠ [].
Proof. by destruct l. Qed.

Lemma refresh_list_run (now : str) (w : Main.MainWindow) :
  Main._refresh_list now w
  = (Return (),
     Main.mk_window (Main.home_page w)
       (Main.mk_profiles (Main.new_name (Main.profiles_page w))
          (match Main.list_profiles (Main.disk w) with
           | [] => [py "默认"]
           | l => l
           end))
       (Main.info_bars w)
       (match Main.list_profiles (Main.disk w) with
        | [] => Main.written (py "默认") [] (Some []) now (Main.disk w)
        | _ => Main.disk w
        end)).
Proof.
  unfold Main._refresh_list. run.
  destruct (Main.list_profiles (Main.disk w)) eqn:Hl; cbn [negb];
    [|destruct w; reflexivity].
  unfold zoom.
  rewrite (main_save_new (py "默认") [] (Some []) now (Main.disk w))
    by (first [by apply none_listed_absent | reflexivity]).
  destruct w; reflexivity.
Qed.

(** What the page shows after [_refresh_list] is what the directory
    lists, and it is never nothing. *)
Lemma refresh_list_cards (now : str) (w : Main.MainWindow) :
  Main.profile_cards (Main.profiles_page (Main._refresh_list now w).2)
  = Main.list_profiles (Main.disk (Main._refresh_list now w).2)
  ∧ Main.profile_cards (Main.profiles_page (Main._refresh_list now w).2)
    ≠ [].
Proof.
  rewrite refresh_list_run.
  cbn [snd Main.profiles_page Main.profile_cards Main.disk].
  destruct (Main.list_profiles (Main.disk w)) as [|n l] eqn:Hl.
  - rewrite (list_profiles_first _ _ _ _ _ truthy_default_cn Hl). done.
  - by rewrite Hl.
Qed.

Lemma list_profiles_iff (d : dir) (name : str) :
  truthy name = true → name ≠ py ".json" →
  name ∈ Main.list_profiles d ↔ is_Some (d !! Main._get_path name).
Proof.
  intros Hn Hj. split; [|by apply list_profiles_record].
  intros (x & Hx & ->)%elem_of_list_profiles.
  by destruct (truthy x).
Qed.


Lemma delete_profile_run (now name : str) (w : Main.MainWindow) :
  Main._delete_profile now name w
  = (Return (),
     if str_eqb name (py "default") then
       Main.info_bar (py "warning") (py "无法删除默认配置") w
     else
       Main.info_bar (py "success") (py "配置: " ++ name)
         (Main._refresh_list now (Main.on_disk (Main.delete name) w)).2).
Proof.
  unfold Main._delete_profile, Main._notify. run.
  destruct (str_eqb name (py "default")); [reflexivity|].
  rewrite !refresh_list_run. reflexivity.
Qed.

(** X10. The records of two profiles are apart: saving or deleting one
    leaves what [load] returns for the other, and whether the other is
    listed, as it was, also when the save fails. *)
Theorem profiles_are_independent (name other url : str) (key : option str)
    (now : str) (d : dir) :
  path_component name → path_component other → name ≠ other →
  Main.load name (Main.save other url key now d).2 = Main.load name d
  ∧ Main.load name (Main.delete other d) = Main.load name d
  ∧ (truthy name = true → name ≠ py ".json" →
     (name ∈ Main.list_profiles (Main.save other url key now d).2
      ↔ name ∈ Main.list_profiles d)
     ∧ (name ∈ Main.list_profiles (Main.delete other d)
        ↔ name ∈ Main.list_profiles d)).
Proof.
  intros _ _ Hne.
  assert (Main._get_path other ≠ Main._get_path name) as Hp
    by (by intros ?%get_path_inj).
  split_and!.
  - unfold Main.load. by rewrite main_save_elsewhere.
  - unfold Main.load, Main.delete. by rewrite lookup_delete_ne.
  - intros Hn Hj. rewrite !list_profiles_iff by done.
    rewrite main_save_elsewhere by done. unfold Main.delete.
    by rewrite lookup_delete_ne.
Qed.

(** X11. [list_profiles] lists the names that have a record: a name, not
    empty and other than [.json], is listed exactly when its file is in
    the directory. The empty name is never listed: its file is [.json],
    which is listed under the name [.json]. *)
Theorem list_profiles_lists_the_records (d : dir) :
  (∀ name, path_component name → truthy name = true → name ≠ py ".json" →
     (name ∈ Main.list_profiles d ↔ is_Some (d !! Main._get_path name)))
  ∧ ([] ∉ Main.list_profiles d)
  ∧ (is_Some (d !! Main._get_path []) → py ".json" ∈ Main.list_profiles d).
Proof.
  split_and!.
  - intros name _. apply list_profiles_iff.
  - intros (x & _ & Hx)%elem_of_list_profiles.
    destruct x; [|done]. by apply dot_json_not_empty.
  - intros Hd. apply elem_of_list_profiles. by exists [].
Qed.


(** X13. After [_refresh_list] the profiles page shows the profiles the
    directory lists, and at least one: when the directory lists some it
    is left as it is; when it lists none, the profile named with the
    Chinese word for default is saved with an empty URL and key, and is
    then the one listed. *)
Theorem refresh_list_shows_the_store (now : str) (w : Main.MainWindow) :
  Main.profile_cards (Main.profiles_page (Main._refresh_list now w).2)
  = Main.list_profiles (Main.disk (Main._refresh_list now w).2)
  ∧ Main.profile_cards (Main.profiles_page (Main._refresh_list now w).2)
    ≠ []
  ∧ (Main.list_profiles (Main.disk w) ≠ [] →
     Main.disk (Main._refresh_list now w).2 = Main.disk w)
  ∧ (Main.list_profiles (Main.disk w) = [] →
     Main.disk (Main._refresh_list now w).2
     = Main.written (py "默认") [] (Some []) now (Main.disk w)
     ∧ Main.list_profiles (Main.disk (Main._refresh_list now w).2)
       = [py "默认"])
  ∧ Main.home_page (Main._refresh_list now w).2 = Main.home_page w
  ∧ Main.info_bars (Main._refresh_list now w).2 = Main.info_bars w.
Proof.
  destruct (refresh_list_cards now w) as [Hc Hne].
  split_and!; try done.
  - rewrite refresh_list_run. cbn [snd Main.disk].
    by destruct (Main.list_profiles (Main.disk w)).
  - intros Hl. rewrite refresh_list_run. cbn [snd Main.disk]. rewrite Hl.
    split; [done|].
    by apply list_profiles_first; [apply truthy_default_cn|].
  - by rewrite refresh_list_run.
  - by rewrite refresh_list_run.
Qed.


(** X15. [_delete_profile] turns down [default] with a warning and changes
    nothing else. For any other name the record is removed and every
    other record is left as it is, with one exception: when no profile
    is left, the profile named with the Chinese word for default is
    saved again, empty. The page then shows the profiles of the
    directory, at least one. The home page is left as it is: a profile
    that was the current one stays the current one. *)
Theorem delete_profile_removes_one_record (now name : str)
    (w : Main.MainWindow) :
  (name = py "default" →
   Main._delete_profile now name w
   = (Return (), Main.info_bar (py "warning") (py "无法删除默认配置") w))
  ∧ (path_component name → name ≠ py "default" →
     (name ≠ py "默认" →
      Main.disk (Main._delete_profile now name w).2 !! Main._get_path name
      = None)
     ∧ (∀ other, other ≠ name → other ≠ py "默认" →
          Main.disk (Main._delete_profile now name w).2
            !! Main._get_path other
          = Main.disk w !! Main._get_path other)
     ∧ Main.profile_cards
         (Main.profiles_page (Main._delete_profile now name w).2)
       = Main.list_profiles (Main.disk (Main._delete_profile now name w).2)
     ∧ Main.profile_cards
         (Main.profiles_page (Main._delete_profile now name w).2) ≠ []
     ∧ Main.home_page (Main._delete_profile now name w).2
       = Main.home_page w).
Proof.
  split.
  - intros ->. by rewrite delete_profile_run.
  - intros _ Hne. rewrite delete_profile_run.
    unfold str_eqb. rewrite bool_decide_eq_false_2 by done.
    cbn [snd]. unfold Main.info_bar at 1 2 3 4 5.
    cbn [Main.disk Main.profiles_page Main.home_page].
    destruct (refresh_list_cards now (Main.on_disk (Main.delete name) w))
      as [Hc Hn].
    split_and!; try done; [| |by rewrite refresh_list_run].
    + intros Hcn. rewrite refresh_list_run. main_fields.
      destruct (Main.list_profiles (Main.delete name (Main.disk w))).
      * unfold Main.written, Main.delete.
        rewrite lookup_insert_ne by (by intros ?%get_path_inj).
        apply lookup_delete_eq.
      * apply lookup_delete_eq.
    + intros other Ho Hcn. rewrite refresh_list_run. main_fields.
      destruct (Main.list_profiles (Main.delete name (Main.disk w))).
      * unfold Main.written, Main.delete.
        rewrite lookup_insert_ne by (by intros ?%get_path_inj).
        apply lookup_delete_ne. by intros ?%get_path_inj.
      * apply lookup_delete_ne. by intros ?%get_path_inj.
Qed.

(** ** Loading a saved configuration *)

Lemma load_config_strings (w : Main.MainWindow) (u k : str) :
  Main.load (Main.current_profile (Main.home_page w)) (Main.disk w)
    = Return (mk_config (VStr u) (VStr k)) →
  Main._load_config w
  = (Return (),
     if truthy u then
       Main.mk_window
         (Main.mk_home u
            (if truthy k then k else Main.key_entry (Main.home_page w))
            (Main.validation_label (Main.home_page w))
            (Main.loading (Main.home_page w))
            (Main.all_models (Main.home_page w))
            (Main.model_ids (Main.home_page w))
            (Main.model_cards (Main.home_page w))
            (Main.current_profile (Main.home_page w)))
         (Main.profiles_page w)
         (Main.info_bars w ++ [(py "info", py "已加载保存的配置")])
         (Main.disk w)
     else w).
Proof.
  intros Hl. unfold Main._load_config. run. cbn [id]. rewrite Hl.
  cbn [cfg_base_url cfg_api_key truth Main.as_text].
  destruct (truthy u); [|reflexivity].
  unfold Main._notify. run.
  destruct (truthy k); destruct w as [[] ? ? ?]; reflexivity.
Qed.

Lemma load_config_none (w : Main.MainWindow) :
  Main.load (Main.current_profile (Main.home_page w)) (Main.disk w)
    = Return (mk_config VNone VNone) →
  Main._load_config w = (Return (), w).
Proof.
  intros Hl. unfold Main._load_config. run. cbn [id]. by rewrite Hl.
Qed.

Lemma switch_profile_start (name : str) (w : Main.MainWindow) :
  Main.switch_profile name w
  = Main._load_config
      (Main.mk_window
         (Main.mk_home (Main.url_entry (Main.home_page w))
            (Main.key_entry (Main.home_page w))
            (Main.validation_label (Main.home_page w))
            (Main.loading (Main.home_page w)) [] [] [] name)
         (Main.profiles_page w) (Main.info_bars w) (Main.disk w)).
Proof.
  unfold Main.switch_profile, Main._clear_models. run.
  by destruct w as [[] ? ? ?].
Qed.

(** X16. [switch_profile] makes the profile the current one and shows no
    model. The entries take what the record of the profile has and keep
    the rest: with a URL and a key in the record both are shown; with a
    URL and an empty key the URL is shown and the key entry keeps the key
    it held; with no record, or a record with an empty URL, both entries
    keep what they held. The directory is not written. *)
Theorem switch_profile_keeps_what_the_record_lacks (name : str)
    (w : Main.MainWindow) :
  path_component name →
  (∀ u k,
     Main.load name (Main.disk w) = Return (mk_config (VStr u) (VStr k)) →
     ∃ w', Main.switch_profile name w = (Return (), w')
       ∧ Main.current_profile (Main.home_page w') = name
       ∧ Main.url_entry (Main.home_page w')
         = (if truthy u then u else Main.url_entry (Main.home_page w))
       ∧ Main.key_entry (Main.home_page w')
         = (if truthy u && truthy k then k
            else Main.key_entry (Main.home_page w))
       ∧ Main.all_models (Main.home_page w') = []
       ∧ Main.model_ids (Main.home_page w') = []
       ∧ Main.model_cards (Main.home_page w') = []
       ∧ Main.disk w' = Main.disk w)
  ∧ (Main.load name (Main.disk w) = Return (mk_config VNone VNone) →
     Main.switch_profile name w
     = (Return (),
        Main.mk_window
          (Main.mk_home (Main.url_entry (Main.home_page w))
             (Main.key_entry (Main.home_page w))
             (Main.validation_label (Main.home_page w))
             (Main.loading (Main.home_page w)) [] [] [] name)
          (Main.profiles_page w) (Main.info_bars w) (Main.disk w))).
Proof.
  intros _. split.
  - intros u k Hl. rewrite switch_profile_start.
    rewrite (load_config_strings _ u k) by exact Hl.
    eexists. split; [reflexivity|].
    destruct (truthy u), (truthy k); by split_and!.
  - intros Hl. rewrite switch_profile_start.
    by rewrite load_config_none by exact Hl.
Qed.

Lemma open_window_saved (now url : str) (key : str) (saved_at : str)
    (d : dir) :
  truthy url = true →
  Main.open_window now (Main.written (py "default") url (Some key) saved_at d)
  = (Return (),
     Main.mk_window
       (Main.mk_home url key None false [] [] [] (py "default"))
       (Main.mk_profiles []
          (Main.list_profiles
             (Main.written (py "default") url (Some key) saved_at d)))
       [(py "info", py "已加载保存的配置")]
       (Main.written (py "default") url (Some key) saved_at d)).
Proof.
  intros Hu. unfold Main.open_window.
  cbv beta iota delta [mbind action_bind].
  rewrite (load_config_strings _ url key)
    by (cbn [Main.home_page Main.current_profile Main.disk];
        apply main_written_load).
  rewrite Hu. rewrite refresh_list_run.
  cbn [snd Main.disk Main.home_page Main.profiles_page Main.info_bars
       Main.new_name Main.key_entry].
  assert (py "default" ∈ Main.list_profiles
            (Main.written (py "default") url (Some key) saved_at d)) as Hin.
  { apply list_profiles_record; [vm_compute; reflexivity|].
    unfold Main.written. rewrite lookup_insert_eq. by eexists. }
  destruct (Main.list_profiles _) eqn:Hl;
    [by apply not_elem_of_nil in Hin|].
  cbn [app]. by destruct key.
Qed.

Section Restart.
Context `{Host} (requests_get : get_fn) (now : str).

Lemma app_load_saved (tk_string : value → outcome str) (url key saved_at : str)
    (a0 : App.ModelFetcherApp) :
  truthy url = true →
  App.key_entry a0 = [] →
  App.disk a0 !! App.config_file
    = Some (Json (config_data url key saved_at)) →
  App._load_saved_config tk_string a0
  = (Return (),
     App.mk_app url key (App.validation_error a0) (App.is_loading a0)
       (App.model_ids a0) (py "已加载保存的配置", py "info") (App.disk a0)).
Proof.
  intros Hu Hk Hd.
  assert (App.load_config (App.disk a0)
          = Return (mk_config (VStr url) (VStr key))) as Hl
    by (unfold App.load_config; rewrite Hd; reflexivity).
  unfold App._load_saved_config. run. rewrite Hl.
  cbn [cfg_base_url cfg_api_key truth]. rewrite Hu.
  unfold App.set_url, App.set_api_key. run. cbn [App.insert_text].
  destruct a0 as [ue ke ve ld mi st dk]. cbn [App.key_entry] in Hk. subst ke.
  destruct key as [|c key]; reflexivity.
Qed.

End Restart.

(** X17. What a fetch saved comes back when the program is started again.
    In [main.py], after a fetch under the profile [default] that listed
    a model and whose save returned, a new window opens with the URL and
    the key of the entries, trimmed, and leaves the directory as it is.
    In [app.py] the saved configuration is loaded into the entries in
    the same way. *)
Theorem saved_inputs_return_on_restart `{Host} (requests_get : get_fn)
    (now later : str) :
  (∀ w result,
     Main.current_profile (Main.home_page w) = py "default" →
     Main.validate_url (strip (Main.url_entry (Main.home_page w)))
       = Return true →
     Main.fetch_models requests_get
       (Main.__init__ (strip (Main.url_entry (Main.home_page w)))
          (Some (strip (Main.key_entry (Main.home_page w)))))
       = Return result →
     lists_a_model result →
     (Main.save (py "default") (strip (Main.url_entry (Main.home_page w)))
        (Some (strip (Main.key_entry (Main.home_page w)))) now
        (Main.disk w)).1 = Return () →
     ∃ w',
       Main.open_window later
         (Main.disk (Main.fetch_invocation requests_get now w).2)
       = (Return (), w')
       ∧ Main.url_entry (Main.home_page w')
         = strip (Main.url_entry (Main.home_page w))
       ∧ Main.key_entry (Main.home_page w')
         = strip (Main.key_entry (Main.home_page w))
       ∧ Main.disk w'
         = Main.disk (Main.fetch_invocation requests_get now w).2)
  ∧ (∀ tk_string prompt a a0 result,
       App.validate_url (App.get_url a) = Return true →
       App.fetch_models requests_get
         (App.__init__ (App.get_url a) (Some (App.get_api_key a)))
         = Return result →
       lists_a_model result →
       (App.save_config (App.get_url a) (Some (App.get_api_key a)) now
          (App.disk a)).1 = Return () →
       App.key_entry a0 = [] →
       App.disk a0
         = App.disk (App.fetch_invocation requests_get now prompt a).2 →
       ∃ a',
         App._load_saved_config tk_string a0 = (Return (), a')
         ∧ App.url_entry a' = App.get_url a
         ∧ App.key_entry a' = App.get_api_key a
         ∧ App.disk a' = App.disk a0).
Proof.
  split.
  - intros w result Hcp Hv Hf Hl Hret.
    destruct (main_fetch_disk requests_get now w) as (_ & _ & _ & Hsave).
    specialize (Hsave Hv _ Hf Hl). unfold main_saved in Hsave.
    rewrite Hsave, Hcp.
    destruct (main_save_cases (py "default")
                (strip (Main.url_entry (Main.home_page w)))
                (Some (strip (Main.key_entry (Main.home_page w)))) now
                (Main.disk w))
      as [[_ Hs]|[(_ & _ & e & _ & Hs)|(_ & _ & Hs)]];
      rewrite Hs in Hret |- *; cbn [fst snd] in Hret |- *;
      try discriminate.
    assert (truthy (strip (Main.url_entry (Main.home_page w))) = true)
      as Hu.
    { apply main_valid_not_blank in Hv.
      destruct (strip (Main.url_entry (Main.home_page w))); [|done].
      by rewrite strip_nil in Hv. }
    rewrite (open_window_saved _ _ _ _ _ Hu). eexists.
    split; [reflexivity|]. by split_and!.
  - intros tk_string prompt a a0 result Hv Hf Hl Hret Hk Hd.
    destruct (app_fetch_disk requests_get now prompt a)
      as (_ & _ & _ & Hsave).
    specialize (Hsave Hv _ Hf Hl). unfold app_saved in Hsave.
    rewrite <- Hd in Hsave.
    assert (App.disk a0 !! App.config_file
            = Some (Json (config_data (App.get_url a) (App.get_api_key a)
                            now))) as Hfile.
    { rewrite Hsave.
      destruct (app_save_cases (App.get_url a) (Some (App.get_api_key a))
                  now (App.disk a))
        as [[_ Hs]|[(_ & _ & e & _ & Hs)|(_ & _ & Hs)]];
        rewrite Hs in Hret |- *; cbn [fst snd] in Hret |- *;
        try discriminate.
      unfold App.written. by rewrite lookup_insert_eq. }
    apply app_valid_not_blank in Hv.
    assert (truthy (App.get_url a) = true) as Hu.
    { unfold App.get_url in *.
      destruct (strip (App.url_entry a)); [|done].
      by rewrite strip_nil in Hv. }
    rewrite (app_load_saved tk_string _ _ _ _ Hu Hk Hfile).
    eexists. split; [reflexivity|]. by split_and!.
Qed.

(** X18. In [app.py], a key released in the URL entry while the entry is
    blank removes the saved configuration: [load_config] then returns
    [{base_url: None, api_key: None}]. While the entry holds a URL
    nothing changes. *)
Theorem emptying_the_url_entry_clears_the_configuration
    (a : App.ModelFetcherApp) :
  (truthy (App.get_url a) = true → App._on_url_change a = (Return (), a))
  ∧ (truthy (App.get_url a) = false →
     App._on_url_change a
     = (Return (),
        App.set_disk (base.delete App.config_file (App.disk a)) a)
     ∧ App.load_config (base.delete App.config_file (App.disk a))
       = Return (mk_config VNone VNone)).
Proof.
  unfold App._on_url_change. run. split; intros ->; cbn [negb].
  - reflexivity.
  - split.
    + unfold App._clear_config, try_action, App.clear_config. run.
      destruct (App.disk a !! App.config_file) as [f|] eqn:Hd;
        cbn [try_except]; [reflexivity|].
      by rewrite delete_id.
    + unfold App.load_config. by rewrite lookup_delete_eq.
Qed.

(** ** The search box and the export *)

Section SearchBox.
Variable unicode_lower : str → str.

Lemma matching_strings (text : str) (names : list str) :
  Main.matching unicode_lower text (VStr <$> names)
  = Return (VStr <$> List.filter
              (λ n, occurs_in text (Main.str_lower unicode_lower n)) names).
Proof.
  induction names as [|n names IH]; [done|].
  cbn [fmap list_fmap Main.matching Main.lower_of mbind outcome_bind
       List.filter] in *.
  rewrite IH. cbn [mbind outcome_bind].
  by destruct (occurs_in text _).
Qed.

Lemma matching_bad (text : str) (names : list str) (bad : value)
    (rest : list value) :
  (∀ s, bad ≠ VStr s) →
  Main.matching unicode_lower text ((VStr <$> names) ++ bad :: rest)
  = raise AttributeError
      (py "'" ++ type_name bad ++ py "' object has no attribute 'lower'").
Proof.
  intros Hbad. induction names as [|n names IH].
  - cbn [fmap list_fmap app Main.matching].
    destruct bad; try reflexivity. by destruct (Hbad s).
  - cbn [fmap list_fmap app Main.matching Main.lower_of mbind outcome_bind]
      in *.
    by rewrite IH.
Qed.

Lemma filter_models_run (text : str) (w : Main.MainWindow)
    (filtered : list value) :
  (if truthy (strip (Main.str_lower unicode_lower text))
   then Main.matching unicode_lower
          (strip (Main.str_lower unicode_lower text))
          (Main.all_models (Main.home_page w))
   else Return (Main.all_models (Main.home_page w))) = Return filtered →
  Main._filter_models unicode_lower text w
  = (Return (),
     Main.mk_window
       (Main.mk_home (Main.url_entry (Main.home_page w))
          (Main.key_entry (Main.home_page w))
          (Main.validation_label (Main.home_page w))
          (Main.loading (Main.home_page w))
          (Main.all_models (Main.home_page w))
          filtered filtered
          (Main.current_profile (Main.home_page w)))
       (Main.profiles_page w) (Main.info_bars w) (Main.disk w)).
Proof.
  intros Hf. unfold Main._filter_models, Main._clear_model_cards.
  cbv zeta. run. main_fields. rewrite Hf. rewrite main_add_cards. run.
  main_fields. reflexivity.
Qed.

End SearchBox.

Lemma join_from_strings (i : nat) (names : list str) :
  Main.join_from i (VStr <$> names) = Return names.
Proof.
  revert i. induction names as [|n names IH]; intros i; [done|].
  cbn [fmap list_fmap Main.join_from]. by rewrite IH.
Qed.

Lemma join_from_bad (i : nat) (names : list str) (bad : value)
    (rest : list value) :
  (∀ s, bad ≠ VStr s) →
  Main.join_from i ((VStr <$> names) ++ bad :: rest)
  = raise TypeError
      (py "sequence item " ++ str_of_Z (Z.of_nat (i + length names))
       ++ py ": expected str instance, " ++ type_name bad ++ py " found").
Proof.
  intros Hbad. revert i. induction names as [|n names IH]; intros i.
  - cbn [fmap list_fmap app Main.join_from length]. rewrite Nat.add_0_r.
    destruct bad; try reflexivity. by destruct (Hbad s).
  - cbn [fmap list_fmap app Main.join_from length]. rewrite IH.
    by rewrite Nat.add_succ_r.
Qed.

(** Splitting what [join] made of lines gives back the lines. *)
Lemma split_join_lines (names : list str) :
  names ≠ [] →
  Forall (λ n, char_in 10%N n = false) names →
  split 10%N (join [10%N] names) = names.
Proof.
  induction names as [|n names IH]; [done|]. intros _ Hall.
  apply Forall_cons in Hall as [Hn Hall].
  destruct names as [|m names].
  - cbn [join]. by apply split_none.
  - rewrite join_cons by done. cbn [app].
    rewrite split_app by done. by rewrite IH.
Qed.

(** X19. [_filter_models] shows the models whose id, lowered, holds the
    text of the search box, lowered and trimmed, in the order of the
    full list; a blank text shows the full list. The full list itself,
    the entries and the directory are left as they are. An id that is
    not a string stops a search for a text that is not blank with an
    [AttributeError], after the models shown have been taken down. *)
Theorem filter_models_shows_the_matching_models
    (unicode_lower : str → str) (text : str) (w : Main.MainWindow) :
  (∀ names,
     Main.all_models (Main.home_page w) = VStr <$> names →
     truthy (needle unicode_lower text) = true →
     Main._filter_models unicode_lower text w
     = (Return (),
        showing
          (VStr <$> List.filter
             (λ n, occurs_in (needle unicode_lower text)
                     (Main.str_lower unicode_lower n)) names) w))
  ∧ (truthy (needle unicode_lower text) = false →
     Main._filter_models unicode_lower text w
     = (Return (), showing (Main.all_models (Main.home_page w)) w))
  ∧ (∀ names bad rest,
       Main.all_models (Main.home_page w)
         = (VStr <$> names) ++ bad :: rest →
       (∀ s, bad ≠ VStr s) →
       truthy (needle unicode_lower text) = true →
       Main._filter_models unicode_lower text w
       = (raise AttributeError
            (py "'" ++ type_name bad
             ++ py "' object has no attribute 'lower'"),
          Main.on_home (Main.set_model_cards []) w)).
Proof.
  unfold needle, showing. split_and!.
  - intros names Hall Ht.
    rewrite (filter_models_run unicode_lower text w
               (VStr <$> List.filter
                  (λ n, occurs_in (strip (Main.str_lower unicode_lower text))
                          (Main.str_lower unicode_lower n)) names)).
    + main_fields. reflexivity.
    + by rewrite Ht, Hall, matching_strings.
  - intros Ht.
    rewrite (filter_models_run unicode_lower text w
               (Main.all_models (Main.home_page w))).
    + main_fields. reflexivity.
    + by rewrite Ht.
  - intros names bad rest Hall Hbad Ht.
    unfold Main._filter_models, Main._clear_model_cards.
    cbv zeta. run. main_fields. rewrite Ht, Hall.
    by rewrite (matching_bad unicode_lower _ _ _ _ Hbad).
Qed.

(** X20. [_export] writes one file, named after the time, with the ids
    shown joined by line breaks, and reports what became of the write;
    split at the line breaks the file gives back the ids, as long as no
    id holds a line break. With no model shown it writes nothing and
    warns; with an id that is not a string it writes nothing and reports
    the [TypeError] of the join. It never raises. *)
Theorem export_writes_the_ids_shown (write_text : str → str → outcome ())
    (stamp : str) (w : Main.MainWindow) :
  (Main.model_ids (Main.home_page w) = [] →
   Main._export write_text stamp w
   = (Return (), Main.info_bar (py "warning") (py "没有可导出的模型") w))
  ∧ (∀ names,
       names ≠ [] →
       Main.model_ids (Main.home_page w) = VStr <$> names →
       Main._export write_text stamp w
       = (Return (),
          match write_text (export_file stamp) (join [10%N] names) with
          | Return _ =>
            Main.info_bar (py "success")
              (py "已导出到 " ++ export_file stamp) w
          | Raise e => Main.info_bar (py "error") (text e) w
          end)
       ∧ (Forall (λ n, char_in 10%N n = false) names →
          split 10%N (join [10%N] names) = names))
  ∧ (∀ names bad rest,
       Main.model_ids (Main.home_page w) = (VStr <$> names) ++ bad :: rest →
       (∀ s, bad ≠ VStr s) →
       Main._export write_text stamp w
       = (Return (),
          Main.info_bar (py "error")
            (py "sequence item " ++ str_of_Z (Z.of_nat (length names))
             ++ py ": expected str instance, " ++ type_name bad
             ++ py " found") w)).
Proof.
  unfold export_file. split_and!.
  - intros Hids. unfold Main._export, Main._notify. run. by rewrite Hids.
  - intros names Hne Hids. split; [|by apply split_join_lines].
    unfold Main._export, Main._notify, try_action, Main.join_values. run.
    rewrite Hids.
    replace (negb match VStr <$> names with
                  | [] => false
                  | _ :: _ => true
                  end) with false by (by destruct names).
    rewrite join_from_strings. cbn [mbind outcome_bind].
    destruct (write_text _ _) as [[]|e]; [reflexivity|].
    cbn [List.find fst existsb]. rewrite isinstance_Exception.
    reflexivity.
  - intros names bad rest Hids Hbad.
    unfold Main._export, Main._notify, try_action, Main.join_values. run.
    rewrite Hids.
    replace (negb match (VStr <$> names) ++ bad :: rest with
                  | [] => false
                  | _ :: _ => true
                  end) with false by (by destruct names).
    rewrite (join_from_bad 0 _ _ _ Hbad). unfold raise.
    cbn [mbind outcome_bind List.find fst existsb].
    rewrite isinstance_Exception. reflexivity.
Qed.

(** ** A base URL with a query *)

Lemma find_skip (c : N) (a b : str) :
  char_in c a = false →
  find c (a ++ b) = (λ i, length a + i) <$> find c b.
Proof.
  unfold char_in. induction a as [|x a IH]; cbn [existsb find app length].
  - intros _. by destruct (find c b).
  - intros [Hx Ha]%orb_false_iff. rewrite N.eqb_sym, Hx, (IH Ha).
    by destruct (find c b).
Qed.

Lemma query_char_facts (q : str) :
  forallb query_char q = true →
  forallb (λ c, (32 <? c)%N) q = true ∧ char_in (chr "#") q = false
  ∧ forallb (λ c, negb (isspace c)) q = true.
Proof.
  intros Hq. split_and!.
  - induction q as [|x l IH]; [done|]. cbn [forallb] in *.
    apply andb_true_iff in Hq as [Hx Hl]. rewrite (IH Hl), andb_true_r.
    unfold query_char in Hx. by destruct (32 <? x)%N.
  - apply (char_in_false _ _ _ Hq). vm_compute. reflexivity.
  - induction q as [|x l IH]; [done|]. cbn [forallb] in *.
    apply andb_true_iff in Hq as [Hx Hl]. rewrite (IH Hl), andb_true_r.
    unfold query_char in Hx.
    apply andb_true_iff in Hx as [[H1 H2]%andb_true_iff _].
    by rewrite printable_not_space.
Qed.

(** What [rstrip] leaves is the front of the string. *)
Lemma lstrip_by_suffix (p : N → bool) (s : str) :
  ∃ t, s = t ++ lstrip_by p s.
Proof.
  induction s as [|c s [t IH]]; [by exists []|]. cbn [lstrip_by].
  destruct (p c).
  - exists (c :: t). cbn [app]. by rewrite <- IH.
  - by exists [].
Qed.

Lemma rstrip_by_prefix (p : N → bool) (s : str) :
  ∃ t, s = rstrip_by p s ++ t.
Proof.
  unfold rstrip_by. destruct (lstrip_by_suffix p (rev s)) as [t Ht].
  exists (rev t). rewrite <- rev_app_distr, <- Ht. by rewrite rev_involutive.
Qed.

Lemma lstrip_by_snoc (p : N → bool) (s : str) (c : N) :
  p c = false → lstrip_by p (s ++ [c]) = lstrip_by p s ++ [c].
Proof.
  intros Hc. induction s as [|x s IH]; cbn [app lstrip_by].
  - by rewrite Hc.
  - by destruct (p x).
Qed.

Lemma rstrip_by_cons (p : N → bool) (c : N) (s : str) :
  p c = false → rstrip_by p (c :: s) = c :: rstrip_by p s.
Proof.
  intros Hc. unfold rstrip_by. cbn [rev].
  rewrite (lstrip_by_snoc _ _ _ Hc), rev_app_distr. reflexivity.
Qed.

Lemma rstrip_by_app_keep (p : N → bool) (a : str) (c : N) (s : str) :
  p c = false → rstrip_by p (a ++ c :: s) = a ++ c :: rstrip_by p s.
Proof.
  intros Hc. unfold rstrip_by. rewrite rev_app_distr. cbn [rev].
  rewrite <- app_assoc. cbn [app].
  change (rev s ++ c :: rev a) with (rev s ++ [c] ++ rev a).
  rewrite app_assoc.
  assert (∀ l t, lstrip_by p ((l ++ [c]) ++ t) = lstrip_by p l ++ [c] ++ t)
    as Hl.
  { intros l t. induction l as [|x l IH]; cbn [app lstrip_by].
    - by rewrite Hc.
    - destruct (p x); [exact IH|]. by rewrite <- app_assoc. }
  rewrite Hl, !rev_app_distr, rev_involutive. cbn [rev app].
  by rewrite <- app_assoc.
Qed.

Lemma split_path_of (segs : list str) :
  forallb plain_segment segs = true →
  split (chr "/") (path_of segs) = [] :: segs.
Proof.
  intros Hsegs. unfold path_of. change (py "/") with [chr "/"].
  destruct segs as [|s segs]; [reflexivity|].
  cbn [fmap list_fmap concat app split]. rewrite N.eqb_refl. f_equal.
  revert s Hsegs. induction segs as [|t segs IH]; intros s Hsegs.
  - cbn [fmap list_fmap concat]. rewrite app_nil_r. apply split_none.
    cbn [forallb] in Hsegs. apply andb_true_iff in Hsegs as [Hs _].
    destruct (plain_segment_facts _ Hs) as (_ & Hc & _).
    by destruct (segment_char_facts _ Hc) as (_ & ? & _).
  - cbn [forallb] in Hsegs. apply andb_true_iff in Hsegs as [Hs Hsegs].
    destruct (plain_segment_facts _ Hs) as (_ & Hc & _).
    destruct (segment_char_facts _ Hc) as (_ & S2 & _).
    cbn [fmap list_fmap concat app]. rewrite (split_app _ _ _ S2).
    f_equal. by apply IH.
Qed.

Lemma plain_segments_facts (segs : list str) :
  forallb plain_segment segs = true →
  List.filter truthy segs = segs
  ∧ (∀ acc, fold_left UrlLib.resolve_step segs acc = acc ++ segs).
Proof.
  intros Hsegs. by destruct (slash_after_facts _ Hsegs) as (_&_&_&_&_&?&?).
Qed.

Lemma forallb_removelast {A} (f : A → bool) (l : list A) :
  forallb f l = true → forallb f (removelast l) = true.
Proof.
  destruct l as [|x l _] using rev_ind; [done|].
  rewrite removelast_last, forallb_app. by intros [? _]%andb_true_iff.
Qed.

Lemma last_plain (segs : list str) :
  forallb plain_segment segs = true →
  truthy (List.last ([] :: segs) []) = bool_decide (segs ≠ []).
Proof.
  destruct segs as [|s segs _] using rev_ind; [done|]. intros Hs.
  change ([] :: segs ++ [s]) with (([] :: segs) ++ [s]). rewrite last_last.
  rewrite forallb_app in Hs. apply andb_true_iff in Hs as [_ Hs].
  cbn [forallb] in Hs. rewrite andb_true_r in Hs.
  destruct (plain_segment_facts _ Hs) as (-> & _).
  symmetry. apply bool_decide_eq_true. by destruct segs.
Qed.

Section Query.
Context `{Host}.

Lemma splitnetloc_host_query (host p q : str) :
  char_in (chr "/") host = false →
  char_in (chr "?") host = false →
  char_in (chr "#") host = false →
  (p = [] ∨ ∃ p', p = chr "/" :: p') →
  char_in (chr "?") p = false →
  char_in (chr "#") p = false →
  char_in (chr "#") q = false →
  UrlLib._splitnetloc ([chr "/"; chr "/"] ++ host ++ p ++ chr "?" :: q) 2
  = (host, p ++ chr "?" :: q).
Proof.
  intros Hh1 Hh2 Hh3 Hp Hp2 Hp3 Hq. unfold UrlLib._splitnetloc.
  change (py "/?#") with [chr "/"; chr "?"; chr "#"]. cbn [fold_left].
  rewrite !(find_from_app _ [chr "/"; chr "/"]
              (host ++ p ++ chr "?" :: q)).
  rewrite (find_none (chr "#"))
    by (rewrite !char_in_app, Hh3, Hp3; cbn [char_in existsb];
        by rewrite orb_false_l).
  rewrite (find_skip (chr "?") host) by done.
  rewrite (find_app (chr "?") p q) by done.
  rewrite (find_skip (chr "/") host) by done.
  cbn [fmap option_fmap option_map length].
  assert (drop 2 (take (2 + length host)
                         ([chr "/"; chr "/"] ++ host ++ p ++ chr "?" :: q))
               = host
             ∧ drop (2 + length host)
                 ([chr "/"; chr "/"] ++ host ++ p ++ chr "?" :: q)
               = p ++ chr "?" :: q) as Hcut.
  { change (2 + length host)
      with (length ([chr "/"; chr "/"] ++ host)) at 1 2.
    rewrite (app_assoc _ host), take_app_length, drop_app_length.
    done. }
  assert (∃ k, find (chr "/") (p ++ chr "?" :: q) = k
            ∧ match k with Some i => p = [] → i ≠ 0 | None => True end
            ∧ (p ≠ [] → k = Some 0)) as (k & -> & Hk0 & Hk1).
  { eexists. split; [reflexivity|]. destruct Hp as [-> | [p' ->]].
    - split; [|done]. cbn [app find].
      change (chr "?" =? chr "/")%N with false. cbv iota.
      by destruct (find (chr "/") q).
    - cbn [app find]. rewrite N.eqb_refl. split; [|done]. done. }
  match goal with
  | |- (drop 2 (take ?D ?L), _) = _ =>
    assert (D = 2 + length host) as ->
  end.
  { rewrite !length_app. cbn [length].
    destruct k as [i|]; cbn [fmap option_fmap option_map].
    - destruct p as [|c p'].
      + specialize (Hk0 eq_refl). cbn [length]. lia.
      + specialize (Hk1 ltac:(done)). injection Hk1 as ->. cbn [length]. lia.
    - destruct p as [|c p']; [cbn [length]; lia|].
      by specialize (Hk1 ltac:(done)). }
  by destruct Hcut as [-> ->].
Qed.


Lemma urlsplit_absolute_query (sch host p q dflt : str) :
  scheme_like sch = true →
  forallb host_char host = true →
  (p = [] ∨ ∃ p', p = chr "/" :: p') →
  forallb (λ c, (32 <? c)%N) p = true →
  char_in (chr "?") p = false →
  char_in (chr "#") p = false →
  forallb (λ c, (32 <? c)%N) q = true →
  char_in (chr "#") q = false →
  UrlLib.urlsplit (sch ++ py "://" ++ host ++ p ++ chr "?" :: q) dflt
  = Return (UrlLib.mk_parse sch host p [] q []).
Proof.
  intros (c0 & r & -> & Hc0 & Hchars & Hlow & Hcolon & Hsp)%scheme_like_facts
    (Hhsp & Hhascii & Hh1 & Hh2 & Hh3 & Hh4 & Hh5)%host_char_facts
    Hp Hpsp Hp2 Hp3 Hqsp Hq3.
  change (py "://" ++ host ++ p ++ chr "?" :: q)
    with (chr ":" :: [chr "/"; chr "/"] ++ host ++ p ++ chr "?" :: q).
  assert (forallb (λ c, (32 <? c)%N)
            ((c0 :: r) ++ chr ":" :: [chr "/"; chr "/"] ++ host ++ p
             ++ chr "?" :: q) = true)
    as Hall.
  { rewrite forallb_app, Hsp. cbn [forallb andb app].
    rewrite !forallb_app, Hhsp, Hpsp. cbn [forallb andb]. exact Hqsp. }
  unfold UrlLib.urlsplit.
  assert (c0_ok : UrlLib.c0_control_or_space c0 = false).
  { cbn [forallb] in Hsp. apply andb_true_iff in Hsp as [Hsp _].
    unfold UrlLib.c0_control_or_space. apply N.ltb_lt in Hsp.
    apply N.leb_gt. done. }
  set (rest := [chr "/"; chr "/"] ++ host ++ p ++ chr "?" :: q) in *.
  rewrite (lstrip_by_id _ c0 (r ++ chr ":" :: rest) c0_ok
           : lstrip_by _ ((c0 :: r) ++ chr ":" :: rest) = _).
  change (c0 :: (r ++ chr ":" :: rest)) with ((c0 :: r) ++ chr ":" :: rest).
  rewrite (remove_unsafe_id _ Hall).
  rewrite (find_app _ _ _ Hcolon).
  cbn [length]. change (S (length r)) with (length (c0 :: r)).
  change ((c0 :: r) ++ chr ":" :: rest) with (c0 :: (r ++ chr ":" :: rest))
    at 1.
  cbv iota beta.
  rewrite take_app_length, Hc0, Hchars, Hlow. cbn [andb].
  rewrite drop_S_app. subst rest.
  change (take 2 ([chr "/"; chr "/"] ++ host ++ p ++ chr "?" :: q))
    with [chr "/"; chr "/"].
  change (str_eqb [chr "/"; chr "/"] (py "//")) with true. cbv iota.
  rewrite (splitnetloc_host_query _ _ _ Hh1 Hh2 Hh3 Hp Hp2 Hp3 Hq3).
  cbv beta iota zeta. rewrite Hh4, Hh5.
  cbn [andb orb negb mbind outcome_bind].
  assert (char_in (chr "#") (p ++ chr "?" :: q) = false) as ->.
  { rewrite char_in_app, Hp3. cbn [char_in existsb orb].
    change (chr "#" =? chr "?")%N with false. exact Hq3. }
  assert (char_in (chr "?") (p ++ chr "?" :: q) = true) as ->.
  { rewrite char_in_app. cbn [char_in existsb]. rewrite N.eqb_refl.
    by rewrite orb_true_r. }
  unfold split_once. rewrite (find_app _ _ _ Hp2).
  rewrite take_app_length, drop_S_app.
  unfold UrlLib._checknetloc. rewrite Hhascii, orb_true_r.
  reflexivity.
Qed.

Lemma urlparse_absolute_query (sch host p q dflt : str) :
  scheme_like sch = true →
  forallb host_char host = true →
  (p = [] ∨ ∃ p', p = chr "/" :: p') →
  forallb (λ c, (32 <? c)%N) p = true →
  char_in (chr "?") p = false →
  char_in (chr "#") p = false →
  char_in (chr ";") p = false →
  forallb (λ c, (32 <? c)%N) q = true →
  char_in (chr "#") q = false →
  UrlLib.urlparse (sch ++ py "://" ++ host ++ p ++ chr "?" :: q) dflt
  = Return (UrlLib.mk_parse sch host p [] q []).
Proof.
  intros Hsch Hhost Hp Hpsp Hp2 Hp3 Hp4 Hq Hq3. unfold UrlLib.urlparse.
  rewrite urlsplit_absolute_query by done.
  cbn [mbind outcome_bind UrlLib.path].
  by rewrite Hp4, andb_false_r.
Qed.

(** [urljoin] resolves [models] against the path of the base and keeps
    nothing of its query: the last segment of a path that does not end
    in a slash is replaced. *)
Lemma urljoin_models_query (sch host : str) (segs : list str) (q : str) :
  well_formed_base sch host segs →
  forallb (λ c, (32 <? c)%N) q = true →
  char_in (chr "#") q = false →
  UrlLib.urljoin (base_of sch host segs ++ chr "?" :: q) (py "models")
  = Return (base_of sch host (removelast segs ++ [py "models"])).
Proof.
  intros (Hsch & Hhost & Hhc & Hsegs) Hq Hq3.
  destruct (scheme_facts _ Hsch) as (Hlike & Hst & Hrel & Hnet).
  destruct (path_of_facts _ Hsegs) as (P0 & P1 & P2 & P3 & P4).
  pose proof (forallb_removelast _ _ Hsegs) as Hinit.
  destruct (plain_segments_facts _ Hinit) as (F1 & F2).
  unfold base_of. rewrite <- !app_assoc.
  unfold UrlLib.urljoin.
  rewrite (truthy_app _ _ Hst). change (truthy (py "models")) with true.
  cbn [negb].
  rewrite urlparse_absolute_query by done.
  cbn [mbind outcome_bind UrlLib.scheme]. rewrite (urlparse_models _ Hsch).
  cbn [mbind outcome_bind UrlLib.scheme UrlLib.netloc UrlLib.path
       UrlLib.params UrlLib.query UrlLib.fragment].
  unfold str_eqb at 1. rewrite bool_decide_eq_true_2 by done.
  rewrite Hrel, Hnet. cbn [negb orb andb truthy].
  change (truthy (py "models")) with true. cbn [negb andb].
  rewrite (split_path_of _ Hsegs), (last_plain _ Hsegs).
  change (split (chr "/") (py "models")) with [py "models"].
  change (str_eqb (take 1 (py "models")) (py "/")) with false.
  cbv iota.
  assert ((if bool_decide (segs ≠ []) then removelast ([] :: segs)
           else [] :: segs) = [] :: removelast segs) as ->.
  { destruct segs as [|s segs]; [reflexivity|].
    rewrite bool_decide_eq_true_2 by done. reflexivity. }
  assert (UrlLib.drop_empty_middle
            (([] :: removelast segs) ++ [py "models"])
          = [] :: (removelast segs ++ [py "models"])) as ->.
  { unfold UrlLib.drop_empty_middle. cbn [app].
    destruct (removelast segs ++ [py "models"]) as [|x l] eqn:E.
    { by destruct (removelast segs). }
    rewrite <- E. rewrite removelast_last, last_last, F1. reflexivity. }
  assert (List.last ([] :: removelast segs ++ [py "models"]) []
          = py "models") as ->.
  { change ([] :: removelast segs ++ [py "models"])
      with (([] :: removelast segs) ++ [py "models"]).
    apply last_last. }
  change (str_in (py "models") [py "."; py ".."]) with false. cbv iota.
  assert (UrlLib.resolve ([] :: removelast segs ++ [py "models"])
          = [] :: (removelast segs ++ [py "models"])) as ->.
  { unfold UrlLib.resolve. cbn [fold_left].
    change (UrlLib.resolve_step [] []) with [@nil N].
    rewrite fold_left_app, F2. cbn [fold_left].
    change (UrlLib.resolve_step ([[]] ++ removelast segs) (py "models"))
      with (([[]] ++ removelast segs) ++ [py "models"]).
    by rewrite <- app_assoc. }
  change (py "/") with [chr "/"].
  rewrite join_cons by (by destruct (removelast segs)).
  rewrite join_slash_after. cbn [app truthy].
  unfold UrlLib.urlunparse, UrlLib.urlunsplit.
  cbn [UrlLib.scheme UrlLib.netloc UrlLib.path UrlLib.params UrlLib.query
       UrlLib.fragment truthy].
  rewrite Hhost, Hst. cbn [orb andb negb take]. rewrite take_0.
  change (str_eqb [chr "/"] (py "/")) with true. cbn [negb].
  f_equal. rewrite path_of_snoc.
  change (py "/" ++ py "models") with (py "/models").
  rewrite path_of_slash_models. reflexivity.
Qed.

End Query.

Lemma rstrip_by_none (p : N → bool) (s : str) :
  forallb (λ c, negb (p c)) s = true → rstrip_by p s = s.
Proof.
  induction s as [|c s IH]; [done|]. cbn [forallb].
  intros [Hc Hs]%andb_true_iff. apply negb_true_iff in Hc.
  by rewrite (rstrip_by_cons _ _ _ Hc), (IH Hs).
Qed.

Lemma strip_base_query (sch host : str) (segs : list str) (q : str) :
  well_formed_base sch host segs →
  forallb query_char q = true →
  strip (base_of sch host segs ++ chr "?" :: q)
  = base_of sch host segs ++ chr "?" :: q.
Proof.
  intros Hwf Hq. destruct (query_char_facts _ Hq) as (_ & _ & Hns).
  unfold strip. rewrite lstrip_by_keeps.
  - rewrite rstrip_by_app_keep by reflexivity.
    by rewrite (rstrip_by_none _ _ Hns).
  - destruct Hwf as (Hsch & _). unfold base_of.
    apply list_elem_of_In in Hsch.
    destruct Hsch as [<-|[<-|[]]]; vm_compute; reflexivity.
Qed.

Section QueryTarget.
Context `{Host}.

Lemma valid_url_query (sch host : str) (segs : list str) (q : str) :
  well_formed_base sch host segs →
  forallb query_char q = true →
  valid_url (base_of sch host segs ++ chr "?" :: q).
Proof.
  intros Hwf Hq. unfold valid_url. rewrite (strip_base_query _ _ _ _ Hwf Hq).
  destruct (query_char_facts _ Hq) as (Hq1 & Hq2 & _).
  destruct Hwf as (Hsch & Hhost & Hhc & Hsegs).
  destruct (scheme_facts _ Hsch) as (Hlike & _).
  destruct (path_of_facts _ Hsegs) as (P0 & P1 & P2 & P3 & P4).
  eexists. split.
  - unfold base_of. rewrite <- !app_assoc.
    by apply urlparse_absolute_query.
  - cbn [UrlLib.scheme UrlLib.netloc]. split; [|by destruct host].
    apply list_elem_of_In in Hsch. destruct Hsch as [<-|[<-|[]]]; auto.
Qed.

Lemma endpoint_query (sch host : str) (segs : list str) (q : str) :
  well_formed_base sch host segs →
  forallb query_char q = true →
  UrlLib.urljoin
    (rstrip (py "/") (base_of sch host segs ++ chr "?" :: q) ++ py "/")
    (py "models")
  = Return (base_of sch host (removelast segs ++ [py "models"])).
Proof.
  intros Hwf Hq. destruct (query_char_facts _ Hq) as (Hq1 & Hq2 & _).
  unfold rstrip. rewrite rstrip_by_app_keep by reflexivity.
  rewrite <- app_assoc. cbn [app].
  destruct (rstrip_by_prefix (λ c, char_in c (py "/")) q) as [t Ht].
  rewrite Ht in Hq1, Hq2.
  rewrite forallb_app in Hq1. apply andb_true_iff in Hq1 as [Hq1 _].
  rewrite char_in_app in Hq2. apply orb_false_iff in Hq2 as [Hq2 _].
  apply (urljoin_models_query _ _ _ _ Hwf).
  - rewrite forallb_app, Hq1. reflexivity.
  - rewrite char_in_app, Hq2. reflexivity.
Qed.

End QueryTarget.

(** X21. A base URL with a query is accepted by the validator, and the
    target built from it is not the base path followed by [models]: the
    slash is added after the query, so [urljoin] replaces the last
    segment of the path by [models] and drops the query. For a base made
    of the scheme [http] or [https], a host, path segments and a query,
    the target has the segments but the last, then [models]; with one
    segment, the version, the target is [models] at the root of the
    host. Both variants. *)
Theorem base_url_with_query_loses_its_last_segment `{Host}
    (scheme host : str) (segments : list str) (query : str) :
  well_formed_base scheme host segments →
  forallb query_char query = true →
  App.validate_url (base_of scheme host segments ++ py "?" ++ query)
    = Return true
  ∧ Main.validate_url (base_of scheme host segments ++ py "?" ++ query)
    = Return true
  ∧ (∀ api_key,
       App.endpoint_of
         (App.__init__ (base_of scheme host segments ++ py "?" ++ query)
            api_key)
       = Return (base_of scheme host (removelast segments ++ [py "models"]))
       ∧ Main.endpoint_of
           (Main.__init__ (base_of scheme host segments ++ py "?" ++ query)
              api_key)
         = Return
             (base_of scheme host (removelast segments ++ [py "models"]))).
Proof.
  intros Hwf Hq. change (py "?" ++ query) with (chr "?" :: query).
  pose proof (valid_url_query _ _ _ _ Hwf Hq) as Hvalid.
  split_and!.
  - by apply (validator_contract_of _ app_validate_url_eq).
  - by apply (validator_contract_of _ main_validate_url_eq).
  - intros api_key.
    unfold App.endpoint_of, Main.endpoint_of, App.__init__, Main.__init__.
    cbn [App.base_url Main.base_url].
    rewrite (strip_base_query _ _ _ _ Hwf Hq).
    split; by apply endpoint_query.
Qed.

(** ** A fetch that succeeds *)

Section Listed.
Context `{Host} (requests_get : get_fn) (now : str).

Lemma main_fetch_listed (w : Main.MainWindow) (fields : list (str * value))
    (objs : list (list (str * value))) :
  Main.validate_url (strip (Main.url_entry (Main.home_page w)))
    = Return true →
  Main.fetch_models requests_get
    (Main.__init__ (strip (Main.url_entry (Main.home_page w)))
       (Some (strip (Main.key_entry (Main.home_page w)))))
    = Return (VDict fields) →
  lookup_key (py "data") fields = Some (VList (VDict <$> objs)) →
  Main.fetch_invocation requests_get now w
  = (match objs with
     | [] => Return ()
     | _ :: _ =>
       (Main.save (Main.current_profile (Main.home_page w))
          (strip (Main.url_entry (Main.home_page w)))
          (Some (strip (Main.key_entry (Main.home_page w)))) now
          (Main.disk w)).1
     end,
     Main.mk_window
       (Main.mk_home (Main.url_entry (Main.home_page w))
          (Main.key_entry (Main.home_page w)) None false
          (model_id_of <$> objs) (model_id_of <$> objs)
          (model_id_of <$> objs)
          (Main.current_profile (Main.home_page w)))
       (Main.profiles_page w)
       (Main.info_bars w
        ++ [(py "info", py "正在获取模型列表...");
            match objs with
            | [] => (py "warning", py "未找到任何模型")
            | _ :: _ =>
              (py "success",
               py "成功获取 " ++ str_of_Z (Z.of_nat (length objs))
               ++ py " 个模型")
            end])
       match objs with
       | [] => Main.disk w
       | _ :: _ =>
         (Main.save (Main.current_profile (Main.home_page w))
            (strip (Main.url_entry (Main.home_page w)))
            (Some (strip (Main.key_entry (Main.home_page w)))) now
            (Main.disk w)).2
       end).
Proof.
  intros Hv Hf Hdata. unfold Main.fetch_invocation.
  cbv beta iota delta [mbind action_bind].
  rewrite (main_fetch_started _ Hv). run. unfold Main.worker.
  main_fields. rewrite Hf. cbn [Main.deliver].
  destruct objs as [|o objs].
  - rewrite (main_on_success_empty _ _ _ Hdata). main_fields.
    by rewrite <- app_assoc.
  - rewrite (main_on_success_run _ _ _ _ Hdata) by done.
    cbv zeta. main_fields. cbn [app]. by rewrite <- app_assoc.
Qed.

Lemma app_fetch_listed (prompt : bool) (a : App.ModelFetcherApp)
    (fields : list (str * value)) (objs : list (list (str * value))) :
  App.validate_url (App.get_url a) = Return true →
  App.fetch_models requests_get
    (App.__init__ (App.get_url a) (Some (App.get_api_key a)))
    = Return (VDict fields) →
  lookup_key (py "data") fields = Some (VList (VDict <$> objs)) →
  App.fetch_invocation requests_get now prompt a
  = (Return (),
     App.mk_app (App.url_entry a) (App.key_entry a) None false
       (model_id_of <$> objs)
       match objs with
       | [] => (py "未找到任何模型", py "warning")
       | _ :: _ =>
         (py "成功获取 " ++ str_of_Z (Z.of_nat (length objs))
          ++ py " 个模型", py "success")
       end
       match objs with
       | [] => App.disk a
       | _ :: _ =>
         (App.save_config (App.get_url a) (Some (App.get_api_key a)) now
            (App.disk a)).2
       end).
Proof.
  intros Hv Hf Hdata. unfold App.fetch_invocation.
  cbv beta iota delta [mbind action_bind].
  rewrite (app_fetch_started _ Hv). cbv beta iota. unfold App.worker.
  rewrite Hf. cbn [App.deliver].
  destruct objs as [|o objs].
  - rewrite (app_on_fetch_success_empty _ _ _ Hdata). reflexivity.
  - rewrite (app_on_fetch_success_run _ _ _ _ Hdata) by done.
    app_fields. unfold App.get_url, App.get_api_key. app_fields.
    reflexivity.
Qed.

End Listed.

(** X22. What a fetch that succeeds shows. The click clears the list and
    the handler of the result adds to it. When the handler follows the
    click with nothing in between, the ids of the result, in its order,
    are the models shown, the full list and the list for the export: an
    earlier list is gone; the window is not loading, and the notice that
    the fetch started and a success message with the number of models
    are added; the save is the last step. When the result lists no
    model the three lists are empty, a warning is shown and nothing is
    saved. But the keys [Return] and [F5] start a fetch while another is
    running, and a handler only adds: when a second fetch is started
    and handled while the first is running, [main.py] ends with every
    model shown twice, and once in the list for the export; [app.py]
    ends with every id twice in its list. Both variants. *)
Theorem successful_fetch_adds_to_the_models_shown `{Host}
    (requests_get : get_fn) (now : str) :
  (∀ w fields objs,
     Main.validate_url (strip (Main.url_entry (Main.home_page w)))
       = Return true →
     Main.fetch_models requests_get
       (Main.__init__ (strip (Main.url_entry (Main.home_page w)))
          (Some (strip (Main.key_entry (Main.home_page w)))))
       = Return (VDict fields) →
     lookup_key (py "data") fields = Some (VList (VDict <$> objs)) →
     Main.fetch_invocation requests_get now w
     = (match objs with
        | [] => Return ()
        | _ :: _ =>
          (Main.save (Main.current_profile (Main.home_page w))
             (strip (Main.url_entry (Main.home_page w)))
             (Some (strip (Main.key_entry (Main.home_page w)))) now
             (Main.disk w)).1
        end,
        Main.mk_window
          (Main.mk_home (Main.url_entry (Main.home_page w))
             (Main.key_entry (Main.home_page w)) None false
             (model_id_of <$> objs) (model_id_of <$> objs)
             (model_id_of <$> objs)
             (Main.current_profile (Main.home_page w)))
          (Main.profiles_page w)
          (Main.info_bars w
           ++ [(py "info", py "正在获取模型列表...");
               match objs with
               | [] => (py "warning", py "未找到任何模型")
               | _ :: _ =>
                 (py "success",
                  py "成功获取 " ++ str_of_Z (Z.of_nat (length objs))
                  ++ py " 个模型")
               end])
          match objs with
          | [] => Main.disk w
          | _ :: _ =>
            (Main.save (Main.current_profile (Main.home_page w))
               (strip (Main.url_entry (Main.home_page w)))
               (Some (strip (Main.key_entry (Main.home_page w)))) now
               (Main.disk w)).2
          end)
     ∧ Main.model_cards
         (Main.home_page
            (Main.fetch_meanwhile requests_get now
               (Main.fetch_invocation requests_get now) w).2)
       = (model_id_of <$> objs) ++ (model_id_of <$> objs)
     ∧ Main.model_ids
         (Main.home_page
            (Main.fetch_meanwhile requests_get now
               (Main.fetch_invocation requests_get now) w).2)
       = model_id_of <$> objs)
  ∧ (∀ prompt a fields objs,
       App.validate_url (App.get_url a) = Return true →
       App.fetch_models requests_get
         (App.__init__ (App.get_url a) (Some (App.get_api_key a)))
         = Return (VDict fields) →
       lookup_key (py "data") fields = Some (VList (VDict <$> objs)) →
       App.fetch_invocation requests_get now prompt a
       = (Return (),
          App.mk_app (App.url_entry a) (App.key_entry a) None false
            (model_id_of <$> objs)
            match objs with
            | [] => (py "未找到任何模型", py "warning")
            | _ :: _ =>
              (py "成功获取 " ++ str_of_Z (Z.of_nat (length objs))
               ++ py " 个模型", py "success")
            end
            match objs with
            | [] => App.disk a
            | _ :: _ =>
              (App.save_config (App.get_url a) (Some (App.get_api_key a))
                 now (App.disk a)).2
            end)
       ∧ App.model_ids
           (App.fetch_meanwhile requests_get now prompt
              (App.fetch_invocation requests_get now prompt) a).2
         = (model_id_of <$> objs) ++ (model_id_of <$> objs)).
Proof.
  split.
  - intros w fields objs Hv Hf Hdata.
    split; [by apply (main_fetch_listed requests_get now w fields objs)|].
    rewrite (main_meanwhile_saved requests_get now _ w _ Hv Hf).
    rewrite (main_fetch_started _ Hv). cbn [snd].
    rewrite (main_fetch_listed requests_get now _ fields objs)
      by (main_fields; done).
    cbn [snd]. main_fields.
    destruct objs as [|o objs].
    + rewrite (main_on_success_empty _ _ _ Hdata). by main_fields.
    + rewrite (main_on_success_run _ _ _ _ Hdata) by done.
      cbv zeta. by main_fields.
  - intros prompt a fields objs Hv Hf Hdata.
    split; [by apply (app_fetch_listed requests_get now prompt a fields objs)|].
    rewrite (app_meanwhile_saved requests_get now prompt _ a _ Hv Hf).
    rewrite (app_fetch_started _ Hv). cbn [snd].
    rewrite (app_fetch_listed requests_get now prompt _ fields objs)
      by (unfold App.get_url, App.get_api_key in *; app_fields; done).
    cbn [snd].
    destruct objs as [|o objs].
    + rewrite (app_on_fetch_success_empty _ _ _ Hdata). by app_fields.
    + rewrite (app_on_fetch_success_run _ _ _ _ Hdata) by done.
      by app_fields.
Qed.

(** ** What a valid URL looks like *)

(** *** The authority *)

Lemma authority_of_split (v : str) :
  v = authority_of v ++ drop (length (authority_of v)) v
  ∧ forallb (λ c, negb (ends_authority c)) (authority_of v) = true
  ∧ match drop (length (authority_of v)) v with
    | [] => True
    | c :: _ => ends_authority c = true
    end.
Proof.
  induction v as [|c v (IH1 & IH2 & IH3)]; [done|].
  cbn [authority_of]. destruct (ends_authority c) eqn:Hc.
  - cbn [length drop app forallb]. done.
  - cbn [length drop app forallb]. rewrite Hc. cbn [negb andb].
    split_and!; [by f_equal|done|done].
Qed.

Lemma take_authority (v : str) :
  take (length (authority_of v)) v = authority_of v.
Proof.
  induction v as [|c v IH]; [done|]. cbn [authority_of].
  destruct (ends_authority c); [done|]. cbn [length take]. by rewrite IH.
Qed.

Lemma authority_of_app (auth rest : str) :
  forallb (λ c, negb (ends_authority c)) auth = true →
  match rest with [] => True | c :: _ => ends_authority c = true end →
  authority_of (auth ++ rest) = auth.
Proof.
  intros Ha Hr. induction auth as [|c auth IH].
  - destruct rest as [|c rest]; [done|]. cbn [app authority_of].
    by rewrite Hr.
  - cbn [forallb] in Ha. apply andb_true_iff in Ha as [Hc Ha].
    apply negb_true_iff in Hc. cbn [app authority_of]. rewrite Hc.
    by rewrite IH.
Qed.

Lemma find_bounds (c : N) (v : str) :
  match find c v with
  | Some i => i < length v ∧ v !! i = Some c
  | None => True
  end.
Proof.
  induction v as [|x v IH]; [done|]. cbn [find].
  destruct (N.eqb_spec x c) as [->|Hx].
  - cbn. split; [lia|done].
  - destruct (find c v) as [i|]; [|done]. cbn. destruct IH. split; [lia|done].
Qed.

(** The first delimiter is where the authority ends. *)
Lemma find_after_authority (c : N) (v : str) :
  ends_authority c = true →
  match find c v with
  | Some i => length (authority_of v) ≤ i
  | None => True
  end
  ∧ (drop (length (authority_of v)) v = [] → find c v = None)
  ∧ (∀ rest, drop (length (authority_of v)) v = c :: rest →
             find c v = Some (length (authority_of v))).
Proof.
  intros Hc. induction v as [|x v (IH1 & IH2 & IH3)]; [done|].
  cbn [authority_of find]. destruct (ends_authority x) eqn:Hx.
  - cbn [length drop]. split_and!.
    + destruct (x =? c)%N; [cbn; lia|].
      destruct (find c v); cbn; [lia|done].
    + discriminate.
    + intros rest [= -> _]. by rewrite N.eqb_refl.
  - cbn [length drop].
    destruct (N.eqb_spec x c) as [->|Hne]; [congruence|].
    split_and!.
    + destruct (find c v); cbn; [lia|done].
    + intros Hd. by rewrite (IH2 Hd).
    + intros rest Hd. by rewrite (IH3 _ Hd).
Qed.

Lemma splitnetloc_authority (v : str) :
  UrlLib._splitnetloc (py "//" ++ v) 2
  = (authority_of v, drop (length (authority_of v)) v).
Proof.
  unfold UrlLib._splitnetloc.
  change (py "/?#") with [chr "/"; chr "?"; chr "#"].
  change (py "//") with [chr "/"; chr "/"].
  cbn [fold_left].
  rewrite !(find_from_app _ [chr "/"; chr "/"] v). cbn [length].
  destruct (authority_of_split v) as (Hv & _ & Hd).
  set (k := length (authority_of v)) in *.
  destruct (find_after_authority (chr "/") v eq_refl) as (A1 & A2 & A3).
  destruct (find_after_authority (chr "?") v eq_refl) as (B1 & B2 & B3).
  destruct (find_after_authority (chr "#") v eq_refl) as (C1 & C2 & C3).
  fold k in A1, A2, A3, B1, B2, B3, C1, C2, C3.
  pose proof (find_bounds (chr "/") v) as A4.
  pose proof (find_bounds (chr "?") v) as B4.
  pose proof (find_bounds (chr "#") v) as C4.
  match goal with
  | |- (drop 2 (take ?D ?L), drop ?D ?L) = _ =>
    assert (D = 2 + k) as ->
  end.
  { pose proof (f_equal length Hv) as Hlen.
    rewrite length_app in Hlen. fold k in Hlen. rewrite length_app.
    cbn [length].
    destruct (drop k v) as [|c rest] eqn:Hdrop.
    - rewrite (A2 eq_refl), (B2 eq_refl), (C2 eq_refl).
      cbn [fmap option_fmap option_map]. cbn [length] in Hlen. lia.
    - unfold ends_authority in Hd.
      change (py "/?#") with [chr "/"; chr "?"; chr "#"] in Hd.
      cbn [char_in existsb] in Hd. rewrite orb_false_r in Hd.
      assert (k < length v) as Hk.
      { apply (f_equal length) in Hdrop. rewrite length_drop in Hdrop.
        cbn [length] in Hdrop. lia. }
      apply orb_true_iff in Hd as [Hc|[Hc|Hc]%orb_true_iff];
        apply N.eqb_eq in Hc; subst c;
        [rewrite (A3 _ eq_refl) in *|rewrite (B3 _ eq_refl) in *
        |rewrite (C3 _ eq_refl) in *];
        repeat match goal with
        | |- context [find ?c v] => destruct (find c v)
        end;
        cbn [fmap option_fmap option_map]; lia. }
  f_equal. cbn [drop]. apply take_authority.
Qed.

(** *** The scheme *)

Lemma lower_char_letter (c x : N) :
  islower_ascii x = true → lower_char c = x →
  isascii c && isalpha_ascii c = true
  ∧ char_in c UrlLib.scheme_chars = true
  ∧ c ≠ chr ":".
Proof.
  intros Hx Hc.
  assert (forallb (λ c, implb (islower_ascii (lower_char c))
                          (isascii c && isalpha_ascii c
                           && char_in c UrlLib.scheme_chars
                           && negb (c =? chr ":")%N))
            (N.of_nat <$> seq 0 128) = true) as Hall
    by (vm_compute; reflexivity).
  assert (c < 128)%N as Hlt.
  { unfold islower_ascii in Hx. apply andb_true_iff in Hx as [H1 H2].
    apply N.leb_le in H1, H2. unfold lower_char in Hc.
    destruct (isupper_ascii c); lia. }
  rewrite forallb_forall in Hall. specialize (Hall c).
  rewrite Hc, Hx in Hall. cbn [implb] in Hall.
  assert (In c (N.of_nat <$> seq 0 128)) as Hin.
  { apply list_elem_of_In, list_elem_of_fmap. exists (N.to_nat c).
    split; [lia|]. apply list_elem_of_In, in_seq. lia. }
  specialize (Hall Hin).
  apply andb_true_iff in Hall as [[H1 H2]%andb_true_iff H3].
  split_and!; [done|done|].
  apply negb_true_iff, N.eqb_neq in H3. done.
Qed.

Lemma http_scheme_facts (sch : str) :
  lower sch ∈ [py "http"; py "https"] →
  ∃ c0 r, sch = c0 :: r
    ∧ isascii c0 && isalpha_ascii c0 = true
    ∧ forallb (λ c, char_in c UrlLib.scheme_chars) sch = true
    ∧ char_in (chr ":") sch = false
    ∧ forallb (λ c, (32 <? c)%N) sch = true.
Proof.
  intros Hl.
  assert (forallb islower_ascii (lower sch) = true) as Hlow.
  { apply list_elem_of_In in Hl. destruct Hl as [<-|[<-|[]]];
      vm_compute; reflexivity. }
  assert (sch ≠ []) as Hne.
  { intros ->. apply list_elem_of_In in Hl.
    destruct Hl as [Hl|[Hl|[]]]; discriminate. }
  assert (Forall (λ c, isascii c && isalpha_ascii c = true
                       ∧ char_in c UrlLib.scheme_chars = true
                       ∧ c ≠ chr ":") sch) as Hall.
  { clear Hl Hne. induction sch as [|c sch IH]; [constructor|].
    cbn [lower fmap list_fmap forallb] in Hlow.
    apply andb_true_iff in Hlow as [Hc Hs].
    constructor; [by apply (lower_char_letter c (lower_char c))|].
    by apply IH. }
  destruct sch as [|c0 r]; [done|]. exists c0, r.
  split; [done|]. split; [by inversion Hall as [|? ? (? & _)]|].
  split_and!.
  - clear -Hall. induction Hall as [|c s (_ & Hc & _) _ IH]; [done|].
    cbn [forallb]. by rewrite Hc, IH.
  - clear -Hall. induction Hall as [|c s (_ & _ & Hc) _ IH]; [done|].
    cbn [char_in existsb]. fold (char_in (chr ":") s). rewrite IH.
    rewrite orb_false_r. apply N.eqb_neq. congruence.
  - clear -Hall. induction Hall as [|c s (_ & Hc & _) _ IH]; [done|].
    cbn [forallb]. rewrite IH.
    by rewrite (proj1 (scheme_char_facts _ Hc)).
Qed.

(** *** The parser on an http URL *)

Section HttpUrl.
Context `{Host}.

Lemma brackets_in_pairs (n : str) :
  char_in (chr "[") n && negb (char_in (chr "]") n)
  || char_in (chr "]") n && negb (char_in (chr "[") n) = false
  ↔ char_in (chr "[") n = char_in (chr "]") n.
Proof. destruct (char_in (chr "[") n), (char_in (chr "]") n); by split. Qed.

(** What [urlsplit] does once the scheme is off. *)
Lemma urlsplit_after_scheme (s u : str) :
  match
    ('(netloc, url) ←
       (if str_eqb (take 2 u) (py "//") then
          let '(netloc, url) := UrlLib._splitnetloc u 2 in
          if char_in (chr "[") netloc && negb (char_in (chr "]") netloc)
             || char_in (chr "]") netloc && negb (char_in (chr "[") netloc)
          then raise ValueError (py "Invalid IPv6 URL")
          else
            _ ← (if char_in (chr "[") netloc && char_in (chr "]") netloc
                 then UrlLib._check_bracketed_netloc netloc else Return ());
            Return (netloc, url)
        else Return ([], u));
     let '(url, fragment) :=
       if char_in (chr "#") url then split_once (chr "#") url
       else (url, []) in
     let '(url, query) :=
       if char_in (chr "?") url then split_once (chr "?") url
       else (url, []) in
     _ ← UrlLib._checknetloc netloc;
     Return (UrlLib.mk_parse s netloc url [] query fragment))
  with
  | Return r =>
    UrlLib.scheme r = s
    ∧ (UrlLib.netloc r ≠ [] →
       ∃ v, u = py "//" ++ v ∧ UrlLib.netloc r = authority_of v
            ∧ authority_passes (authority_of v))
  | Raise _ =>
    ∀ v, u = py "//" ++ v → ¬ authority_passes (authority_of v)
  end.
Proof.
  destruct (str_eqb (take 2 u) (py "//")) eqn:H2.
  - apply bool_decide_eq_true in H2.
    assert (∃ w, u = py "//" ++ w) as [w ->].
    { exists (drop 2 u). by rewrite <- H2, take_drop. }
    clear H2. rewrite splitnetloc_authority.
    set (n := authority_of w).
    assert (∀ v, py "//" ++ w = py "//" ++ v → authority_of v = n) as Hv.
    { intros v Hv. by apply app_inv_head in Hv as <-. }
    assert (py "//" ++ w = py "//" ++ w) as Hu by reflexivity.
    cbv beta iota.
    destruct (char_in (chr "[") n && negb (char_in (chr "]") n)
              || char_in (chr "]") n && negb (char_in (chr "[") n))
      eqn:Hpair.
    { cbn [mbind outcome_bind raise]. intros v Huv (Hp & _).
      rewrite (Hv _ Huv) in Hp. apply brackets_in_pairs in Hp. congruence. }
    apply brackets_in_pairs in Hpair.
    destruct (if char_in (chr "[") n && char_in (chr "]") n
              then UrlLib._check_bracketed_netloc n else Return ())
      as [[]|e] eqn:Hb.
    + cbn [mbind outcome_bind].
      destruct (if char_in (chr "#") (drop (length n) w)
                then split_once (chr "#") (drop (length n) w)
                else (drop (length n) w, [])) as [u1 frag].
      destruct (if char_in (chr "?") u1 then split_once (chr "?") u1
                else (u1, [])) as [u2 q].
      destruct (UrlLib._checknetloc n) as [[]|e] eqn:Hc.
      * cbn [mbind outcome_bind UrlLib.scheme UrlLib.netloc].
        split; [done|]. intros _. exists w.
        split; [exact Hu|]. split; [done|]. fold n.
        split; [exact Hpair|]. split; [|exact Hc].
        intros Hl. rewrite Hl, <- Hpair, Hl in Hb. exact Hb.
      * cbn [mbind outcome_bind]. intros v Huv (_ & _ & Hp).
        rewrite (Hv _ Huv) in Hp. congruence.
    + cbn [mbind outcome_bind]. intros v Huv (_ & Hp & _).
      rewrite (Hv _ Huv) in Hp.
      destruct (char_in (chr "[") n) eqn:Hl; [|by rewrite <- Hpair in Hb].
      rewrite <- Hpair in Hb. cbn [andb] in Hb.
      rewrite (Hp eq_refl) in Hb. discriminate.
  - cbn [mbind outcome_bind].
    destruct (if char_in (chr "#") u then split_once (chr "#") u
              else (u, [])) as [u1 frag].
    destruct (if char_in (chr "?") u1 then split_once (chr "?") u1
              else (u1, [])) as [u2 q].
    cbn [UrlLib._checknetloc truthy negb orb mbind outcome_bind
         UrlLib.scheme UrlLib.netloc].
    split; done.
Qed.

(** ... and that it returns when the authority passes. *)
Lemma urlsplit_after_scheme_returns (s v : str) :
  authority_passes (authority_of v) →
  ∃ r,
    ('(netloc, url) ←
       (if str_eqb (take 2 (py "//" ++ v)) (py "//") then
          let '(netloc, url) := UrlLib._splitnetloc (py "//" ++ v) 2 in
          if char_in (chr "[") netloc && negb (char_in (chr "]") netloc)
             || char_in (chr "]") netloc && negb (char_in (chr "[") netloc)
          then raise ValueError (py "Invalid IPv6 URL")
          else
            _ ← (if char_in (chr "[") netloc && char_in (chr "]") netloc
                 then UrlLib._check_bracketed_netloc netloc else Return ());
            Return (netloc, url)
        else Return ([], py "//" ++ v));
     let '(url, fragment) :=
       if char_in (chr "#") url then split_once (chr "#") url
       else (url, []) in
     let '(url, query) :=
       if char_in (chr "?") url then split_once (chr "?") url
       else (url, []) in
     _ ← UrlLib._checknetloc netloc;
     Return (UrlLib.mk_parse s netloc url [] query fragment))
    = Return r
    ∧ UrlLib.scheme r = s ∧ UrlLib.netloc r = authority_of v.
Proof.
  intros Hpass.
  pose proof (urlsplit_after_scheme s (py "//" ++ v)) as Hcase.
  destruct (_ ← _; _) as [r|e] eqn:Hr in Hcase.
  - exists r. destruct Hcase as [Hs Hn]. split; [exact Hr|].
    split; [exact Hs|]. clear Hn. revert Hr.
    change (take 2 (py "//" ++ v)) with (py "//").
    change (str_eqb (py "//") (py "//")) with true. cbv iota.
    rewrite splitnetloc_authority. cbv beta iota.
    destruct (_ || _); [discriminate|].
    destruct (if _ && _ then _ else _) as [[]|e]; [|discriminate].
    cbn [mbind outcome_bind].
    destruct (if char_in (chr "#") _ then _ else _) as [u1 frag].
    destruct (if char_in (chr "?") u1 then _ else _) as [u2 q].
    destruct (UrlLib._checknetloc _) as [[]|e]; [|discriminate].
    cbn [mbind outcome_bind]. by intros [= <-].
  - by destruct (Hcase v eq_refl).
Qed.

End HttpUrl.

(** What [urlsplit] takes for the scheme. *)
Lemma scheme_split_cases (U dflt : str) :
  match find (chr ":") U, U with
  | Some (S _ as i), c0 :: _ =>
    if isascii c0 && isalpha_ascii c0
       && forallb (λ c, char_in c UrlLib.scheme_chars) (take i U)
    then (lower (take i U), drop (S i) U)
    else (dflt, U)
  | _, _ => (dflt, U)
  end = (dflt, U)
  ∨ ∃ sch after,
      U = sch ++ chr ":" :: after
      ∧ match find (chr ":") U, U with
        | Some (S _ as i), c0 :: _ =>
          if isascii c0 && isalpha_ascii c0
             && forallb (λ c, char_in c UrlLib.scheme_chars) (take i U)
          then (lower (take i U), drop (S i) U)
          else (dflt, U)
        | _, _ => (dflt, U)
        end = (lower sch, after).
Proof.
  pose proof (find_bounds (chr ":") U) as Hb.
  destruct (find (chr ":") U) as [[|i]|]; try by left.
  destruct U as [|c0 U']; [by left|].
  destruct (isascii c0 && isalpha_ascii c0
            && forallb (λ c, char_in c UrlLib.scheme_chars)
                 (take (S i) (c0 :: U'))); [|by left].
  right. exists (take (S i) (c0 :: U')), (drop (S (S i)) (c0 :: U')).
  split; [|done]. destruct Hb as [Hlt Hc].
  rewrite <- (take_drop (S i) (c0 :: U')) at 1. f_equal.
  by apply drop_S.
Qed.

Lemma scheme_split_http (sch after dflt : str) :
  lower sch ∈ [py "http"; py "https"] →
  match find (chr ":") (sch ++ chr ":" :: after),
        sch ++ chr ":" :: after with
  | Some (S _ as i), c0 :: _ =>
    if isascii c0 && isalpha_ascii c0
       && forallb (λ c, char_in c UrlLib.scheme_chars)
            (take i (sch ++ chr ":" :: after))
    then (lower (take i (sch ++ chr ":" :: after)),
          drop (S i) (sch ++ chr ":" :: after))
    else (dflt, sch ++ chr ":" :: after)
  | _, _ => (dflt, sch ++ chr ":" :: after)
  end = (lower sch, after).
Proof.
  intros (c0 & r & -> & H0 & Hall & Hcolon & _)%http_scheme_facts.
  rewrite (find_app _ _ _ Hcolon). cbn [length].
  change ((c0 :: r) ++ chr ":" :: after)
    with (c0 :: (r ++ chr ":" :: after)) at 1.
  cbv iota beta.
  change (S (length r)) with (length (c0 :: r)).
  by rewrite take_app_length, H0, Hall, drop_S_app.
Qed.

Section HttpUrlSplit.
Context `{Host}.

Lemma urlsplit_http_only (t : str) (r : UrlLib.ParseResult) :
  UrlLib.urlsplit t [] = Return r →
  UrlLib.scheme r ∈ [py "http"; py "https"] →
  UrlLib.netloc r ≠ [] →
  http_url (UrlLib.remove_unsafe (lstrip_by UrlLib.c0_control_or_space t)).
Proof.
  unfold UrlLib.urlsplit. cbv zeta.
  change (UrlLib.remove_unsafe
            (rstrip_by UrlLib.c0_control_or_space
               (lstrip_by UrlLib.c0_control_or_space []))) with (@nil N).
  set (U := UrlLib.remove_unsafe (lstrip_by UrlLib.c0_control_or_space t)).
  intros Hr Hs Hn.
  destruct (scheme_split_cases U []) as [Hsu|(sch & after & HU & Hsu)];
    rewrite Hsu in Hr;
    [pose proof (urlsplit_after_scheme [] U) as Hcase
    |pose proof (urlsplit_after_scheme (lower sch) after) as Hcase];
    cbv beta iota in Hr; rewrite Hr in Hcase;
    destruct Hcase as [Hsch Hnet].
  - rewrite Hsch in Hs. apply list_elem_of_In in Hs.
    destruct Hs as [Hs|[Hs|[]]]; discriminate.
  - destruct (Hnet Hn) as (v & -> & Hnv & Hpass).
    exists sch, v. split; [exact HU|]. rewrite <- Hsch.
    split; [exact Hs|]. split; [by rewrite <- Hnv|exact Hpass].
Qed.

Lemma urlsplit_http_returns (t sch v : str) :
  UrlLib.remove_unsafe (lstrip_by UrlLib.c0_control_or_space t)
    = sch ++ py "://" ++ v →
  lower sch ∈ [py "http"; py "https"] →
  authority_passes (authority_of v) →
  ∃ r, UrlLib.urlsplit t [] = Return r
       ∧ UrlLib.scheme r = lower sch
       ∧ UrlLib.netloc r = authority_of v.
Proof.
  intros HU Hl Hpass. unfold UrlLib.urlsplit. cbv zeta.
  rewrite HU.
  change (py "://" ++ v) with (chr ":" :: (py "//" ++ v)).
  rewrite (scheme_split_http sch (py "//" ++ v) _ Hl). cbv beta iota.
  by apply urlsplit_after_scheme_returns.
Qed.

Lemma urlparse_keeps (t dflt : str) :
  match UrlLib.urlparse t dflt, UrlLib.urlsplit t dflt with
  | Return p, Return r =>
    UrlLib.scheme p = UrlLib.scheme r ∧ UrlLib.netloc p = UrlLib.netloc r
  | Raise _, Raise _ => True
  | _, _ => False
  end.
Proof.
  unfold UrlLib.urlparse.
  destruct (UrlLib.urlsplit t dflt) as [r|e]; [|done].
  cbn [mbind outcome_bind].
  destruct (str_in (UrlLib.scheme r) UrlLib.uses_params
            && char_in (chr ";") (UrlLib.path r)); [|done].
  by destruct (UrlLib._splitparams (UrlLib.path r)) as [u ps].
Qed.

(** The parser accepts exactly the http URLs. *)
Lemma accepted_iff_http_url (t : str) :
  (∃ p, UrlLib.urlparse t [] = Return p ∧ accepted p = true)
  ↔ http_url (UrlLib.remove_unsafe (lstrip_by UrlLib.c0_control_or_space t)).
Proof.
  pose proof (urlparse_keeps t []) as Hk. split.
  - intros (p & Hp & [Hs Hn]%accepted_true). rewrite Hp in Hk.
    destruct (UrlLib.urlsplit t []) as [r|e] eqn:Hr; [|done].
    destruct Hk as [Es En]. rewrite Es in Hs. rewrite En in Hn.
    apply (urlsplit_http_only _ _ Hr); [|done].
    destruct Hs as [-> | ->]; set_solver.
  - intros (sch & v & HU & Hl & Hne & Hpass).
    destruct (urlsplit_http_returns _ _ _ HU Hl Hpass) as (r & Hr & Hs & Hn).
    rewrite Hr in Hk.
    destruct (UrlLib.urlparse t []) as [p|e]; [|done].
    destruct Hk as [Es En]. exists p. split; [done|].
    apply accepted_true. rewrite Es, En, Hs, Hn. split; [|done].
    apply list_elem_of_In in Hl. destruct Hl as [<-|[<-|[]]]; auto.
Qed.

End HttpUrlSplit.

(** *** Trimming *)

Lemma lstrip_by_app (p : N → bool) (s t : str) :
  lstrip_by p (s ++ t)
  = if forallb p s then lstrip_by p t else lstrip_by p s ++ t.
Proof.
  induction s as [|c s IH]; [done|]. cbn [app lstrip_by forallb].
  destruct (p c); [exact IH|done].
Qed.

Lemma forallb_rev (p : N → bool) (s : str) :
  forallb p (rev s) = forallb p s.
Proof.
  induction s as [|c s IH]; [done|]. cbn [rev forallb].
  rewrite forallb_app, IH. cbn [forallb]. by destruct (p c), (forallb p s).
Qed.

Lemma rstrip_by_app_all (p : N → bool) (s ws : str) :
  forallb p ws = true → rstrip_by p (s ++ ws) = rstrip_by p s.
Proof.
  intros Hws. unfold rstrip_by. rewrite rev_app_distr, lstrip_by_app.
  by rewrite forallb_rev, Hws.
Qed.

Lemma strip_surrounded (before s after : str) :
  forallb isspace before = true → forallb isspace after = true →
  strip (before ++ s ++ after) = strip s.
Proof.
  intros Hb Ha. unfold strip. rewrite lstrip_by_app, Hb, lstrip_by_app.
  destruct (forallb isspace s) eqn:Hs.
  - by rewrite !lstrip_by_all.
  - by apply rstrip_by_app_all.
Qed.

Lemma lstrip_by_split (p : N → bool) (s : str) :
  ∃ ws, s = ws ++ lstrip_by p s ∧ forallb p ws = true
        ∧ match lstrip_by p s with c :: _ => p c = false | [] => True end.
Proof.
  induction s as [|c s (ws & Hs & Hws & Hh)]; [by exists []|].
  cbn [lstrip_by]. destruct (p c) eqn:Hc.
  - exists (c :: ws). cbn [app forallb]. rewrite Hc, Hws.
    split; [by f_equal|done].
  - exists []. by rewrite Hc.
Qed.

Lemma rstrip_by_split (p : N → bool) (s : str) :
  ∃ ws, s = rstrip_by p s ++ ws ∧ forallb p ws = true
        ∧ match last (rstrip_by p s) with
          | Some c => p c = false
          | None => True
          end.
Proof.
  unfold rstrip_by.
  destruct (lstrip_by_split p (rev s)) as (ws & Hs & Hws & Hh).
  exists (rev ws). split_and!.
  - rewrite <- rev_app_distr, <- Hs. by rewrite rev_involutive.
  - by rewrite forallb_rev.
  - destruct (lstrip_by p (rev s)) as [|c l]; [done|].
    cbn [rev]. by rewrite last_snoc.
Qed.

(** [strip] takes off the whitespace around a string and nothing else. *)
Lemma strip_split (s : str) :
  ∃ before after,
    s = before ++ strip s ++ after
    ∧ forallb isspace before = true ∧ forallb isspace after = true
    ∧ match strip s with c :: _ => isspace c = false | [] => True end
    ∧ match last (strip s) with
      | Some c => isspace c = false
      | None => True
      end.
Proof.
  unfold strip.
  destruct (lstrip_by_split isspace s) as (before & Hs & Hb & Hh).
  destruct (rstrip_by_split isspace (lstrip_by isspace s))
    as (after & Hl & Ha & Ht).
  exists before, after. split_and!; try done.
  - by rewrite <- Hl.
  - destruct (rstrip_by isspace (lstrip_by isspace s)) as [|c r] eqn:Hr;
      [done|].
    rewrite Hl in Hh. exact Hh.
Qed.

Section Validators.
Context `{Host}.

Lemma validates_http_urls_of (validate : str → outcome bool) :
  (∀ url, validate url =
          match UrlLib.urlparse (strip url) [] with
          | Return p => Return (accepted p)
          | Raise _ => Return false
          end) →
  validates_http_urls validate.
Proof.
  intros Heq. split_and!.
  - intros url. rewrite Heq. unfold text_to_split.
    rewrite <- accepted_iff_http_url.
    destruct (UrlLib.urlparse (strip url) []) as [p|e]; split.
    + intros [= Ha]. by exists p.
    + intros (p' & [= <-] & ->). done.
    + discriminate.
    + by intros (p' & [=] & _).
  - intros url. rewrite Heq.
    destruct (UrlLib.urlparse (strip url) []) as [p|e]; [|by right].
    destruct (accepted p); [by left|by right].
  - intros before url after Hb Ha.
    by rewrite !Heq, strip_surrounded.
  - intros url Hblank. rewrite Heq, (strip_blank _ Hblank), urlparse_empty.
    reflexivity.
Qed.

Lemma plain_authority_passes (auth : str) :
  forallb isascii auth = true →
  char_in (chr "[") auth = false → char_in (chr "]") auth = false →
  authority_passes auth.
Proof.
  intros Ha Hl Hr. unfold authority_passes. rewrite Hl, Hr.
  split; [done|]. split; [discriminate|].
  unfold UrlLib._checknetloc. by rewrite Ha, orb_true_r.
Qed.

End Validators.

(** C5. [validate_url] returns a boolean on every string and never
    raises. It trims the string: whitespace around it changes nothing,
    and [strip] takes off the whitespace around a string and nothing
    else. It returns [True] exactly when the trimmed string parses as a
    URL with scheme [http] or [https] and an authority, hence [False]
    on every other string, on empty and blank input, and on input the
    parser rejects. In terms of the text alone: [True] exactly when the
    trimmed string, without the control characters in front of it and
    its tabs, carriage returns and line feeds, is [http] or [https] in
    upper or lower case, [://], and an authority that is not empty, has
    its brackets in a pair around a host the interpreter accepts, and
    holds no character that NFKC turns into a delimiter; an ASCII
    authority without brackets always passes. It reads nothing but its
    argument. Both variants. *)
Theorem validate_url_contract `{Host} :
  (validator_contract App.validate_url
   ∧ validates_http_urls App.validate_url)
  ∧ (validator_contract Main.validate_url
     ∧ validates_http_urls Main.validate_url)
  ∧ (∀ auth,
       forallb isascii auth = true →
       char_in (chr "[") auth = false → char_in (chr "]") auth = false →
       authority_passes auth)
  ∧ (∀ s, ∃ before after,
       s = before ++ strip s ++ after
       ∧ forallb isspace before = true ∧ forallb isspace after = true
       ∧ match strip s with c :: _ => isspace c = false | [] => True end
       ∧ match last (strip s) with
         | Some c => isspace c = false
         | None => True
         end).
Proof.
  split_and!.
  - apply validator_contract_of, app_validate_url_eq.
  - apply validates_http_urls_of, app_validate_url_eq.
  - apply validator_contract_of, main_validate_url_eq.
  - apply validates_http_urls_of, main_validate_url_eq.
  - apply plain_authority_passes.
  - apply strip_split.
Qed.

(** *** What is asked of a URL, and what is not *)

Lemma host_char_no_delimiter (auth : str) :
  forallb host_char auth = true →
  forallb (λ c, negb (ends_authority c)) auth = true
  ∧ forallb printable auth = true.
Proof.
  induction auth as [|c auth IH]; [done|]. cbn [forallb].
  intros [Hc Ha]%andb_true_iff. destruct (IH Ha) as [-> ->].
  rewrite !andb_true_r. unfold host_char in Hc.
  apply andb_true_iff in Hc as [Hp Hd]. unfold printable. rewrite Hp.
  split; [|done]. apply negb_true_iff in Hd. apply negb_true_iff.
  unfold ends_authority.
  change (py "/?#[]") with [chr "/"; chr "?"; chr "#"; chr "["; chr "]"]
    in Hd.
  change (py "/?#") with [chr "/"; chr "?"; chr "#"].
  cbn [char_in existsb] in *.
  repeat (apply orb_false_iff in Hd as [? Hd]).
  by repeat (apply orb_false_iff; split).
Qed.

Lemma printable_facts (s : str) :
  forallb printable s = true →
  forallb (λ c, (32 <? c)%N) s = true
  ∧ match last s with Some c => isspace c = false | None => True end.
Proof.
  intros Hs. split.
  - induction s as [|c s IH]; [done|]. cbn [forallb] in *.
    apply andb_true_iff in Hs as [Hc Hs]. rewrite (IH Hs), andb_true_r.
    unfold printable in Hc. by destruct (32 <? c)%N.
  - destruct (last s) as [c|] eqn:Hl; [|done].
    apply last_Some in Hl as [s' ->]. rewrite forallb_app in Hs.
    apply andb_true_iff in Hs as [_ Hc]. cbn [forallb] in Hc.
    rewrite andb_true_r in Hc. unfold printable in Hc.
    apply andb_true_iff in Hc as [H1 H2]. by apply printable_not_space.
Qed.

Lemma text_to_split_printable (c0 : N) (s : str) :
  isascii c0 && isalpha_ascii c0 = true →
  (32 <? c0)%N = true →
  forallb (λ c, (32 <? c)%N) s = true →
  match last (c0 :: s) with Some c => isspace c = false | None => True end →
  text_to_split (c0 :: s) = c0 :: s.
Proof.
  intros H0 H32 Hs Hlast. unfold text_to_split, strip.
  assert (isspace c0 = false) as Hsp.
  { apply andb_true_iff in H0 as [Ha Hal]. apply printable_not_space; [done|].
    unfold isalpha_ascii, isupper_ascii, islower_ascii in Hal.
    apply N.ltb_lt.
    apply orb_true_iff in Hal as [[_ Hu]%andb_true_iff|[_ Hu]%andb_true_iff];
      apply N.leb_le in Hu; lia. }
  rewrite (lstrip_by_id isspace c0 s Hsp).
  destruct (last (c0 :: s)) as [c|] eqn:Hl.
  - rewrite (rstrip_by_keeps _ _ c Hl Hlast).
    rewrite lstrip_by_id
      by (unfold UrlLib.c0_control_or_space; apply N.leb_gt;
          by apply N.ltb_lt).
    apply remove_unsafe_id. cbn [forallb]. by rewrite H32, Hs.
  - by apply last_None in Hl.
Qed.

(** X23. What the validators ask of a string, and what they do not. A
    string they accept starts, once it is trimmed and the parser has
    dropped its tabs, carriage returns and line feeds, with [http://] or
    [https://] in upper or lower case, and a character other than [/],
    [?] and [#] follows: without the scheme, without [://] or without an
    authority nothing is valid. That is all: with such a scheme, any
    authority that is not empty and made of printable ASCII characters
    other than [/ ? # [ ]] is valid, a port or user information without
    a host included ([http://:80], [http://@]), whatever printable text
    follows it. Both variants. *)
Theorem valid_url_is_scheme_and_authority `{Host} :
  (∀ url,
     App.validate_url url = Return true
     ∨ Main.validate_url url = Return true →
     ∃ sch rest c,
       text_to_split url = sch ++ py "://" ++ c :: rest
       ∧ lower sch ∈ [py "http"; py "https"]
       ∧ char_in c (py "/?#") = false)
  ∧ (∀ sch auth rest,
       lower sch ∈ [py "http"; py "https"] →
       auth ≠ [] →
       forallb host_char auth = true →
       forallb printable rest = true →
       match rest with [] => True | c :: _ => ends_authority c = true end →
       App.validate_url (sch ++ py "://" ++ auth ++ rest) = Return true
       ∧ Main.validate_url (sch ++ py "://" ++ auth ++ rest) = Return true).
Proof.
  destruct (validates_http_urls_of _ app_validate_url_eq) as (Happ & _).
  destruct (validates_http_urls_of _ main_validate_url_eq) as (Hmain & _).
  split.
  - intros url Hv.
    assert (http_url (text_to_split url)) as (sch & after & Ht & Hl & Hne & _)
      by (destruct Hv as [Hv|Hv]; [by apply Happ|by apply Hmain]).
    destruct after as [|c rest]; [done|]. exists sch, rest, c.
    split; [exact Ht|]. split; [exact Hl|].
    cbn [authority_of] in Hne. unfold ends_authority in Hne.
    by destruct (char_in c (py "/?#")).
  - intros sch auth rest Hl Hne Hauth Hrest Hhead.
    assert (http_url (text_to_split (sch ++ py "://" ++ auth ++ rest)))
      as Hurl.
    { destruct (host_char_no_delimiter _ Hauth) as [Hnd Hpa].
      destruct (host_char_facts _ Hauth) as (_ & Hasc & _ & _ & _ & Hlb & Hrb).
      destruct (http_scheme_facts _ Hl) as (c0 & r & -> & H0 & _ & _ & H32).
      cbn [forallb] in H32. apply andb_true_iff in H32 as [H32 Hr32].
      assert (forallb printable (auth ++ rest) = true) as Hp
        by (by rewrite forallb_app, Hpa, Hrest).
      destruct (printable_facts _ Hp) as [Hp32 Hplast].
      change ((c0 :: r) ++ py "://" ++ auth ++ rest)
        with (c0 :: (r ++ py "://" ++ auth ++ rest)).
      rewrite (text_to_split_printable c0 _ H0 H32).
      - exists (c0 :: r), (auth ++ rest).
        split; [reflexivity|]. split; [exact Hl|].
        rewrite (authority_of_app _ _ Hnd Hhead).
        split; [exact Hne|]. by apply plain_authority_passes.
      - rewrite forallb_app in Hp32.
        apply andb_true_iff in Hp32 as [Ha32 Hrest32].
        by rewrite !forallb_app, Hr32, Ha32, Hrest32.
      - replace (c0 :: r ++ py "://" ++ auth ++ rest)
          with ((c0 :: r ++ py "://") ++ (auth ++ rest))
          by (cbn [app]; by rewrite <- !app_assoc).
        rewrite last_app.
        destruct (last (auth ++ rest)) as [c|] eqn:Hlast; [exact Hplast|].
        apply last_None in Hlast. by destruct auth. }
    split; [by apply Happ|by apply Hmain].
Qed.

(** ** The statements at concrete inputs *)

Lemma fetch_models_classification_witness :
  UrlLib.urljoin (H := ascii_host) (rstrip (py "/") example_base ++ py "/")
    (py "models") = Return example_target
  ∧ Kind.fails_carrying
      (App.fetch_models (H := ascii_host) (answers 404 (Return VNone))
         (App.mk_client example_base None))
      Kind.NotFound example_target
  ∧ Kind.fails_carrying
      (Main.fetch_models (H := ascii_host) (answers 404 (Return VNone))
         (Main.mk_client example_base None))
      Kind.NotFound example_target.
Proof.
  split; [vm_compute; reflexivity|].
  destruct (fetch_models_classification (H := ascii_host)
              (answers 404 (Return VNone)) example_base None example_target)
    as [Happ Hmain]; [vm_compute; reflexivity|].
  split.
  - destruct Happ as (_ & _ & _ & _ & H404 & _).
    apply (H404 _ eq_refl eq_refl).
  - destruct Hmain as (_ & _ & _ & _ & H404 & _).
    apply (H404 _ eq_refl eq_refl).
Defined.

Lemma example_base_well_formed :
  well_formed_base (py "https") (py "api.example.com") [py "v1"].
Proof.
  unfold well_formed_base. split_and!; try (vm_compute; reflexivity).
  apply list_elem_of_In. vm_compute. auto.
Defined.

Lemma endpoint_keeps_base_path_witness :
  UrlLib.urljoin (H := ascii_host)
    (rstrip (py "/")
       (base_of (py "https") (py "api.example.com") [py "v1"]
        ++ replicate 2 (chr "/"))
     ++ py "/") (py "models")
  = Return (base_of (py "https") (py "api.example.com")
              ([py "v1"] ++ [py "models"])).
Proof.
  destruct (endpoint_keeps_base_path (H := ascii_host))
    as (_ & _ & _ & _ & _ & Hgen).
  apply Hgen. exact example_base_well_formed.
Defined.

Lemma validate_url_contract_witness :
  App.validate_url (H := ascii_host) example_base = Return true
  ∧ App.validate_url (H := ascii_host) (py "   ") = Return false.
Proof.
  destruct (validate_url_contract (H := ascii_host)) as ((Happ & _) & _).
  split.
  - destruct (Happ example_base) as (_ & Hiff & _). apply Hiff.
    eexists. split; [vm_compute; reflexivity|].
    split; [right; vm_compute; reflexivity|vm_compute; discriminate].
  - destruct (Happ (py "   ")) as (_ & _ & _ & Hblank & _).
    apply Hblank. vm_compute. reflexivity.
Defined.


Lemma two_models_listed : lists_a_model two_models_body.
Proof.
  exists [(py "data", VList (VDict <$> two_models))], two_models.
  split_and!; [reflexivity|vm_compute; reflexivity|discriminate].
Defined.

Lemma fetch_saves_when_models_listed_witness :
  main_saved noon (fresh_window example_base)
    (Main.fetch_invocation (H := ascii_host)
       (replies (Return two_models_body)) noon
       (fresh_window example_base)).2.
Proof.
  destruct (fetch_saves_when_models_listed (H := ascii_host)
              (replies (Return two_models_body)) noon)
    as [(_ & _ & _ & _ & _ & Hmain) _].
  destruct (Hmain (fresh_window example_base)) as (_ & _ & _ & Hsave).
  apply (Hsave ltac:(vm_compute; reflexivity) two_models_body).
  - vm_compute. reflexivity.
  - exact two_models_listed.
Defined.

Lemma load_never_raises_and_degrades_witness :
  Main.load (py "p1") ∅ = Return (mk_config VNone VNone).
Proof.
  destruct load_never_raises_and_degrades as (_ & Hdeg & _).
  apply Hdeg. left. vm_compute. reflexivity.
Defined.

Lemma p1_is_a_path_component : path_component (py "p1").
Proof.
  split; intros Hin; apply list_elem_of_In in Hin; vm_compute in Hin;
    intuition discriminate.
Defined.



Lemma fetch_models_raises_only_APIError_witness :
  ∃ e, App.fetch_models (H := ascii_host) (answers 503 (Return VNone))
         (App.__init__ example_base None) = Raise e
       ∧ cls e = APIError.
Proof.
  destruct (App.fetch_models (H := ascii_host) (answers 503 (Return VNone))
              (App.__init__ example_base None)) as [v|e] eqn:Hf.
  - exfalso. revert Hf. vm_compute. discriminate.
  - exists e. split; [reflexivity|].
    exact (proj1 (fetch_models_raises_only_APIError (H := ascii_host) _)
             _ _ Hf).
Defined.

Lemma fetch_models_sends_one_request_witness :
  App.fetch_models (H := ascii_host) (answers 401 (Return VNone))
    (App.__init__ example_base None)
  = App.fetch_models (H := ascii_host)
      (only_at example_target (mk_response 401 (Return VNone)))
      (App.__init__ example_base None).
Proof.
  refine (proj1 (proj1 (fetch_models_sends_one_request (H := ascii_host)
                          (answers 401 (Return VNone))
                          (only_at example_target
                             (mk_response 401 (Return VNone)))
                          example_base None) example_target _ _));
    vm_compute; reflexivity.
Defined.

Lemma fetch_models_returns_the_body_witness :
  App.fetch_models (H := ascii_host) (replies (Return two_models_body))
    (App.__init__ example_base None) = Return two_models_body.
Proof.
  refine (proj2 (proj1 (fetch_models_returns_the_body (H := ascii_host)
                          (replies (Return two_models_body)) example_base
                          None two_models_body)) _).
  exists example_target, (mk_response 200%Z (Return two_models_body)).
  split_and!; try (vm_compute; reflexivity).
  exists [(py "data", VList (VDict <$> two_models))], (VDict <$> two_models).
  split; vm_compute; reflexivity.
Defined.

Lemma invalid_input_stops_the_fetch_witness :
  Main.fetch_invocation (H := ascii_host) (replies (Return two_models_body))
    noon (fresh_window (py "ftp://example.com"))
  = (Return (),
     Main.on_home (Main.set_validation_label (Some (py "无效的URL格式")))
       (fresh_window (py "ftp://example.com"))).
Proof.
  rewrite (proj1 (invalid_input_stops_the_fetch (H := ascii_host)
                    (replies (Return two_models_body)) noon)
             (fresh_window (py "ftp://example.com")))
    by (vm_compute; reflexivity).
  vm_compute. reflexivity.
Defined.

Lemma failed_fetch_clears_the_models_witness :
  Main.model_ids
    (Main.home_page
       (Main.fetch_invocation (H := ascii_host) (answers 401 (Return VNone))
          noon (fresh_window example_base)).2) = []
  ∧ Main.loading
      (Main.home_page
         (Main.fetch_invocation (H := ascii_host)
            (answers 401 (Return VNone)) noon
            (fresh_window example_base)).2) = false.
Proof.
  rewrite (failed_fetch_clears_the_models (H := ascii_host)
             (answers 401 (Return VNone)) noon (fresh_window example_base)
             (mk_exn APIError (py "认证失败：API密钥无效或缺失")));
    [split; reflexivity | vm_compute; reflexivity | vm_compute; reflexivity].
Defined.

Lemma main_hint_shown_by_failure_witness :
  last (Main.info_bars
          (Main.fetch_invocation (H := ascii_host)
             (answers 401 (Return VNone)) noon
             (fresh_window example_base)).2)
  = Some (py "error",
          py "认证失败：API密钥无效或缺失" ++ [10%N]
          ++ py "提示: 检查BaseURL和网络").
Proof.
  exact (proj1 (proj1 (main_hint_shown_by_failure (H := ascii_host)
                         (answers 401 (Return VNone)) noon
                         (fresh_window example_base) example_target
                         ltac:(vm_compute; reflexivity)
                         ltac:(vm_compute; reflexivity))
                  (mk_response 401 (Return VNone))
                  ltac:(vm_compute; reflexivity)) eq_refl).
Defined.

Lemma app_error_callback_after_the_clause_witness :
  App.is_loading
    (App.fetch_invocation (H := ascii_host) (answers 401 (Return VNone))
       noon false (idle_app example_base)).2 = true.
Proof.
  rewrite (proj1 (app_error_callback_after_the_clause (H := ascii_host)
                    (answers 401 (Return VNone)) noon (idle_app example_base)
                    (mk_exn APIError
                       (py "认证失败：API密钥无效或缺失（401 Unauthorized）"))
                    ltac:(vm_compute; reflexivity)
                    ltac:(vm_compute; reflexivity))).
  reflexivity.
Defined.

Lemma element_that_is_no_object_stops_the_handler_witness :
  (Main._on_success noon (VDict model_and_number)
     (fresh_window example_base)).1
  = raise AttributeError (py "'int' object has no attribute 'get'").
Proof.
  rewrite (proj1 (element_that_is_no_object_stops_the_handler noon
                    model_and_number [[(py "id", VStr (py "gpt-x"))]]
                    (VInt 1) []
                    ltac:(vm_compute; reflexivity) eq_refl)).
  vm_compute. reflexivity.
Defined.

Lemma p2_is_a_path_component : path_component (py "p2").
Proof.
  split; intros Hin; apply list_elem_of_In in Hin; vm_compute in Hin;
    intuition discriminate.
Defined.

Lemma p1_is_not_p2 : py "p1" ≠ py "p2".
Proof. vm_compute. discriminate. Defined.

Lemma profiles_are_independent_witness :
  Main.load (py "p1") (Main.save (py "p2") example_base None noon ∅).2
  = Main.load (py "p1") ∅.
Proof.
  exact (proj1 (profiles_are_independent (py "p1") (py "p2") example_base
                  None noon ∅ p1_is_a_path_component p2_is_a_path_component
                  p1_is_not_p2)).
Defined.

Lemma p1_is_not_dot_json : py "p1" ≠ py ".json".
Proof. vm_compute. discriminate. Defined.

Lemma list_profiles_lists_the_records_witness :
  py "p1"
    ∈ Main.list_profiles (Main.written (py "p1") example_base None noon ∅).
Proof.
  refine (proj2 (proj1 (list_profiles_lists_the_records _) (py "p1")
                   p1_is_a_path_component ltac:(vm_compute; reflexivity)
                   p1_is_not_dot_json) _).
  unfold Main.written. rewrite lookup_insert_eq. by eexists.
Defined.

Lemma refresh_list_shows_the_store_witness :
  Main.list_profiles
    (Main.disk (Main._refresh_list noon (fresh_window example_base)).2)
  = [py "默认"].
Proof.
  destruct (refresh_list_shows_the_store noon (fresh_window example_base))
    as (_ & _ & _ & Hnone & _).
  apply Hnone. vm_compute. reflexivity.
Defined.



Lemma p1_is_not_default : py "p1" ≠ py "default".
Proof. vm_compute. discriminate. Defined.

Lemma p1_is_not_default_cn : py "p1" ≠ py "默认".
Proof. vm_compute. discriminate. Defined.

Lemma delete_profile_removes_one_record_witness :
  Main.disk (Main._delete_profile noon (py "p1") window_with_key).2
    !! Main._get_path (py "p1") = None.
Proof.
  exact (proj1 (proj2 (delete_profile_removes_one_record noon (py "p1")
                         window_with_key)
                  p1_is_a_path_component p1_is_not_default)
           p1_is_not_default_cn).
Defined.

Lemma switch_profile_keeps_what_the_record_lacks_witness :
  ∃ w', Main.switch_profile (py "p1") window_with_key = (Return (), w')
    ∧ Main.url_entry (Main.home_page w') = py "https://x/v1"
    ∧ Main.key_entry (Main.home_page w') = py "sk-old".
Proof.
  destruct (proj1 (switch_profile_keeps_what_the_record_lacks (py "p1")
                     window_with_key p1_is_a_path_component)
              (py "https://x/v1") []
              ltac:(vm_compute; reflexivity))
    as (w' & Hrun & _ & Hu & Hk & _).
  exists w'. split_and!; [exact Hrun | exact Hu | exact Hk].
Defined.

Lemma saved_inputs_return_on_restart_witness :
  ∃ w',
    Main.open_window noon
      (Main.disk
         (Main.fetch_invocation (H := ascii_host)
            (replies (Return two_models_body)) noon
            (fresh_window example_base)).2)
    = (Return (), w')
    ∧ Main.url_entry (Main.home_page w')
      = strip (Main.url_entry (Main.home_page (fresh_window example_base))).
Proof.
  assert ((Main.save (py "default")
             (strip (Main.url_entry
                       (Main.home_page (fresh_window example_base))))
             (Some (strip (Main.key_entry
                             (Main.home_page (fresh_window example_base)))))
             noon (Main.disk (fresh_window example_base))).1 = Return ())
    as Hret by (vm_compute; reflexivity).
  destruct (proj1 (saved_inputs_return_on_restart (H := ascii_host)
                     (replies (Return two_models_body)) noon noon)
              (fresh_window example_base) two_models_body
              eq_refl
              ltac:(vm_compute; reflexivity)
              ltac:(vm_compute; reflexivity)
              two_models_listed Hret)
    as (w' & Hrun & Hu & _).
  exists w'. split; [exact Hrun | exact Hu].
Defined.

Lemma emptying_the_url_entry_clears_the_configuration_witness :
  App.load_config (base.delete App.config_file (App.disk (idle_app [])))
  = Return (mk_config VNone VNone).
Proof.
  exact (proj2 (proj2 (emptying_the_url_entry_clears_the_configuration
                         (idle_app [])) eq_refl)).
Defined.

Lemma filter_models_shows_the_matching_models_witness :
  Main._filter_models (λ s, s) (py " GPT")
    (listing [py "gpt-4o"; py "llama-3"; py "GPT-3.5"]
       (fresh_window example_base))
  = (Return (),
     showing [VStr (py "gpt-4o"); VStr (py "GPT-3.5")]
       (listing [py "gpt-4o"; py "llama-3"; py "GPT-3.5"]
          (fresh_window example_base))).
Proof.
  rewrite (proj1 (filter_models_shows_the_matching_models (λ s, s)
                    (py " GPT")
                    (listing [py "gpt-4o"; py "llama-3"; py "GPT-3.5"]
                       (fresh_window example_base)))
             [py "gpt-4o"; py "llama-3"; py "GPT-3.5"]
             eq_refl ltac:(vm_compute; reflexivity)).
  vm_compute. reflexivity.
Defined.

Lemma export_writes_the_ids_shown_witness :
  Main._export (λ _ _, Return ()) (py "20250101_120000")
    (listing [py "gpt-4o"; py "llama-3"] (fresh_window example_base))
  = (Return (),
     Main.info_bar (py "success")
       (py "已导出到 model_ids_20250101_120000.txt")
       (listing [py "gpt-4o"; py "llama-3"] (fresh_window example_base))).
Proof.
  rewrite (proj1 (proj1 (proj2 (export_writes_the_ids_shown (λ _ _, Return ())
                                  (py "20250101_120000")
                                  (listing [py "gpt-4o"; py "llama-3"]
                                     (fresh_window example_base))))
                    [py "gpt-4o"; py "llama-3"]
                    ltac:(discriminate) eq_refl)).
  vm_compute. reflexivity.
Defined.

Lemma base_url_with_query_loses_its_last_segment_witness :
  App.endpoint_of (H := ascii_host)
    (App.__init__
       (base_of (py "https") (py "api.example.com") [py "v1"]
        ++ py "?" ++ py "x=1") None)
  = Return (base_of (py "https") (py "api.example.com")
              (removelast [py "v1"] ++ [py "models"])).
Proof.
  destruct (base_url_with_query_loses_its_last_segment (H := ascii_host)
              (py "https") (py "api.example.com") [py "v1"] (py "x=1")
              example_base_well_formed ltac:(vm_compute; reflexivity))
    as (_ & _ & Hep).
  exact (proj1 (Hep None)).
Defined.

Lemma validate_url_well_formed_witness :
  App.validate_url (H := ascii_host)
    (base_of (py "https") (py "api.example.com") [py "v1"]) = Return true.
Proof.
  exact (proj1 (validate_url_well_formed (H := ascii_host) _ _ _
                  example_base_well_formed)).
Defined.

Lemma successful_fetch_adds_to_the_models_shown_witness :
  Main.model_cards
    (Main.home_page
       (Main.fetch_meanwhile (H := ascii_host)
          (replies (Return two_models_body)) noon
          (Main.fetch_invocation (H := ascii_host)
             (replies (Return two_models_body)) noon)
          (fresh_window example_base)).2)
  = (model_id_of <$> two_models) ++ (model_id_of <$> two_models).
Proof.
  assert (Main.validate_url (H := ascii_host)
            (strip (Main.url_entry
                      (Main.home_page (fresh_window example_base))))
          = Return true) as Hv by (vm_compute; reflexivity).
  assert (Main.fetch_models (H := ascii_host)
            (replies (Return two_models_body))
            (Main.__init__
               (strip (Main.url_entry
                         (Main.home_page (fresh_window example_base))))
               (Some (strip (Main.key_entry
                               (Main.home_page
                                  (fresh_window example_base))))))
          = Return (VDict [(py "data", VList (VDict <$> two_models))]))
    as Hf by (vm_compute; reflexivity).
  assert (lookup_key (py "data")
            [(py "data", VList (VDict <$> two_models))]
          = Some (VList (VDict <$> two_models))) as Hdata
    by (vm_compute; reflexivity).
  exact (proj1 (proj2 (proj1 (successful_fetch_adds_to_the_models_shown
                               (H := ascii_host)
                               (replies (Return two_models_body)) noon)
                        (fresh_window example_base) _ two_models
                        Hv Hf Hdata))).
Defined.

Lemma http_in_capitals : lower (py "HTTP") ∈ [py "http"; py "https"].
Proof. apply list_elem_of_In. vm_compute. auto. Defined.

Lemma valid_url_is_scheme_and_authority_witness :
  App.validate_url (H := ascii_host)
    (py "HTTP" ++ py "://" ++ py ":80" ++ py "/x") = Return true.
Proof.
  assert (py ":80" ≠ []) as Hne by discriminate.
  assert (forallb host_char (py ":80") = true) as Hauth
    by (vm_compute; reflexivity).
  assert (forallb printable (py "/x") = true) as Hrest
    by (vm_compute; reflexivity).
  assert (match py "/x" with
          | [] => True
          | c :: _ => ends_authority c = true
          end) as Hhead by (vm_compute; reflexivity).
  exact (proj1 (proj2 (valid_url_is_scheme_and_authority (H := ascii_host))
                  (py "HTTP") (py ":80") (py "/x")
                  http_in_capitals Hne Hauth Hrest Hhead)).
Defined.
